(* ===== verification/_CoqProject ===== *)
-Q . S2P
Prelude.v
Settings.v
StateManager.v
Uri.v
Markdown.v
Base64.v
GitHub.v
Remote.v
Main.v
View.v
Workspace.v
System.v
