(* ===== verification/Prelude.v ===== *)
(** * A verification of ObsiGithub, an Obsidian plugin that publishes notes to GitHub

    ** The program

    ObsiGithub ([src/]) publishes a note of the vault, with the images it
    embeds, into a GitHub repository under a random ten-character id,
    and keeps, in the plugin's settings, the table [fileMap] (note path
    -> id) and the table [fileStatus] (note path -> published, unshared
    or unknown).  Its parts, and how they call each other:

    - the settings and the plugin object ([src/settings.ts],
      [loadSettings]/[saveSettings] of [src/main.ts]): the live settings,
      the data file [saveData] writes, and the GitHub service rebuilt on
      every save;
    - the state store [StateManager] ([src/core/state_manager.ts]): id
      allocation with local and remote collision checks and five
      retries, status updates, removal;
    - the content transformer [MarkdownProcessor.process]
      ([src/core/markdown_processor.ts]): a title line, then a global
      regex replace that rewrites every image link to the assets
      folder, through [decodeURI], the vault's link resolver and
      [encodeURI];
    - the GitHub service [GitHubService] ([src/core/github_service.ts]):
      [uploadFile] (sha lookup, then create or update with base64
      content), [checkPathExists], and the recursive [deletePath];
    - the orchestrator ([src/main.ts]): [publishNote] (requirements, id,
      transformation, note and asset uploads, link to the clipboard) and
      the file-menu handlers (check status, copy link, remove share);
    - the management view ([src/ui/management_view.ts]): the list of
      records with a live check, the rate-limited "Check Now", and the
      Unshare, Forget and Copy Link buttons; the ribbon icon opens it
      ([activateView] of [src/main.ts]) in the Obsidian workspace.

    ** The files

    - [Prelude.v] (this file): the result type and the state/exception
      monad [ST] that models the [async] methods (a throw is a value and
      keeps the mutations made before it, as JavaScript does), its loop
      [st_for] and lens [st_focus]; the invariant library [preserves]
      with the tactic [preserves_tac]; JavaScript string helpers; the
      hint databases [obsi] and [obsi_rw].
    - [Settings.v]: [ObsiGithubSettings], [DEFAULT_SETTINGS], the plugin
      object [Plugin] (settings, data file, service, number of random
      draws), [loadSettings] ([Object.assign] over the defaults),
      [saveSettings] and the settings tab's [onChange] handlers.
    - [StateManager.v], Module [StateManager]: [getUUID], [setUUID],
      [updateStatus], [getStatus], [generateUUID] (bytes modulo 2^8 then
      modulo 62), the retry loop [create_loop] and [getOrCreateUUID],
      [removeUUID]; the store invariant [store_wf].
    - [Uri.v], Module [Uri]: [encodeURI] and [decodeURI] on UTF-8
      octets, [URIError] as a thrown value.
    - [Markdown.v], Module [Markdown]: the regex as the backtracking
      matcher [match_at], proved equal to its declarative reading; the
      global scan, the callback [replacer] and [process].
    - [Base64.v], Module [Base64]: [toBase64] on 24-bit groups with
      [Z.shiftl]/[Z.shiftr]/[Z.land], and the decoder the remote applies.
    - [GitHub.v], Module [GitHub]: the interface [RemoteApi] (a
      typeclass over the three Octokit calls), the [World] (plugin,
      remote, notices, clipboard, and whether the browser allows a
      clipboard write) and the three service methods, with
      the theorems that hold for every remote.
    - [Remote.v], Module [Remote]: an in-memory repository as an
      instance of [RemoteApi] (token, owner, repo and branch checked;
      409/422 on stale or missing sha and on path conflicts), and a
      faulty variant whose writes to chosen paths fail; the refinement
      theorems of the service against it.
    - [Main.v], Module [Main]: [checkRequirements], [publishNote],
      [upload_assets], the file menu and its three handlers.
    - [View.v], Module [View]: [drawList] (one [Row] per record),
      [handleCheck] with [CHECK_COOLDOWN], [unshare_click],
      [forget_click], [copy_click] over a world with [lastCheckTime].
    - [Workspace.v], Module [Workspace]: the Obsidian workspace (leaves
      and the views they show), the view registration and
      [activateView]; [getRightLeaf] is the interface [WorkspaceApi]
      with its laws, discharged by two sidebars.
    - [System.v], Module [System]: every user action as one [step] of a
      state machine (with changes pushed to the repository from
      outside), [reachable], sessions [run_actions]; the class
      [StoreInv] of invariants of the store and its instances.

    ** What is proved

    - the store: idempotent and fresh allocation, exhaustion after five
      rejected draws, nothing written on a throw, [store_wf] kept by
      every operation on every branch ([StateManager.v]); in every world
      reachable by any sequence of user actions, ids are pairwise
      distinct and every record has a status, in memory and in the data
      file ([System.reachable_sys_inv]); every recorded id is ten
      characters of the id alphabet ([System.reachable_ids_typed]);
      from any world connected to the repository one "Check Now" brings
      every status in line with the repository
      ([System.check_now_converges]); a note keeps its id through
      any session without a confirmed Forget of it
      ([System.run_actions_keep_id]; Unshare keeps it, against the doc
      comment of [removeUUID]); but two publications of one note that
      interleave at the allocation's [await] get two different ids and
      leave the first recorded nowhere
      ([StateManager.race_same_note_orphans], for a random source that
      repeats no id among the draws involved);
    - the service, for every remote: the results of [uploadFile],
      [checkPathExists] and [deletePath] on each branch, errors included
      ([GitHub.v]); against the in-memory repository: upload stores the
      content, the existence check answers whether something is stored
      at or below the path, delete removes exactly the subtree
      ([Remote.v]);
    - the transformer: the matcher is the regex (soundness,
      completeness, laziness), the assets listed, the errors of
      malformed urls, the untouched unresolved links, the title line,
      the raw [#]/[?] of an asset name in its rewritten link
      ([Markdown.replacer_raw_delimiter]); [decodeURI] inverts
      [encodeURI]; [fromBase64] inverts [toBase64];
    - the orchestrator and the view: a first publication allocates an
      id under which the repository holds nothing (the remote check)
      and writes the note and its assets there, or changes nothing;
      republishing overwrites the same files under the same id, the
      requirements guard, the menu handlers
      and the live check record what the repository holds, the cooldown
      of "Check Now"; the link reaches the clipboard unless the browser
      refuses it;
    - the workspace: the ribbon reuses an open management view (and its
      cooldown clock), opens a fresh one in the right leaf otherwise,
      and never opens a second one ([Workspace.ribbon_at_most_one_view]);
    - the findings of PROJECT.json, each as a theorem: the asset counter
      counts failed uploads, republishing leaves an "unshared" status,
      forgetting keeps the status, a missing token marks every note
      unshared, a first publication without a token records the note as
      published though nothing was uploaded ([Main.publishNote_no_token]),
      a directory delete reports success after partial failure, a
      refused clipboard write in either Copy Link handler rejects it
      with no notice ([View.copy_link_handlers]), an asset named with
      [?] or [#] gets a link that stops at that character.

    ** Fuel and bounds

    [deletePath_go] recurses on the remote tree with fuel
    [S (tree_depth remote)]; for the in-memory repository [tree_depth]
    is the length of the longest stored path, which bounds the nesting
    depth, so the fuel never runs out ([Remote.deletePath_go_outside]).
    [Uri.decode_go] and [Markdown.scan_go] get the input's length as
    fuel, and more fuel changes nothing ([decode_go_enough_fuel],
    [scan_enough_fuel]).  [create_loop] gets [MAX_RETRIES] iterations,
    the bound of the source's [while].

    ** Not modelled

    The DOM (elements, icons, styles, the settings tab's fields),
    [console] output, the "Open Link" button ([window.open] leaves the
    app), Obsidian's own implementation of [getRightLeaf] (only its
    laws are assumed), [refreshManagementView] (in [View.v]; it changes
    nothing, so the handlers leave it out), Obsidian's link resolution (a parameter
    [resolver] of the app), the order of [Object.entries] (rows come
    in key order), the interleaving of handlers at their [await]
    points in general (the state machine of [System.v] runs each handler
    to completion; only the allocation's await is split, in
    [StateManager.v]) and the network: GitHub is
    the interface [RemoteApi], of which [Remote.v] is one model. *)

From stdpp Require Export base gmap strings list.
From Stdlib Require Export ZArith Lia Ascii.
From Stdlib Require String.

Declare Scope obsi_scope.
Delimit Scope obsi_scope with obsi.
Open Scope obsi_scope.

Create HintDb obsi.
Create Rewrite HintDb obsi_rw.

(** ** Errors and results *)

(** A JavaScript [Error] as the code sees it: an optional HTTP [status]
    (set by Octokit's [RequestError]) and a [message]. *)
Record JsError := mkErr { e_status : option Z; e_message : string }.

Definition plain_error (msg : string) : JsError := mkErr None msg.

Inductive Result (E A : Type) : Type :=
| Ok (a : A)
| Throw (e : E).
Arguments Ok {E A} a.
Arguments Throw {E A} e.

(** ** The state/exception monad *)

Definition ST (S E A : Type) : Type := S -> Result E A * S.

Definition st_ret {S E A} (a : A) : ST S E A := fun s => (Ok a, s).

Definition st_bind {S E A B} (m : ST S E A) (k : A -> ST S E B) : ST S E B :=
  fun s => match m s with
           | (Ok a, s') => k a s'
           | (Throw e, s') => (Throw e, s')
           end.

Definition st_throw {S E A} (e : E) : ST S E A := fun s => (Throw e, s).
Definition st_get {S E} : ST S E S := fun s => (Ok s, s).
Definition st_gets {S E A} (f : S -> A) : ST S E A := fun s => (Ok (f s), s).
Definition st_modify {S E} (f : S -> S) : ST S E unit := fun s => (Ok tt, f s).

(** [try { m } catch (e) { h(e) }] *)
Definition st_catch {S E A} (m : ST S E A) (h : E -> ST S E A) : ST S E A :=
  fun s => match m s with
           | (Throw e, s') => h e s'
           | r => r
           end.

(** Lift a pure fallible value (e.g. a callback result) into [ST]. *)
Definition st_lift {S E A} (r : Result E A) : ST S E A := fun s => (r, s).

Notation "'let*' x ':=' m 'in' k" := (st_bind m (fun x => k))
  (at level 10, x name, m at level 100, k at level 200) : obsi_scope.
Notation "'do*' m 'in' k" := (st_bind m (fun _ => k))
  (at level 10, m at level 100, k at level 200) : obsi_scope.

(** Running a computation: the value, the final state. *)
Definition st_value {S E A} (m : ST S E A) (s : S) : Result E A := fst (m s).
Definition st_state {S E A} (m : ST S E A) (s : S) : S := snd (m s).

Lemma st_bind_ret_l {S E A B} (a : A) (k : A -> ST S E B) s :
  st_bind (st_ret a) k s = k a s.
Proof. reflexivity. Qed.

Lemma st_bind_assoc {S E A B C} (m : ST S E A) (k : A -> ST S E B)
      (k' : B -> ST S E C) s :
  st_bind (st_bind m k) k' s = st_bind m (fun a => st_bind (k a) k') s.
Proof. unfold st_bind. by destruct (m s) as [[a|e] s']. Qed.

Lemma st_bind_ok {S E A B} (m : ST S E A) (k : A -> ST S E B) s a s' :
  m s = (Ok a, s') -> st_bind m k s = k a s'.
Proof. intros H. unfold st_bind. by rewrite H. Qed.

Lemma st_bind_throw {S E A B} (m : ST S E A) (k : A -> ST S E B) s e s' :
  m s = (Throw e, s') -> st_bind m k s = (Throw e, s').
Proof. intros H. unfold st_bind. by rewrite H. Qed.

#[export] Hint Rewrite @st_bind_ret_l @st_bind_assoc : obsi_rw.

(** [for (const x of xs) { await body(x); }]: a throw leaves the loop. *)
Fixpoint st_for {S E A} (xs : list A) (body : A -> ST S E unit) : ST S E unit :=
  match xs with
  | [] => st_ret tt
  | x :: xs' => st_bind (body x) (fun _ => st_for xs' body)
  end.

(** Run a computation on one part of a larger state (a field of an
    object graph), leaving the rest as it is. *)
Definition st_focus {S T E A} (get : S -> T) (put : T -> S -> S) (m : ST T E A) : ST S E A :=
  fun s => let '(r, t) := m (get s) in (r, put t s).

Lemma st_bind_ext {S E A B} (m : ST S E A) (k k' : A -> ST S E B) s :
  (forall a s', k a s' = k' a s') -> st_bind m k s = st_bind m k' s.
Proof. intros H. unfold st_bind. destruct (m s) as [[a|e] s']; [apply H|done]. Qed.

(** A loop whose body never throws and keeps [P] never throws and keeps [P]. *)
Lemma st_for_ok {S E A} (P : S -> Prop) (xs : list A) (body : A -> ST S E unit) s :
  (forall x s, In x xs -> P s -> exists s', body x s = (Ok tt, s') /\ P s') ->
  P s -> exists s', st_for xs body s = (Ok tt, s') /\ P s'.
Proof.
  revert s. induction xs as [|x xs IH]; intros s Hb Hs; [by exists s|].
  destruct (Hb x s (or_introl eq_refl) Hs) as (s' & Hx & Hs'). cbn [st_for].
  rewrite (st_bind_ok _ _ _ _ _ Hx). apply IH; [|done]. intros y t Hy. apply Hb. by right.
Qed.

(** The loop over a concatenation is the two loops in sequence. *)
Lemma st_for_app {S E A} (xs ys : list A) (body : A -> ST S E unit) s :
  st_for (xs ++ ys) body s = st_bind (st_for xs body) (fun _ => st_for ys body) s.
Proof.
  revert s. induction xs as [|x xs IH]; intros s; [done|].
  cbn [app st_for]. rewrite st_bind_assoc. apply st_bind_ext. intros _ s'. apply IH.
Qed.

(** An invariant of the state that every iteration keeps holds after
    the loop, whatever it returns. *)
Lemma st_for_invariant {S E A} (P : S -> Prop) (xs : list A) (body : A -> ST S E unit) s :
  (forall x s, In x xs -> P s -> P (st_state (body x) s)) ->
  P s -> P (st_state (st_for xs body) s).
Proof.
  revert s. induction xs as [|x xs IH]; intros s Hb Hs; [done|].
  pose proof (Hb x s (or_introl eq_refl) Hs) as Hx. unfold st_state in *.
  cbn [st_for]. unfold st_bind.
  destruct (body x s) as [[[]|e] s'] eqn:Ex; cbn [snd] in *; [|done].
  apply IH; [|done]. intros y t Hy. apply Hb. by right.
Qed.

(** Unfold the monad plumbing of a goal. *)
Ltac st_simpl :=
  cbv [st_bind st_ret st_throw st_get st_gets st_modify st_catch st_lift
       st_value st_state] in *; simpl in *.

Ltac invc H := inversion H; subst; clear H.

(** ** Invariants of computations *)

(** [m] keeps [P]: from a state satisfying [P], every run of [m] ends
    (returning or throwing) in a state satisfying [P]. *)
Definition preserves {S E A} (P : S -> Prop) (m : ST S E A) : Prop :=
  forall s, P s -> P (st_state m s).

Section Preserves.
Context {S E : Type} (P : S -> Prop).

Lemma preserves_ret {A} (a : A) : preserves (E:=E) P (st_ret a).
Proof. by intros s. Qed.
Lemma preserves_throw {A} (e : E) : preserves (A:=A) P (st_throw e).
Proof. by intros s. Qed.
Lemma preserves_get : preserves (E:=E) P st_get.
Proof. by intros s. Qed.
Lemma preserves_gets {A} (f : S -> A) : preserves (E:=E) P (st_gets f).
Proof. by intros s. Qed.
Lemma preserves_lift {A} (r : Result E A) : preserves P (st_lift r).
Proof. by intros s. Qed.
Lemma preserves_modify (f : S -> S) :
  (forall s, P s -> P (f s)) -> preserves (E:=E) P (st_modify f).
Proof. intros H s. apply H. Qed.

Lemma preserves_bind {A B} (m : ST S E A) (k : A -> ST S E B) :
  preserves P m -> (forall a, preserves P (k a)) -> preserves P (st_bind m k).
Proof.
  intros Hm Hk s Hs. pose proof (Hm s Hs) as Hm'. unfold st_state in Hm' |- *. unfold st_bind.
  destruct (m s) as [[a|e] s']; cbn [snd] in *; [exact (Hk a s' Hm')|done].
Qed.

Lemma preserves_catch {A} (m : ST S E A) (h : E -> ST S E A) :
  preserves P m -> (forall e, preserves P (h e)) -> preserves P (st_catch m h).
Proof.
  intros Hm Hh s Hs. pose proof (Hm s Hs) as Hm'. unfold st_state in Hm' |- *. unfold st_catch.
  destruct (m s) as [[a|e] s']; cbn [snd] in *; [done|exact (Hh e s' Hm')].
Qed.

Lemma preserves_for {A} (xs : list A) (body : A -> ST S E unit) :
  (forall x, preserves P (body x)) -> preserves P (st_for xs body).
Proof.
  intros Hb. induction xs as [|x xs IH]; [apply preserves_ret|].
  apply preserves_bind; auto.
Qed.

Lemma preserves_weaken {A} (Q : S -> Prop) (m : ST S E A) :
  (forall s, P s -> Q s) -> (forall s, Q s -> P s) -> preserves Q m -> preserves P m.
Proof. intros H1 H2 Hm s Hs. apply H2, Hm, H1, Hs. Qed.

End Preserves.

#[export] Hint Resolve preserves_ret preserves_throw preserves_get preserves_gets
  preserves_lift : obsi.

(** Break a computation into its primitive steps, case-splitting on the
    values its continuations inspect, and close what [obsi] knows. *)
Ltac preserves_tac :=
  repeat match goal with
  | |- forall _, _ => intros
  | |- preserves _ (st_bind _ _) => apply preserves_bind
  | |- preserves _ (st_catch _ _) => apply preserves_catch
  | |- preserves _ (st_for _ _) => apply preserves_for
  | |- preserves _ (match ?x with _ => _ end) => destruct x
  | |- preserves _ (if ?b then _ else _) => destruct b
  end; eauto with obsi.

(** ** JavaScript strings *)

(** [if (s)] on a string: only the empty string is falsy. *)
Definition js_truthy (s : string) : bool :=
  match s with EmptyString => false | _ => true end.

(** [s[i]] on a string: one character, or [undefined] out of range;
    [id += undefined] appends the text "undefined". *)
Definition js_char_at (s : string) (i : nat) : string :=
  match String.get i s with
  | Some c => String c EmptyString
  | None => "undefined"
  end.

Lemma js_char_at_in_range s i :
  i < String.length s -> exists c, String.get i s = Some c /\
                                   js_char_at s i = String c EmptyString.
Proof.
  revert i. induction s as [|c s IH]; intros i Hi; simpl in Hi; [lia|].
  destruct i as [|i]; simpl.
  - by exists c.
  - destruct (IH i ltac:(lia)) as (c' & Hg & Hc). exists c'.
    unfold js_char_at in *. simpl. by rewrite Hg.
Qed.

Lemma string_app_cons (c : ascii) (s t : string) :
  String c s +:+ t = String c (s +:+ t).
Proof. reflexivity. Qed.

Lemma string_app_nil_l (t : string) : "" +:+ t = t.
Proof. reflexivity. Qed.

Lemma string_app_nil_r (s : string) : s +:+ "" = s.
Proof. induction s as [|c s IH]; [done|]. by rewrite string_app_cons, IH. Qed.

Lemma string_app_assoc (s t u : string) : (s +:+ t) +:+ u = s +:+ (t +:+ u).
Proof. induction s as [|c s IH]; [done|]. by rewrite !string_app_cons, IH. Qed.

Lemma string_length_app (s t : string) :
  String.length (s +:+ t) = String.length s + String.length t.
Proof. induction s as [|c s IH]; [done|]. rewrite string_app_cons. simpl. lia. Qed.

#[export] Hint Rewrite string_app_cons string_app_nil_l string_app_nil_r
  string_app_assoc string_length_app : obsi_rw.

(** ** [Object.values(o).includes(x)] *)

Definition values {V} (m : gmap string V) : list V := (map_to_list m).*2.

Definition includes `{EqDecision V} (l : list V) (x : V) : bool :=
  bool_decide (x ∈ l).

Lemma elem_of_values {V} (m : gmap string V) (v : V) :
  v ∈ values m <-> exists k, m !! k = Some v.
Proof.
  unfold values. rewrite list_elem_of_fmap. split.
  - intros ([k v'] & -> & Hin). apply elem_of_map_to_list in Hin. by exists k.
  - intros [k Hk]. exists (k, v). split; [done|]. by apply elem_of_map_to_list.
Qed.

Lemma includes_values `{EqDecision V} (m : gmap string V) (v : V) :
  includes (values m) v = true <-> exists k, m !! k = Some v.
Proof. unfold includes. rewrite bool_decide_eq_true. apply elem_of_values. Qed.

(** A map whose values are pairwise distinct: no two keys share a value. *)
Definition map_injective {V} (m : gmap string V) : Prop :=
  forall k1 k2 v, m !! k1 = Some v -> m !! k2 = Some v -> k1 = k2.

Lemma map_injective_insert_fresh {V} (m : gmap string V) k v :
  map_injective m -> (forall k', m !! k' <> Some v) ->
  map_injective (<[k:=v]> m).
Proof.
  intros Hinj Hfresh k1 k2 w H1 H2.
  rewrite lookup_insert in H1, H2.
  repeat case_decide; simplify_eq; try done;
    [exfalso; by eapply Hfresh | exfalso; by eapply Hfresh | eauto].
Qed.

Lemma map_injective_delete {V} (m : gmap string V) k :
  map_injective m -> map_injective (delete k m).
Proof.
  intros Hinj k1 k2 w H1 H2. rewrite lookup_delete_Some in H1, H2.
  destruct H1, H2. eauto.
Qed.

#[export] Hint Resolve map_injective_insert_fresh map_injective_delete : obsi.

(** ** Strings as lists of characters *)

Lemma list_ascii_of_string_app (s t : string) :
  String.list_ascii_of_string (s +:+ t) = String.list_ascii_of_string s ++ String.list_ascii_of_string t.
Proof. induction s as [|c s IH]; [done|]. simpl. by rewrite IH. Qed.

Lemma length_list_ascii_of_string (s : string) :
  length (String.list_ascii_of_string s) = String.length s.
Proof. induction s as [|c s IH]; [done|]. simpl. by rewrite IH. Qed.

Lemma string_get_elem_of (s : string) i c :
  String.get i s = Some c -> c ∈ String.list_ascii_of_string s.
Proof.
  revert i. induction s as [|c' s IH]; intros [|i] H; simpl in H; try done.
  - simplify_eq. by left.
  - right. by eapply IH.
Qed.

#[export] Hint Rewrite list_ascii_of_string_app length_list_ascii_of_string : obsi_rw.

(** ** Boolean comparisons on [N] *)

(** Turn the boolean tests of the code ([<=?], [<?], [=?], [&&], [||])
    on [N] into propositions [lia] can use. *)
Ltac nbool :=
  repeat first
    [ rewrite andb_true_iff in * | rewrite orb_true_iff in *
    | rewrite andb_false_iff in * | rewrite orb_false_iff in *
    | rewrite N.leb_le in * | rewrite N.ltb_lt in * | rewrite N.eqb_eq in *
    | rewrite N.leb_gt in * | rewrite N.ltb_ge in * | rewrite N.eqb_neq in * ].

(** ** Results and strings *)

Definition res_map {E A B} (f : A -> B) (r : Result E A) : Result E B :=
  match r with Ok a => Ok (f a) | Throw e => Throw e end.

Lemma string_app_inj_len (x y t t' : string) :
  String.length x = String.length y -> x +:+ t = y +:+ t' -> x = y /\ t = t'.
Proof.
  revert y. induction x as [|c x IH]; intros [|d y] Hl H; simpl in *; try lia; [done|].
  injection H as -> H. destruct (IH y ltac:(lia) H) as [-> ->]. done.
Qed.

Lemma not_in_list_ascii_app (c : ascii) (s t : string) :
  ~ In c (String.list_ascii_of_string s) -> ~ In c (String.list_ascii_of_string t) ->
  ~ In c (String.list_ascii_of_string (s +:+ t)).
Proof. rewrite list_ascii_of_string_app, in_app_iff. tauto. Qed.
