(* ===== verification/Settings.v ===== *)
(** * Settings: the persisted configuration and the plugin object

    Models [src/settings.ts] (the [ObsiGithubSettings] interface, its
    [DEFAULT_SETTINGS] and the five [onChange] handlers of the settings
    tab), the plugin's [loadSettings]/[saveSettings] of [src/main.ts], and
    [GitHubService.updateSettings]/constructor of
    [src/core/github_service.ts], which [saveSettings] calls.

    The plugin object [Plugin] is the state every component method runs
    against: the live settings object, the JSON last written by
    [saveData] (the plugin's data file), the GitHub service (its Octokit
    client, represented by the token it was built with) and the number of
    calls made to [crypto.getRandomValues] so far.  The service holds a
    reference to the very same settings object as the plugin (the
    constructor receives [this.settings]), so it has no copy of its own:
    the model reads [settings] for both. *)

From S2P Require Import Prelude.

Module Settings.

Inductive Status := published | unshared | unknown.

#[export] Instance Status_eq_dec : EqDecision Status.
Proof. solve_decision. Defined.

Record ObsiGithubSettings := mkSettings {
  githubToken : string;
  owner : string;
  repo : string;
  branch : string;
  assetsFolderName : string;
  fileMap : gmap string string;
  fileStatus : gmap string Status;
}.

Definition DEFAULT_SETTINGS : ObsiGithubSettings :=
  mkSettings "" "" "" "main" "assets" ∅ ∅.

(** Field updates of the settings object. *)
Definition set_fileMap (m : gmap string string) (s : ObsiGithubSettings) :=
  mkSettings (githubToken s) (owner s) (repo s) (branch s) (assetsFolderName s)
             m (fileStatus s).
Definition set_fileStatus (m : gmap string Status) (s : ObsiGithubSettings) :=
  mkSettings (githubToken s) (owner s) (repo s) (branch s) (assetsFolderName s)
             (fileMap s) m.

(** ** The data file

    [loadData()] returns the parsed JSON object, each of whose properties
    may be missing ([None]); it returns [null] when nothing was ever
    saved, which [Object.assign] treats as an object with no property. *)
Record SavedData := mkData {
  d_githubToken : option string;
  d_owner : option string;
  d_repo : option string;
  d_branch : option string;
  d_assetsFolderName : option string;
  d_fileMap : option (gmap string string);
  d_fileStatus : option (gmap string Status);
}.

Definition no_data : SavedData := mkData None None None None None None None.

(** [saveData(this.settings)]: every property of the object is written. *)
Definition to_data (s : ObsiGithubSettings) : SavedData :=
  mkData (Some (githubToken s)) (Some (owner s)) (Some (repo s)) (Some (branch s))
         (Some (assetsFolderName s)) (Some (fileMap s)) (Some (fileStatus s)).

Definition assign_field {A} (dflt : A) (o : option A) : A :=
  match o with Some a => a | None => dflt end.

(** [Object.assign({}, DEFAULT_SETTINGS, data)]: a property of [data]
    overrides the default one. *)
Definition assign (dflt : ObsiGithubSettings) (d : SavedData) : ObsiGithubSettings :=
  mkSettings (assign_field (githubToken dflt) (d_githubToken d))
             (assign_field (owner dflt) (d_owner d))
             (assign_field (repo dflt) (d_repo d))
             (assign_field (branch dflt) (d_branch d))
             (assign_field (assetsFolderName dflt) (d_assetsFolderName d))
             (assign_field (fileMap dflt) (d_fileMap d))
             (assign_field (fileStatus dflt) (d_fileStatus d)).

(** ** The GitHub service's client *)

(** [GitHubService] keeps an [Octokit] client, [null] until a token is
    seen; the client is represented by the token it authenticates with. *)
Record GitHubService := mkService { octokit : option string }.

(** [updateSettings(settings)]: a new client only when the token is
    truthy; an empty token leaves the previous client in place. *)
Definition updateSettings (s : ObsiGithubSettings) (svc : GitHubService) : GitHubService :=
  if js_truthy (githubToken s) then mkService (Some (githubToken s)) else svc.

(** [new GitHubService(settings)] *)
Definition new_GitHubService (s : ObsiGithubSettings) : GitHubService :=
  updateSettings s (mkService None).

(** ** The plugin object *)

Record Plugin := mkPlugin {
  settings : ObsiGithubSettings;
  data : option SavedData;          (** the data file; [None]: never written *)
  githubService : option GitHubService;  (** [undefined] before [onload] builds it *)
  draws : nat;                      (** calls to [crypto.getRandomValues] so far *)
}.

Definition set_settings (s : ObsiGithubSettings) (p : Plugin) : Plugin :=
  mkPlugin s (data p) (githubService p) (draws p).

(** Methods of the plugin may throw a JavaScript error. *)
Abbreviation PM := (ST Plugin JsError).

(** [if (this.githubService) this.githubService.updateSettings(this.settings)] *)
Definition refresh_service (p : Plugin) : option GitHubService :=
  match githubService p with
  | Some svc => Some (updateSettings (settings p) svc)
  | None => None
  end.

(** [saveSettings()]: write the data file, then refresh the service. *)
Definition saveSettings : PM unit :=
  st_modify (fun p => mkPlugin (settings p) (Some (to_data (settings p)))
                               (refresh_service p) (draws p)).

(** [loadSettings()]: merge the data file over the defaults. *)
Definition loadSettings : PM unit :=
  st_modify (fun p =>
    let s := assign DEFAULT_SETTINGS (default no_data (data p)) in
    mkPlugin s (data p) (refresh_service (set_settings s p)) (draws p)).

(** [onload()], the part that builds state: load the settings, then
    construct the service over the loaded settings object. *)
Definition onload_state : PM unit :=
  do* loadSettings in
  st_modify (fun p => mkPlugin (settings p) (data p)
                               (Some (new_GitHubService (settings p))) (draws p)).

(** ** The settings tab *)

Inductive SettingField :=
| FToken | FOwner | FRepo | FBranch | FAssetsFolder.

Definition set_field (f : SettingField) (v : string) (s : ObsiGithubSettings)
  : ObsiGithubSettings :=
  match f with
  | FToken => mkSettings v (owner s) (repo s) (branch s) (assetsFolderName s) (fileMap s) (fileStatus s)
  | FOwner => mkSettings (githubToken s) v (repo s) (branch s) (assetsFolderName s) (fileMap s) (fileStatus s)
  | FRepo => mkSettings (githubToken s) (owner s) v (branch s) (assetsFolderName s) (fileMap s) (fileStatus s)
  | FBranch => mkSettings (githubToken s) (owner s) (repo s) v (assetsFolderName s) (fileMap s) (fileStatus s)
  | FAssetsFolder => mkSettings (githubToken s) (owner s) (repo s) (branch s) v (fileMap s) (fileStatus s)
  end.

(** [.onChange(async (value) => { this.plugin.settings.X = value;
    await this.plugin.saveSettings(); })] *)
Definition setting_onChange (f : SettingField) (v : string) : PM unit :=
  do* st_modify (fun p => set_settings (set_field f v (settings p)) p) in
  saveSettings.

(** ** Projections of the setters *)

Lemma fileMap_set_fileMap m s : fileMap (set_fileMap m s) = m.
Proof. reflexivity. Qed.
Lemma fileStatus_set_fileMap m s : fileStatus (set_fileMap m s) = fileStatus s.
Proof. reflexivity. Qed.
Lemma fileMap_set_fileStatus m s : fileMap (set_fileStatus m s) = fileMap s.
Proof. reflexivity. Qed.
Lemma fileStatus_set_fileStatus m s : fileStatus (set_fileStatus m s) = m.
Proof. reflexivity. Qed.
Lemma settings_set_settings s p : settings (set_settings s p) = s.
Proof. reflexivity. Qed.

#[export] Hint Rewrite fileMap_set_fileMap fileStatus_set_fileMap fileMap_set_fileStatus
  fileStatus_set_fileStatus settings_set_settings : obsi_rw.

(** Normalise projections of a plugin state built by the model. *)
Ltac plugin_simpl :=
  cbn [fst snd settings data githubService draws] in *;
  autorewrite with obsi_rw in *.

(** ** The client and the token *)

(** The service's client carries the settings' token whenever that
    token is set: what [updateSettings] establishes and [saveSettings]
    then keeps. *)
Definition synced (p : Plugin) : Prop :=
  forall svc, githubService p = Some svc ->
  js_truthy (githubToken (settings p)) = true -> octokit svc = Some (githubToken (settings p)).

Lemma refresh_service_synced p : synced p -> refresh_service p = githubService p.
Proof.
  intros Hs. unfold refresh_service. destruct (githubService p) as [svc|] eqn:E; [|done].
  f_equal. unfold updateSettings. destruct (js_truthy _) eqn:T; [|done].
  destruct svc as [o]. cbn. f_equal. symmetry. by apply (Hs (mkService o)).
Qed.

Lemma saveSettings_service p : synced p -> githubService (st_state saveSettings p) = githubService p.
Proof. apply refresh_service_synced. Qed.

Lemma saveSettings_synced p : synced (st_state saveSettings p).
Proof.
  intros svc. cbn. unfold refresh_service. destruct (githubService p) as [svc0|]; [|done].
  intros [= <-]. unfold updateSettings. intros T. by rewrite T.
Qed.

(** ** Persistence *)

(** The data file holds exactly the live settings. *)
Definition persisted (p : Plugin) : Prop := data p = Some (to_data (settings p)).

Lemma assign_to_data dflt s : assign dflt (to_data s) = s.
Proof. by destruct s. Qed.

Lemma saveSettings_persisted p : persisted (st_state saveSettings p).
Proof. reflexivity. Qed.

Lemma saveSettings_settings p : settings (st_state saveSettings p) = settings p.
Proof. reflexivity. Qed.

#[export] Hint Resolve saveSettings_persisted : obsi.
#[export] Hint Rewrite saveSettings_settings : obsi_rw.

(** C33: save/load round trip.  Loading the data file that [saveSettings]
    wrote restores the settings object field for field, whatever the
    defaults are. *)
Theorem load_after_save p :
  settings (st_state loadSettings (st_state saveSettings p)) = settings p.
Proof. unfold st_state. simpl. apply assign_to_data. Qed.

(** A fresh install (no data file) starts from [DEFAULT_SETTINGS]:
    branch [main], assets folder [assets], empty tables. *)
Theorem load_fresh_install p :
  data p = None -> settings (st_state loadSettings p) = DEFAULT_SETTINGS.
Proof. intros H. unfold st_state. simpl. by rewrite H. Qed.

(** Every settings-tab edit is written to the data file before the
    handler returns. *)
Theorem setting_onChange_persisted f v p :
  persisted (st_state (setting_onChange f v) p)
  /\ settings (st_state (setting_onChange f v) p) = set_field f v (settings p).
Proof. split; reflexivity. Qed.

(** C34: clearing the token does not disable the service.  After the
    token field is set to the empty string, the service keeps the
    Octokit client built with the previous token, so uploads and deletes
    still authenticate with it. *)
Theorem clear_token_keeps_client p svc :
  githubService p = Some svc ->
  githubService (st_state (setting_onChange FToken "") p) = Some svc.
Proof. destruct p as [s d svc' n]. simpl. intros ->. reflexivity. Qed.

(** ** Concrete runs *)

Definition plugin_fresh : Plugin := mkPlugin DEFAULT_SETTINGS None None 0.

Definition plugin_with_token (tok : string) : Plugin :=
  let s := set_field FToken tok DEFAULT_SETTINGS in
  mkPlugin s (Some (to_data s)) (Some (new_GitHubService s)) 0.

Lemma load_fresh_install_witness :
  settings (st_state loadSettings plugin_fresh) = DEFAULT_SETTINGS.
Proof. apply load_fresh_install. reflexivity. Defined.

Lemma clear_token_keeps_client_witness :
  githubService (st_state (setting_onChange FToken "") (plugin_with_token "ghp_old"))
  = Some (mkService (Some "ghp_old")).
Proof. apply clear_token_keeps_client. reflexivity. Defined.

End Settings.
