(* ===== verification/StateManager.v ===== *)
(** * StateManager: the identifier allocator and the publication state store

    Models [src/core/state_manager.ts].  The two tables [fileMap]
    (local path -> remote id) and [fileStatus] (local path -> status) live
    in the plugin's settings object ([Settings.v]); every mutation ends
    with [saveSettings()], which writes the data file.

    The random source is [crypto.getRandomValues]: the section variable
    [getRandomValues k i] is the [i]-th value written into the
    [Uint8Array] by the [k]-th call ([Plugin.draws] counts the calls).  A
    [Uint8Array] stores each value modulo [2^8], written out as
    [to_uint8].  The remote collision callback of [getOrCreateUUID] is a
    fallible function of the candidate id: it may answer or throw.

    The allocation awaits the remote check before it records the id.
    [alloc_until_await] is the part that runs before that await,
    [alloc_resume] the rest; [getOrCreateUUID_split] shows that the two
    run back to back are [getOrCreateUUID], and [race_same_note] runs
    two allocations of one note interleaved at the await, which
    [race_same_note_orphans] shows loses the first id. *)

From S2P Require Import Prelude Settings.

Module StateManager.

Import Settings.

Section WithRandom.

Variable getRandomValues : nat -> nat -> Z.

(** [getUUID(localPath)]: [undefined] is [None]. *)
Definition getUUID (localPath : string) (p : Plugin) : option string :=
  fileMap (settings p) !! localPath.

Definition put_uuid (localPath uuid : string) (s : ObsiGithubSettings) : ObsiGithubSettings :=
  set_fileStatus (<[localPath:=published]> (fileStatus s))
                 (set_fileMap (<[localPath:=uuid]> (fileMap s)) s).

Lemma fileMap_put_uuid path u s : fileMap (put_uuid path u s) = <[path:=u]> (fileMap s).
Proof. reflexivity. Qed.
Lemma fileStatus_put_uuid path u s :
  fileStatus (put_uuid path u s) = <[path:=published]> (fileStatus s).
Proof. reflexivity. Qed.
#[local] Hint Rewrite fileMap_put_uuid fileStatus_put_uuid : obsi_rw.

(** [setUUID(localPath, uuid)] *)
Definition setUUID (localPath uuid : string) : PM unit :=
  do* st_modify (fun p => set_settings (put_uuid localPath uuid (settings p)) p) in
  saveSettings.

(** [updateStatus(localPath, status)] *)
Definition updateStatus (localPath : string) (status : Status) : PM unit :=
  do* st_modify (fun p =>
        set_settings (set_fileStatus (<[localPath:=status]> (fileStatus (settings p)))
                                     (settings p)) p) in
  saveSettings.

(** [getStatus(localPath)]: [s ? s : 'unknown'] *)
Definition getStatus (localPath : string) (p : Plugin) : Status :=
  match fileStatus (settings p) !! localPath with
  | Some s => s
  | None => unknown
  end.

Definition chars : string :=
  "ABCDEFGHIJKLMNOPQRSTUVWXYZabcdefghijklmnopqrstuvwxyz0123456789".

(** A [Uint8Array] element: the value modulo [2^8]. *)
Definition to_uint8 (z : Z) : Z := Z.land z 255.

(** The array filled by the [k]-th call of [crypto.getRandomValues]. *)
Definition uuid_array (k : nat) : list Z :=
  map (fun i => to_uint8 (getRandomValues k i)) (seq 0 10).

(** [chars[b % chars.length]] *)
Definition char_of_byte (b : Z) : string :=
  js_char_at chars (Z.to_nat (Z.modulo b (Z.of_nat (String.length chars)))).

(** [id += chars[array[i] % chars.length]] for [i] from 0 to 9. *)
Definition build_id (array : list Z) : string :=
  fold_left (fun id i => id +:+ char_of_byte (nth i array 0%Z)) (seq 0 10) "".

(** The id generated by the [k]-th call. *)
Definition uuid_at (k : nat) : string := build_id (uuid_array k).

(** [generateUUID()] *)
Definition generateUUID : PM string :=
  fun p => (Ok (uuid_at (draws p)),
            mkPlugin (settings p) (data p) (githubService p) (S (draws p))).

Definition MAX_RETRIES : nat := 5.

Definition max_retries_error : JsError :=
  plain_error "ObsiGithub: Failed to generate unique ID after max retries.".

(** The optional [remoteCheck] callback; an absent callback is never
    consulted, which answers like a callback returning [false]. *)
Definition run_remoteCheck (remoteCheck : option (string -> Result JsError bool))
           (uuid : string) : PM bool :=
  match remoteCheck with
  | Some rc => st_lift (rc uuid)
  | None => st_ret false
  end.

(** The [while (retries < MAX_RETRIES)] loop.  [fuel] bounds the
    iterations; [getOrCreateUUID] runs it with [MAX_RETRIES], which is
    enough: every iteration either returns or increments [retries]
    ([create_loop_fuel] below). *)
Fixpoint create_loop (fuel retries : nat) (localPath : string)
         (remoteCheck : option (string -> Result JsError bool)) : PM string :=
  if retries <? MAX_RETRIES then
    match fuel with
    | O => st_throw max_retries_error
    | S fuel' =>
        let* uuid := generateUUID in
        let* allUUIDs := st_gets (fun p => values (fileMap (settings p))) in
        if includes allUUIDs uuid
        then create_loop fuel' (S retries) localPath remoteCheck
        else
          let* remoteExists := run_remoteCheck remoteCheck uuid in
          if remoteExists
          then create_loop fuel' (S retries) localPath remoteCheck
          else do* setUUID localPath uuid in st_ret uuid
    end
  else st_throw max_retries_error.

(** [getOrCreateUUID(localPath, remoteCheck)] *)
Definition getOrCreateUUID (localPath : string)
           (remoteCheck : option (string -> Result JsError bool)) : PM string :=
  let* uuid := st_gets (getUUID localPath) in
  match uuid with
  | Some u => if js_truthy u then st_ret u
              else create_loop MAX_RETRIES 0 localPath remoteCheck
  | None => create_loop MAX_RETRIES 0 localPath remoteCheck
  end.

(** [removeUUID(localPath)]: only the [fileMap] entry is deleted. *)
Definition removeUUID (localPath : string) : PM unit :=
  let* uuid := st_gets (getUUID localPath) in
  match uuid with
  | Some u => if js_truthy u
              then do* st_modify (fun p =>
                         set_settings (set_fileMap (delete localPath (fileMap (settings p)))
                                                   (settings p)) p) in
                   saveSettings
              else st_ret tt
  | None => st_ret tt
  end.


(** ** Shape of the generated ids *)

Definition in_alphabet (c : ascii) : bool :=
  bool_decide (c ∈ String.list_ascii_of_string chars).

(** Ten characters, each from the 62-symbol alphabet. *)
Definition is_uuid (s : string) : bool :=
  (String.length s =? 10) && forallb in_alphabet (String.list_ascii_of_string s).

Lemma chars_length : String.length chars = 62.
Proof. reflexivity. Qed.

Lemma char_of_index z :
  exists c, char_of_byte z = String c EmptyString /\ in_alphabet c = true.
Proof.
  unfold char_of_byte. rewrite chars_length. change (Z.of_nat 62) with 62%Z.
  destruct (js_char_at_in_range chars (Z.to_nat (z mod 62))) as (c & Hg & ->).
  { rewrite chars_length. pose proof (Z.mod_pos_bound z 62). lia. }
  exists c. split; [done|]. apply bool_decide_eq_true. by eapply string_get_elem_of.
Qed.

Lemma build_id_fold (array : list Z) (l : list nat) (id : string) :
  String.length (fold_left (fun id i => id +:+ char_of_byte (nth i array 0%Z)) l id)
    = String.length id + length l /\
  (forallb in_alphabet (String.list_ascii_of_string id) = true ->
   forallb in_alphabet (String.list_ascii_of_string
     (fold_left (fun id i => id +:+ char_of_byte (nth i array 0%Z)) l id)) = true).
Proof.
  revert id. induction l as [|i l IH]; intros id; cbn [fold_left length];
    [split; [lia|done]|].
  destruct (char_of_index (nth i array 0%Z)) as (c & -> & Hin).
  destruct (IH (id +:+ String c EmptyString)) as [Hlen Hall]. split.
  - rewrite Hlen, string_length_app. simpl. lia.
  - intros H. apply Hall. rewrite list_ascii_of_string_app, forallb_app, H.
    simpl. by rewrite Hin.
Qed.

Lemma uuid_at_is_uuid k : is_uuid (uuid_at k) = true.
Proof.
  unfold is_uuid, uuid_at, build_id.
  destruct (build_id_fold (uuid_array k) (seq 0 10) "") as [-> Ha].
  by rewrite Ha.
Qed.

Lemma is_uuid_truthy u : is_uuid u = true -> js_truthy u = true.
Proof. by destruct u. Qed.

#[local] Hint Resolve uuid_at_is_uuid is_uuid_truthy : obsi.

(** ** The retry loop *)

Lemma includes_fileMap_false (p : Plugin) u :
  includes (values (fileMap (settings p))) u = false ->
  forall k, fileMap (settings p) !! k <> Some u.
Proof.
  intros H k Hk. assert (includes (values (fileMap (settings p))) u = true)
    by (apply includes_values; eauto). congruence.
Qed.

(** What one run of the loop does: on success a fresh, well-formed id
    is recorded with status [published] and written to disk; on a throw
    the settings, the data file and the service are untouched.  Either
    way at most [fuel] random draws were made. *)
Lemma create_loop_spec fuel : forall retries path rc p,
  match create_loop fuel retries path rc p with
  | (Ok u, p') =>
      is_uuid u = true /\ (forall k, fileMap (settings p) !! k <> Some u) /\
      settings p' = put_uuid path u (settings p) /\ persisted p' /\
      draws p < draws p' <= draws p + fuel
  | (Throw _, p') =>
      settings p' = settings p /\ data p' = data p /\
      githubService p' = githubService p /\ draws p <= draws p' <= draws p + fuel
  end.
Proof.
  induction fuel as [|fuel IH]; intros retries path rc p; simpl create_loop.
  - destruct (retries <? MAX_RETRIES); simpl; repeat split; lia.
  - destruct (retries <? MAX_RETRIES); [|simpl; repeat split; lia].
    cbv [st_bind st_gets generateUUID]. simpl.
    set (p1 := mkPlugin (settings p) (data p) (githubService p) (S (draws p))).
    assert (Hrec : forall r, match create_loop fuel r path rc p1 with
      | (Ok u, p') => is_uuid u = true /\ (forall k, fileMap (settings p) !! k <> Some u) /\
          settings p' = put_uuid path u (settings p) /\ persisted p' /\
          draws p < draws p' <= draws p + S fuel
      | (Throw _, p') => settings p' = settings p /\ data p' = data p /\
          githubService p' = githubService p /\ draws p <= draws p' <= draws p + S fuel
      end).
    { intros r. specialize (IH r path rc p1).
      destruct (create_loop fuel r path rc p1) as [[u|e] p']; simpl in IH;
        intuition lia. }
    destruct (includes _ _) eqn:Hinc; [apply Hrec|].
    destruct rc as [rcf|]; cbv [run_remoteCheck st_lift st_ret]; simpl.
    + destruct (rcf (uuid_at (draws p))) as [[|]|e]; [apply Hrec| |simpl; intuition lia].
      simpl. repeat split; eauto using includes_fileMap_false with obsi; simpl; lia.
    + simpl. repeat split; eauto using includes_fileMap_false with obsi; simpl; lia.
Qed.


(** A candidate the loop rejects: a local collision, or a remote check
    that reports the id's folder as existing. *)
Definition rejected (p : Plugin) (rc : option (string -> Result JsError bool))
           (u : string) : Prop :=
  includes (values (fileMap (settings p))) u = true \/
  exists rcf, rc = Some rcf /\ rcf u = Ok true.

Lemma create_loop_exhausted path rc n : forall retries p,
  retries + n = MAX_RETRIES ->
  (forall j, j < n -> rejected p rc (uuid_at (draws p + j))) ->
  create_loop n retries path rc p =
    (Throw max_retries_error, mkPlugin (settings p) (data p) (githubService p) (draws p + n)).
Proof.
  induction n as [|n IH]; intros retries [s d svc k] Hn Hrej; cbn [draws] in *.
  - cbn [create_loop]. replace retries with MAX_RETRIES by lia.
    by rewrite Nat.add_0_r.
  - assert (Hlt : (retries <? MAX_RETRIES) = true) by (apply Nat.ltb_lt; lia).
    cbn [create_loop]. rewrite Hlt. cbv [st_bind st_gets generateUUID].
    cbn [settings data githubService draws].
    assert (Hnext : create_loop n (S retries) path rc (mkPlugin s d svc (S k)) =
                    (Throw max_retries_error, mkPlugin s d svc (k + S n))).
    { rewrite IH; cbn [settings data githubService draws].
      - by replace (S k + n) with (k + S n) by lia.
      - lia.
      - intros j Hj. replace (S k + j) with (k + S j) by lia. apply Hrej. lia. }
    destruct (Hrej 0 ltac:(lia)) as [Hinc | (rcf & -> & Hrc)];
      rewrite Nat.add_0_r in *; cbn [settings] in *.
    + by rewrite Hinc.
    + destruct (includes _ _); [done|]. cbv [run_remoteCheck st_lift]. by rewrite Hrc.
Qed.

(** The two ways [getOrCreateUUID] returns an id: the recorded one, or
    a fresh one it has just recorded. *)
Lemma getOrCreateUUID_ok_cases path rc p u p' :
  getOrCreateUUID path rc p = (Ok u, p') ->
  (getUUID path p = Some u /\ js_truthy u = true /\ p' = p) \/
  (is_uuid u = true /\ (forall k, fileMap (settings p) !! k <> Some u) /\
   settings p' = put_uuid path u (settings p) /\ persisted p').
Proof.
  intros H. cbv [getOrCreateUUID st_bind st_gets] in H.
  pose proof (create_loop_spec MAX_RETRIES 0 path rc p) as Hspec.
  destruct (getUUID path p) as [v|] eqn:E; [destruct (js_truthy v) eqn:T|].
  - left. cbv [st_ret] in H. simplify_eq. auto.
  - right. rewrite H in Hspec. tauto.
  - right. rewrite H in Hspec. tauto.
Qed.

Lemma getOrCreateUUID_throw_cases path rc p e p' :
  getOrCreateUUID path rc p = (Throw e, p') ->
  settings p' = settings p /\ data p' = data p /\ githubService p' = githubService p.
Proof.
  intros H. cbv [getOrCreateUUID st_bind st_gets] in H.
  pose proof (create_loop_spec MAX_RETRIES 0 path rc p) as Hspec.
  destruct (getUUID path p) as [v|]; [destruct (js_truthy v)|];
    [cbv [st_ret] in H; simplify_eq | rewrite H in Hspec; tauto ..].
Qed.

Lemma getUUID_put path u p' p :
  settings p' = put_uuid path u (settings p) -> getUUID path p' = Some u.
Proof. intros H. unfold getUUID. rewrite H. simpl. apply lookup_insert_eq. Qed.

(** A recorded identifier is returned unchanged, and nothing is
    generated, checked or written. *)
Lemma getOrCreateUUID_existing path rc p u :
  getUUID path p = Some u -> js_truthy u = true ->
  getOrCreateUUID path rc p = (Ok u, p).
Proof. intros H T. cbv [getOrCreateUUID st_bind st_gets]. by rewrite H, T. Qed.

(** C1: idempotence.  Once [getOrCreateUUID] has returned an id for a
    path, calling it again (with any remote check) returns the same id
    and changes nothing. *)
Theorem getOrCreateUUID_idempotent path rc rc' p u p' :
  getOrCreateUUID path rc p = (Ok u, p') ->
  getOrCreateUUID path rc' p' = (Ok u, p').
Proof.
  intros H. apply getOrCreateUUID_existing.
  all: destruct (getOrCreateUUID_ok_cases _ _ _ _ _ H) as [(? & ? & ->) | (? & ? & Hs & ?)];
    eauto using getUUID_put with obsi.
Qed.

(** C2: allocation of a new id.  For a path with no record, a returned id
    is ten characters of the alphabet, is the value of no existing record
    (local uniqueness), and is recorded with status [published] in the
    settings and in the data file. *)
Theorem getOrCreateUUID_fresh path rc p u p' :
  getUUID path p = None ->
  getOrCreateUUID path rc p = (Ok u, p') ->
  is_uuid u = true /\ (forall k, fileMap (settings p) !! k <> Some u) /\
  getUUID path p' = Some u /\ getStatus path p' = published /\ persisted p'.
Proof.
  intros Hnone H.
  destruct (getOrCreateUUID_ok_cases _ _ _ _ _ H) as [(Hs & _) | (Hu & Hf & Hs & Hp)];
    [congruence|].
  repeat split; eauto using getUUID_put.
  unfold getStatus. rewrite Hs. simpl. by rewrite lookup_insert_eq.
Qed.

(** A failed allocation (retries exhausted, or a remote check that
    throws) leaves the tables, the data file and the service untouched. *)
Theorem getOrCreateUUID_throw_unchanged path rc p e p' :
  getOrCreateUUID path rc p = (Throw e, p') ->
  fileMap (settings p') = fileMap (settings p) /\
  fileStatus (settings p') = fileStatus (settings p) /\ data p' = data p.
Proof.
  intros H. destruct (getOrCreateUUID_throw_cases _ _ _ _ _ H) as (-> & -> & _). auto.
Qed.

(** C26: exhaustion.  When each of the five candidates drawn is rejected
    (a local collision or a remote one), [getOrCreateUUID] throws the
    max-retries error after exactly five draws, with the plugin state
    otherwise unchanged. *)
Theorem getOrCreateUUID_exhausted path rc p :
  getUUID path p = None ->
  (forall j, j < MAX_RETRIES -> rejected p rc (uuid_at (draws p + j))) ->
  getOrCreateUUID path rc p =
    (Throw max_retries_error,
     mkPlugin (settings p) (data p) (githubService p) (draws p + MAX_RETRIES)).
Proof.
  intros Hnone Hrej. cbv [getOrCreateUUID st_bind st_gets]. rewrite Hnone.
  by apply create_loop_exhausted.
Qed.

(** ** The state store as a whole *)

(** The operations the rest of the plugin calls on the store. *)
Inductive sm_op :=
| OpGetOrCreate (localPath : string) (remoteCheck : option (string -> Result JsError bool))
| OpUpdateStatus (localPath : string) (status : Status)
| OpRemove (localPath : string).

Definition run_op (o : sm_op) : PM unit :=
  match o with
  | OpGetOrCreate path rc => do* getOrCreateUUID path rc in st_ret tt
  | OpUpdateStatus path st => updateStatus path st
  | OpRemove path => removeUUID path
  end.

(** Every recorded path has a status entry. *)
Definition status_covers (s : ObsiGithubSettings) : Prop :=
  forall k, is_Some (fileMap s !! k) -> is_Some (fileStatus s !! k).

(** The well-formedness of the store: the data file agrees with the live
    settings, ids are pairwise distinct, every record has a status. *)
Record store_wf (p : Plugin) : Prop := {
  wf_persisted : persisted p;
  wf_injective : map_injective (fileMap (settings p));
  wf_covers : status_covers (settings p);
}.

Lemma getOrCreateUUID_outcome path rc p :
  let '(r, p') := getOrCreateUUID path rc p in
  p' = p \/
  (settings p' = settings p /\ data p' = data p) \/
  (exists u, (forall k, fileMap (settings p) !! k <> Some u) /\
             settings p' = put_uuid path u (settings p) /\ persisted p').
Proof.
  destruct (getOrCreateUUID path rc p) as [[u|e] p'] eqn:H.
  - destruct (getOrCreateUUID_ok_cases _ _ _ _ _ H) as [(_ & _ & ->) | (_ & Hf & Hs & Hp)];
      [by left | right; right; eauto].
  - destruct (getOrCreateUUID_throw_cases _ _ _ _ _ H) as (Hs & Hd & _). right; left; auto.
Qed.

Lemma put_uuid_wf path u p p' :
  store_wf p -> (forall k, fileMap (settings p) !! k <> Some u) ->
  settings p' = put_uuid path u (settings p) -> persisted p' -> store_wf p'.
Proof.
  intros [Hp Hi Hc] Hf Hs Hp'. split; [done| |]; rewrite Hs; autorewrite with obsi_rw.
  - autorewrite with obsi_rw. by apply map_injective_insert_fresh.
  - intros k. autorewrite with obsi_rw. rewrite !lookup_insert.
    case_decide; [done|]. apply Hc.
Qed.

(** C3: the store invariant.  Every operation of the store (allocation,
    status update, removal), on every branch including thrown errors,
    keeps the data file equal to the live settings, the ids pairwise
    distinct and every record covered by a status. *)
Theorem run_op_store_wf o p :
  store_wf p -> store_wf (st_state (run_op o) p).
Proof.
  intros Hwf. destruct o as [path rc|path st|path]; cbv [st_state run_op].
  - pose proof (getOrCreateUUID_outcome path rc p) as Ho.
    cbv [st_bind st_ret]. destruct (getOrCreateUUID path rc p) as [[u|e] p'];
      destruct Ho as [-> | [[Hs Hd] | (v & Hf & Hs & Hp)]]; cbn [snd];
      [done | | by eapply put_uuid_wf | done | | by eapply put_uuid_wf];
      destruct Hwf as [Hp Hi Hc]; split; unfold persisted, status_covers in *;
      rewrite ?Hs, ?Hd; done.
  - cbv [updateStatus st_bind st_modify saveSettings].
    destruct Hwf as [Hp Hi Hc]. split; [done|done|].
    intros k Hk. plugin_simpl.
    rewrite lookup_insert. case_decide; [done|]. by apply Hc.
  - cbv [removeUUID st_bind st_gets st_ret].
    destruct (getUUID path p) as [u|]; [destruct (js_truthy u)|]; [|done..].
    cbv [st_modify saveSettings]. plugin_simpl.
    destruct Hwf as [Hp Hi Hc]. split; [done| |].
    + by apply map_injective_delete.
    + intros k Hk. plugin_simpl. apply Hc. rewrite lookup_delete_is_Some in Hk. by destruct Hk as [_ ?].
Qed.

(** C32: "forget" removes only the id.  [removeUUID] on a recorded path
    deletes its [fileMap] entry and keeps its [fileStatus] entry, so a
    status survives with no record (the spec asks for the whole record
    to go), and the path's status is still reported afterwards. *)
Theorem removeUUID_keeps_status path p u :
  getUUID path p = Some u -> js_truthy u = true ->
  fileMap (settings (st_state (removeUUID path) p)) = delete path (fileMap (settings p)) /\
  fileStatus (settings (st_state (removeUUID path) p)) = fileStatus (settings p) /\
  getStatus path (st_state (removeUUID path) p) = getStatus path p.
Proof. intros H T. cbv [st_state removeUUID st_bind st_gets]. by rewrite H, T. Qed.

(** ** Modulo bias *)

(** How many of the 256 values of a [Uint8Array] element yield the
    character [c] through [chars[b % chars.length]]. *)
Definition char_weight (c : ascii) : nat :=
  length (filter (fun b => bool_decide (char_of_byte (Z.of_nat b) = String c EmptyString))
                 (seq 0 256)).

Definition biased_chars : string := "ABCDEFGH".

Lemma char_weight_table :
  forallb (fun c => Nat.eqb (char_weight c)
                      (if bool_decide (c ∈ String.list_ascii_of_string biased_chars) then 5 else 4))
          (String.list_ascii_of_string chars) = true.
Proof. vm_compute. reflexivity. Qed.

(** C39: the id characters are not uniform.  Since [256 = 4 * 62 + 8],
    each of the first eight letters [A]..[H] of the alphabet comes from 5
    of the 256 byte values and every other character from 4: the spec's
    accepted modulo skew, quantified. *)
Theorem char_weight_bias c :
  in_alphabet c = true ->
  char_weight c = if bool_decide (c ∈ String.list_ascii_of_string biased_chars) then 5 else 4.
Proof.
  intros Hc. apply bool_decide_eq_true in Hc.
  pose proof char_weight_table as Ht. rewrite forallb_forall in Ht.
  apply list_elem_of_In in Hc. apply Nat.eqb_eq, Ht, Hc.
Qed.

(** What [updateStatus] changes: the status of the path, nothing else
    of the settings' tables. *)
Lemma updateStatus_effect path st p :
  st_value (updateStatus path st) p = Ok tt /\
  getStatus path (st_state (updateStatus path st) p) = st /\
  fileMap (settings (st_state (updateStatus path st) p)) = fileMap (settings p) /\
  (forall q, q <> path -> getStatus q (st_state (updateStatus path st) p) = getStatus q p).
Proof.
  cbv [st_value st_state updateStatus st_bind st_modify saveSettings getStatus]. plugin_simpl.
  split_and!; [done|by rewrite lookup_insert_eq|done|].
  intros q Hq. by rewrite lookup_insert_ne by congruence.
Qed.

(** [updateStatus] rewrites [fileStatus] only, and keeps a synced client. *)
Lemma updateStatus_settings path st p :
  settings (st_state (updateStatus path st) p) =
    set_fileStatus (<[path := st]> (fileStatus (settings p))) (settings p).
Proof. reflexivity. Qed.

Lemma updateStatus_service path st p :
  synced p -> githubService (st_state (updateStatus path st) p) = githubService p /\
              synced (st_state (updateStatus path st) p).
Proof.
  intros Hs. split; [|apply saveSettings_synced].
  apply (saveSettings_service (set_settings _ p)). intros svc H1 H2. by apply Hs.
Qed.

(** ** What a remote-checked allocation guarantees *)

(** An id the loop returns passed the remote check. *)
Lemma create_loop_remote fuel : forall retries path rcf p u p',
  create_loop fuel retries path (Some rcf) p = (Ok u, p') -> rcf u = Ok false.
Proof.
  induction fuel as [|fuel IH]; intros retries path rcf p u p' H; cbn [create_loop] in H;
    destruct (retries <? MAX_RETRIES); try discriminate.
  cbv [st_bind st_gets generateUUID] in H. cbn [settings draws] in H.
  destruct (includes _ _); [by eapply IH|].
  cbv [run_remoteCheck st_lift] in H. destruct (rcf (uuid_at (draws p))) as [[|]|e] eqn:E;
    [by eapply IH| |discriminate].
  cbv [setUUID st_bind st_modify saveSettings st_ret] in H. by injection H as <- _.
Qed.

(** The loop throws the max-retries error, or what the remote check
    threw. *)
Lemma create_loop_throw fuel : forall retries path rc p e p',
  create_loop fuel retries path rc p = (Throw e, p') ->
  e = max_retries_error \/ exists rcf u, rc = Some rcf /\ rcf u = Throw e.
Proof.
  induction fuel as [|fuel IH]; intros retries path rc p e p' H; cbn [create_loop] in H;
    destruct (retries <? MAX_RETRIES); try (injection H as <- _; by left).
  cbv [st_bind st_gets generateUUID] in H. cbn [settings draws] in H.
  destruct (includes _ _); [by eapply IH|].
  destruct rc as [rcf|]; cbv [run_remoteCheck st_lift st_ret] in H.
  - destruct (rcf (uuid_at (draws p))) as [[|]|e'] eqn:E; [by eapply IH| |].
    + cbv [setUUID st_bind st_modify saveSettings st_ret] in H. discriminate.
    + injection H as <- _. right. eauto.
  - cbv [setUUID st_bind st_modify saveSettings st_ret] in H. discriminate.
Qed.

Lemma preserves_create_loop (P : Plugin -> Prop) fuel retries path rc :
  preserves P generateUUID -> (forall u, preserves P (setUUID path u)) ->
  preserves P (create_loop fuel retries path rc).
Proof.
  intros Hg Hs. revert retries. induction fuel as [|fuel IH]; intros retries; cbn [create_loop];
    unfold run_remoteCheck; preserves_tac.
Qed.

(** The fields of the settings the GitHub service reads. *)
Definition config (s : ObsiGithubSettings) : string * string * string * string * string :=
  (githubToken s, owner s, repo s, branch s, assetsFolderName s).

(** Allocation keeps the service, its agreement with the settings and
    the configuration: it only writes the two tables. *)
Lemma getOrCreateUUID_service path rc svc c :
  preserves (fun p => githubService p = Some svc /\ synced p /\ config (settings p) = c)
            (getOrCreateUUID path rc).
Proof.
  unfold getOrCreateUUID. preserves_tac; apply preserves_create_loop.
  all: try (intros p Hp; exact Hp).
  all: intros u; unfold setUUID; apply preserves_bind; [apply preserves_modify; intros p Hp; exact Hp|].
  all: intros _ p (Hs & Hsy & Hc); split_and!; [by rewrite saveSettings_service|apply saveSettings_synced|exact Hc].
Qed.

(** ** The allocation split at its [await] *)

(** [getOrCreateUUID] runs synchronously up to [await remoteCheck(uuid)]
    (line 82): the existence test, then draws until a candidate passes
    the local test.  [pre_loop] is that part of the loop; it stops at
    the await with the candidate, the fuel left and the retry count. *)
Fixpoint pre_loop (fuel retries : nat) : PM (string * nat * nat) :=
  if retries <? MAX_RETRIES then
    match fuel with
    | O => st_throw max_retries_error
    | S fuel' =>
        let* uuid := generateUUID in
        let* allUUIDs := st_gets (fun p => values (fileMap (settings p))) in
        if includes allUUIDs uuid then pre_loop fuel' (S retries)
        else st_ret (uuid, fuel', retries)
    end
  else st_throw max_retries_error.

(** The rest of the loop once [remoteCheck] has answered. *)
Definition alloc_resume (localPath : string) (remoteCheck : option (string -> Result JsError bool))
           (at_await : string * nat * nat) (remoteExists : bool) : PM string :=
  let '(uuid, fuel', retries) := at_await in
  if remoteExists then create_loop fuel' (S retries) localPath remoteCheck
  else do* setUUID localPath uuid in st_ret uuid.

(** [getOrCreateUUID] up to its first [await]: [inl u] when it returned
    the recorded id without awaiting. *)
Definition alloc_until_await (localPath : string) : PM (string + string * nat * nat) :=
  let* uuid := st_gets (getUUID localPath) in
  match uuid with
  | Some u => if js_truthy u then st_ret (inl u)
              else let* r := pre_loop MAX_RETRIES 0 in st_ret (inr r)
  | None => let* r := pre_loop MAX_RETRIES 0 in st_ret (inr r)
  end.

Lemma create_loop_pre fuel : forall retries path rc p,
  create_loop fuel retries path rc p =
  st_bind (pre_loop fuel retries)
          (fun r => let* remoteExists := run_remoteCheck rc (r.1.1) in alloc_resume path rc r remoteExists) p.
Proof.
  induction fuel as [|fuel IH]; intros retries path rc p; cbn [create_loop pre_loop];
    destruct (retries <? MAX_RETRIES); try reflexivity.
  cbv [st_bind st_gets generateUUID]. destruct (includes _ _); [apply IH|reflexivity].
Qed.

(** Run without interleaving, the two parts are [getOrCreateUUID]. *)
Lemma getOrCreateUUID_split path rc p :
  getOrCreateUUID path rc p =
  st_bind (alloc_until_await path)
    (fun r => match r with
              | inl u => st_ret u
              | inr s => let* remoteExists := run_remoteCheck rc (s.1.1) in alloc_resume path rc s remoteExists
              end) p.
Proof.
  cbv [getOrCreateUUID alloc_until_await st_bind st_gets st_ret].
  destruct (getUUID path p) as [u|]; [destruct (js_truthy u)|]; [done| |];
    rewrite create_loop_pre; cbv [st_bind]; by destruct (pre_loop _ _ _) as [[r|e] p'].
Qed.

(** The synchronous prefix only draws: it writes nothing, and the
    candidate it stops with is no recorded id. *)
Lemma pre_loop_spec fuel : forall retries p,
  match pre_loop fuel retries p with
  | (Ok (u, _, _), p') => settings p' = settings p /\ data p' = data p /\
                          (forall k, fileMap (settings p) !! k <> Some u)
  | (Throw _, p') => settings p' = settings p /\ data p' = data p
  end.
Proof.
  induction fuel as [|fuel IH]; intros retries p; cbn [pre_loop];
    destruct (retries <? MAX_RETRIES); try done.
  cbv [st_bind st_gets generateUUID]. destruct (includes _ _) eqn:Hinc.
  - specialize (IH (S retries) (mkPlugin (settings p) (data p) (githubService p) (S (draws p)))).
    destruct (pre_loop fuel (S retries) _) as [[[[u f] k]|e] p']; exact IH.
  - cbv [st_ret]. split_and!; [done|done|by apply includes_fileMap_false].
Qed.

(** The candidate the synchronous prefix stops with is one of the next
    [fuel] draws of the random source, and the last one it drew. *)
Lemma pre_loop_draw fuel : forall retries p u f k p',
  pre_loop fuel retries p = (Ok (u, f, k), p') ->
  exists i, draws p <= i < draws p + fuel /\ u = uuid_at i /\ draws p' = S i.
Proof.
  induction fuel as [|fuel IH]; intros retries p u f k p' H; cbn [pre_loop] in H;
    destruct (retries <? MAX_RETRIES); try discriminate.
  cbv [st_bind st_gets generateUUID] in H. destruct (includes _ _).
  - destruct (IH _ _ _ _ _ _ H) as (i & Hi & Hu & Hd). cbn [draws] in Hi. exists i. split_and!; [lia|lia|done|done].
  - cbv [st_ret] in H. injection H as <- _ _ <-. exists (draws p). split_and!; [lia|lia|done|done].
Qed.

(** Two draws at distinct positions of a window without repeats are
    distinct ids. *)
Lemma uuid_at_window_ne start n i j :
  NoDup (map uuid_at (seq start n)) ->
  start <= i < start + n -> start <= j < start + n -> i <> j -> uuid_at i <> uuid_at j.
Proof.
  intros Hnd Hi Hj Hij E.
  assert (map uuid_at (seq start n) !! (i - start) = Some (uuid_at i)) as L1.
  { rewrite list_lookup_fmap, lookup_seq_lt by lia. cbn. by replace (start + (i - start)) with i by lia. }
  assert (map uuid_at (seq start n) !! (j - start) = Some (uuid_at j)) as L2.
  { rewrite list_lookup_fmap, lookup_seq_lt by lia. cbn. by replace (start + (j - start)) with j by lia. }
  rewrite <- E in L2.
  pose proof (NoDup_lookup _ _ _ _ Hnd L1 L2). lia.
Qed.

(** Two allocations for the same note interleaved at the await: the
    second starts while the first waits for its remote check, both
    checks answer "free", the first resumes, then the second.  This is
    what happens when a note is published twice in quick succession
    (the command and the file menu, or two clicks): [publishNote]
    reaches [getOrCreateUUID] without awaiting anything before. *)
Definition race_same_note (localPath : string) : PM (string * string) :=
  let* a := alloc_until_await localPath in
  let* b := alloc_until_await localPath in
  let resume r := match r with inl u => st_ret u | inr s => alloc_resume localPath None s false end in
  let* ua := resume a in
  let* ub := resume b in
  st_ret (ua, ub).

(** C14: overlapping publications of one note orphan a folder.  When a
    note with no id is allocated twice and the two runs interleave at
    [await remoteCheck(uuid)], and the random source repeats no id
    among the draws the two runs can make, both runs return an id and
    the two ids differ: the first run's id [ua] goes to its caller,
    which uploads the note under it, but the record ends with the
    second id [ub] and no record names [ua] any more, so the folder
    [ua/] is orphaned.  (A resume that re-read the record after the
    await would hand [ua] to both runs.) *)
Theorem race_same_note_orphans path p ua ub p' :
  getUUID path p = None ->
  NoDup (map uuid_at (seq (draws p) (2 * MAX_RETRIES))) ->
  race_same_note path p = (Ok (ua, ub), p') ->
  ua <> ub /\ getUUID path p' = Some ub /\ forall k, fileMap (settings p') !! k <> Some ua.
Proof.
  intros Hn Hnd H. cbv [race_same_note alloc_until_await st_bind st_gets st_ret] in H. rewrite Hn in H.
  pose proof (pre_loop_spec MAX_RETRIES 0 p) as S1.
  destruct (pre_loop MAX_RETRIES 0 p) as [[[[u1 f1] k1]|e] p1] eqn:E1; [|discriminate].
  destruct S1 as (Hs1 & _ & Hf1).
  assert (getUUID path p1 = None) as Hn1 by (unfold getUUID in *; by rewrite Hs1).
  rewrite Hn1 in H.
  pose proof (pre_loop_spec MAX_RETRIES 0 p1) as S2.
  destruct (pre_loop MAX_RETRIES 0 p1) as [[[[u2 f2] k2]|e] p2] eqn:E2; [|discriminate].
  destruct S2 as (Hs2 & _ & _).
  destruct (pre_loop_draw _ _ _ _ _ _ _ E1) as (i1 & Hi1 & -> & Hd1).
  destruct (pre_loop_draw _ _ _ _ _ _ _ E2) as (i2 & Hi2 & -> & _).
  cbv [alloc_resume setUUID st_bind st_modify st_ret saveSettings] in H. injection H as <- <- <-.
  assert (uuid_at i1 <> uuid_at i2) as Hne.
  { apply (uuid_at_window_ne (draws p) (2 * MAX_RETRIES)); [done|unfold MAX_RETRIES in *; lia..]. }
  unfold getUUID. cbn -[uuid_at]. split_and!; [done|by rewrite lookup_insert_eq|].
  intros k. destruct (decide (k = path)) as [->|Hk].
  - rewrite lookup_insert_eq. congruence.
  - rewrite !lookup_insert_ne by done. rewrite Hs2, Hs1. apply Hf1.
Qed.

End WithRandom.

(** ** Concrete runs *)

(** A deterministic stand-in for [crypto.getRandomValues]. *)
Definition rng0 : nat -> nat -> Z := fun k i => Z.of_nat (k * 37 + i * 101 + 300).
(** A source that keeps returning the same array. *)
Definition rng_const : nat -> nat -> Z := fun _ _ => 7%Z.

Definition p_empty : Plugin :=
  mkPlugin DEFAULT_SETTINGS (Some (to_data DEFAULT_SETTINGS)) (Some (mkService (Some "tok"))) 0.

Definition p_taken (u : string) : Plugin :=
  let s := put_uuid "b.md" u DEFAULT_SETTINGS in
  mkPlugin s (Some (to_data s)) (Some (mkService (Some "tok"))) 0.

Definition remote_down : string -> Result JsError bool := fun _ => Throw (mkErr (Some 500%Z) "boom").

Lemma getOrCreateUUID_idempotent_witness :
  getOrCreateUUID rng0 "a.md" (Some remote_down)
    (st_state (getOrCreateUUID rng0 "a.md" None) p_empty)
  = (Ok "sV8dGlO1W9", st_state (getOrCreateUUID rng0 "a.md" None) p_empty).
Proof.
  apply (getOrCreateUUID_idempotent rng0 "a.md" None (Some remote_down) p_empty).
  vm_compute. reflexivity.
Defined.

(** The first candidate collides with the record of "b.md"; the second
    is returned. *)
Lemma getOrCreateUUID_fresh_witness :
  let p := p_taken (uuid_at rng0 0) in
  is_uuid (uuid_at rng0 1) = true /\
  (forall k, fileMap (settings p) !! k <> Some (uuid_at rng0 1)) /\
  getUUID "a.md" (st_state (getOrCreateUUID rng0 "a.md" None) p) = Some (uuid_at rng0 1) /\
  getStatus "a.md" (st_state (getOrCreateUUID rng0 "a.md" None) p) = published /\
  persisted (st_state (getOrCreateUUID rng0 "a.md" None) p).
Proof.
  apply (getOrCreateUUID_fresh rng0 "a.md" None); [reflexivity|].
  vm_compute. reflexivity.
Defined.

Lemma getOrCreateUUID_throw_unchanged_witness :
  fileMap (settings (st_state (getOrCreateUUID rng0 "a.md" (Some remote_down)) p_empty))
    = fileMap (settings p_empty) /\
  fileStatus (settings (st_state (getOrCreateUUID rng0 "a.md" (Some remote_down)) p_empty))
    = fileStatus (settings p_empty) /\
  data (st_state (getOrCreateUUID rng0 "a.md" (Some remote_down)) p_empty) = data p_empty.
Proof.
  apply (getOrCreateUUID_throw_unchanged rng0 "a.md" (Some remote_down) p_empty
           (mkErr (Some 500%Z) "boom")).
  vm_compute. reflexivity.
Defined.

Lemma getOrCreateUUID_exhausted_witness :
  getOrCreateUUID rng_const "a.md" None (p_taken (uuid_at rng_const 0)) =
    (Throw max_retries_error,
     mkPlugin (settings (p_taken (uuid_at rng_const 0))) (data (p_taken (uuid_at rng_const 0)))
              (githubService (p_taken (uuid_at rng_const 0))) (0 + MAX_RETRIES)).
Proof.
  apply getOrCreateUUID_exhausted; [reflexivity|].
  intros j _. left. vm_compute. reflexivity.
Defined.

Lemma p_empty_wf : store_wf p_empty.
Proof.
  split; [reflexivity| |].
  - intros k1 k2 v H. discriminate H.
  - intros k [x H]. discriminate H.
Qed.

Lemma run_op_store_wf_witness :
  store_wf p_empty /\ store_wf (st_state (run_op rng0 (OpGetOrCreate "a.md" None)) p_empty).
Proof. split; [apply p_empty_wf | apply run_op_store_wf, p_empty_wf]. Defined.

Lemma removeUUID_keeps_status_witness :
  fileMap (settings (st_state (removeUUID "b.md") (p_taken "Xy3")))
    = delete "b.md" (fileMap (settings (p_taken "Xy3"))) /\
  fileStatus (settings (st_state (removeUUID "b.md") (p_taken "Xy3")))
    = fileStatus (settings (p_taken "Xy3")) /\
  getStatus "b.md" (st_state (removeUUID "b.md") (p_taken "Xy3")) = getStatus "b.md" (p_taken "Xy3").
Proof. apply (removeUUID_keeps_status "b.md" (p_taken "Xy3") "Xy3"); reflexivity. Defined.

Lemma char_weight_bias_witness : char_weight "A" = 5 /\ char_weight "z" = 4.
Proof. split; apply char_weight_bias; reflexivity. Defined.


(** The note [a.md] published twice at once: the first run keeps the
    candidate of the first draw, the record ends with the second. *)
Lemma race_same_note_orphans_witness :
  (uuid_at rng0 0 <> uuid_at rng0 1 /\
   getUUID "a.md" (st_state (race_same_note rng0 "a.md") p_empty) = Some (uuid_at rng0 1) /\
   forall k, fileMap (settings (st_state (race_same_note rng0 "a.md") p_empty)) !! k <> Some (uuid_at rng0 0)) /\
  st_value (race_same_note rng0 "a.md") p_empty = Ok (uuid_at rng0 0, uuid_at rng0 1).
Proof.
  split; [|vm_compute; reflexivity].
  apply (race_same_note_orphans rng0 "a.md" p_empty); [reflexivity|vm_compute; apply (bool_decide_unpack _); vm_compute; reflexivity|vm_compute; reflexivity].
Defined.

End StateManager.
