(* ===== verification/Uri.v ===== *)
(** * Uri: [encodeURI] and [decodeURI] of JavaScript

    [MarkdownProcessor.process] calls [decodeURI(url)] on every image
    target and [encodeURI(target.name)] on the resolved file's name.
    Both are the ECMAScript algorithms Encode and Decode; we run them
    on the UTF-8 octets of the string (a Rocq [string] is a list of
    bytes), which is exact for the well-formed strings the plugin
    handles, because Encode and Decode themselves go through UTF-8:

    - [encodeURI] keeps [A-Za-z0-9], the marks [-_.!~*'()] and the
      reserved characters [;/?:@&=+$,#]; every other octet becomes
      [%XY] (upper-case hex).  A string that is not valid UTF-8 (a lone
      surrogate in JS) throws [URIError].
    - [decodeURI] replaces each escape [%XY] (either case): an ASCII
      octet decodes to its character, except that a reserved character
      keeps its escape; a lead octet with [n] leading ones (2 to 4) takes
      [n - 1] more escapes, and the octets must be a valid UTF-8
      sequence; anything else (a [%] not followed by two hex digits, a
      stray continuation octet, an overlong or surrogate sequence, a
      sequence cut short) throws [URIError].

    [decode_go] recurses with fuel; [decodeURI] gives it the length of
    the input, which is enough ([decode_go_fuel]). *)

From S2P Require Import Prelude.

Module Uri.

Definition uri_error : JsError := plain_error "URI malformed".

Definition octet (c : ascii) : N := N_of_ascii c.

(** ** Valid UTF-8 (Unicode Table 3-7) *)

Definition cont (b : N) : bool := (0x80 <=? b)%N && (b <=? 0xBF)%N.

Definition seq_ok2 (b1 b2 : N) : bool :=
  (0xC2 <=? b1)%N && (b1 <=? 0xDF)%N && cont b2.

Definition seq_ok3 (b1 b2 b3 : N) : bool :=
  ((b1 =? 0xE0)%N && (0xA0 <=? b2)%N && (b2 <=? 0xBF)%N
   || (0xE1 <=? b1)%N && (b1 <=? 0xEC)%N && cont b2
   || (b1 =? 0xED)%N && (0x80 <=? b2)%N && (b2 <=? 0x9F)%N
   || (0xEE <=? b1)%N && (b1 <=? 0xEF)%N && cont b2) && cont b3.

Definition seq_ok4 (b1 b2 b3 b4 : N) : bool :=
  ((b1 =? 0xF0)%N && (0x90 <=? b2)%N && (b2 <=? 0xBF)%N
   || (0xF1 <=? b1)%N && (b1 <=? 0xF3)%N && cont b2
   || (b1 =? 0xF4)%N && (0x80 <=? b2)%N && (b2 <=? 0x8F)%N) && cont b3 && cont b4.

(** The octets of one code point. *)
Definition utf8_seq_valid (bs : list N) : bool :=
  match bs with
  | [b1] => (b1 <? 0x80)%N
  | [b1; b2] => seq_ok2 b1 b2
  | [b1; b2; b3] => seq_ok3 b1 b2 b3
  | [b1; b2; b3; b4] => seq_ok4 b1 b2 b3 b4
  | _ => false
  end.

(** A whole string. *)
Fixpoint utf8_valid (s : string) : bool :=
  match s with
  | EmptyString => true
  | String c1 r1 =>
      if (octet c1 <? 0x80)%N then utf8_valid r1 else
      match r1 with
      | EmptyString => false
      | String c2 r2 =>
          if seq_ok2 (octet c1) (octet c2) then utf8_valid r2 else
          match r2 with
          | EmptyString => false
          | String c3 r3 =>
              if seq_ok3 (octet c1) (octet c2) (octet c3) then utf8_valid r3 else
              match r3 with
              | EmptyString => false
              | String c4 r4 =>
                  seq_ok4 (octet c1) (octet c2) (octet c3) (octet c4) && utf8_valid r4
              end
          end
      end
  end.

(** ** Hex digits *)

Definition hex_digit (n : N) : ascii :=
  match String.get (N.to_nat n) "0123456789ABCDEF" with
  | Some c => c
  | None => "0"%char
  end.

Definition hex_val (c : ascii) : option N :=
  let b := octet c in
  if (0x30 <=? b)%N && (b <=? 0x39)%N then Some (b - 0x30)%N
  else if (0x41 <=? b)%N && (b <=? 0x46)%N then Some (b - 0x37)%N
  else if (0x61 <=? b)%N && (b <=? 0x66)%N then Some (b - 0x57)%N
  else None.

(** [%XY] for one octet. *)
Definition percent_encode (c : ascii) : string :=
  String "%" (String (hex_digit (octet c / 16)) (String (hex_digit (octet c mod 16)) EmptyString)).

(** ** encodeURI *)

Definition is_alnum (c : ascii) : bool :=
  let b := octet c in
  (0x30 <=? b)%N && (b <=? 0x39)%N || (0x41 <=? b)%N && (b <=? 0x5A)%N
  || (0x61 <=? b)%N && (b <=? 0x7A)%N.

Definition in_set (set : string) (c : ascii) : bool :=
  existsb (fun d => bool_decide (d = c)) (String.list_ascii_of_string set).

(** uriReserved plus "#": [decodeURI]'s preserveEscapeSet. *)
Definition reserved_hash : string := ";/?:@&=+$,#".

(** uriUnescaped = alphanumerics and the marks. *)
Definition uri_mark : string := "-_.!~*'()".

Definition encode_keep (c : ascii) : bool :=
  is_alnum c || in_set uri_mark c || in_set reserved_hash c.

Fixpoint encode_bytes (s : string) : string :=
  match s with
  | EmptyString => EmptyString
  | String c r =>
      (if encode_keep c then String c EmptyString else percent_encode c) +:+ encode_bytes r
  end.

Definition encodeURI (s : string) : Result JsError string :=
  if utf8_valid s then Ok (encode_bytes s) else Throw uri_error.

(** ** decodeURI *)

(** [%XY] at the head: the octet, the three characters, the rest. *)
Definition parse_escape (s : string) : option (N * string * string) :=
  match s with
  | String "%" (String h1 (String h2 rest)) =>
      match hex_val h1, hex_val h2 with
      | Some a, Some b =>
          Some ((a * 16 + b)%N, String "%" (String h1 (String h2 EmptyString)), rest)
      | _, _ => None
      end
  | _ => None
  end.

(** The number of leading one bits of an octet. *)
Definition leading_ones (b : N) : nat :=
  if (b <? 0x80)%N then 0 else if (b <? 0xC0)%N then 1
  else if (b <? 0xE0)%N then 2 else if (b <? 0xF0)%N then 3
  else if (b <? 0xF8)%N then 4 else 5.

Fixpoint take_escapes (k : nat) (s : string) : option (list N * string) :=
  match k with
  | O => Some ([], s)
  | S k' =>
      match parse_escape s with
      | Some (b, _, rest) =>
          match take_escapes k' rest with
          | Some (bs, r) => Some (b :: bs, r)
          | None => None
          end
      | None => None
      end
  end.

Definition octets (bs : list N) : string :=
  String.string_of_list_ascii (map ascii_of_N bs).

Definition res_prepend (t : string) (r : Result JsError string) : Result JsError string :=
  match r with Ok u => Ok (t +:+ u) | Throw e => Throw e end.

(** One escape [%XY] decoded to octet [b], [esc] its three characters,
    [rest] what follows; [go] decodes the rest. *)
Definition decode_escape (go : string -> Result JsError string)
           (b : N) (esc rest : string) : Result JsError string :=
  let n := leading_ones b in
  if n =? 0 then
    res_prepend (if in_set reserved_hash (ascii_of_N b) then esc
                 else String (ascii_of_N b) EmptyString) (go rest)
  else if (n =? 1) || (4 <? n) then Throw uri_error
  else match take_escapes (n - 1) rest with
       | None => Throw uri_error
       | Some (bs, rest') =>
           if utf8_seq_valid (b :: bs) then res_prepend (octets (b :: bs)) (go rest')
           else Throw uri_error
       end.

Fixpoint decode_go (fuel : nat) (s : string) : Result JsError string :=
  match fuel with
  | O => Ok s
  | S f =>
      match s with
      | EmptyString => Ok EmptyString
      | String "%" _ =>
          match parse_escape s with
          | None => Throw uri_error
          | Some (b, esc, rest) => decode_escape (decode_go f) b esc rest
          end
      | String c r => res_prepend (String c EmptyString) (decode_go f r)
      end
  end.

Definition decodeURI (s : string) : Result JsError string :=
  decode_go (String.length s) s.

(** ** Basic facts *)

Lemma octet_bound c : (octet c < 256)%N.
Proof. apply N_ascii_bounded. Qed.

Lemma ascii_of_octet c : ascii_of_N (octet c) = c.
Proof. apply ascii_N_embedding. Qed.

Lemma hex_table :
  forallb (fun k => bool_decide (hex_val (hex_digit (N.of_nat k)) = Some (N.of_nat k)))
          (seq 0 16) = true.
Proof. vm_compute. reflexivity. Qed.

Lemma hex_val_digit (n : N) : (n < 16)%N -> hex_val (hex_digit n) = Some n.
Proof.
  intros Hn. pose proof hex_table as H. rewrite forallb_forall in H.
  assert (Hin : In (N.to_nat n) (seq 0 16)) by (apply in_seq; lia).
  specialize (H _ Hin). rewrite N2Nat.id in H. by apply bool_decide_eq_true in H.
Qed.

Lemma parse_escape_percent c t :
  parse_escape (percent_encode c +:+ t) = Some (octet c, percent_encode c, t).
Proof.
  unfold percent_encode. rewrite !string_app_cons, string_app_nil_l. cbn [parse_escape].
  pose proof (octet_bound c).
  rewrite !hex_val_digit by (first [apply N.mod_lt | apply N.Div0.div_lt_upper_bound]; lia).
  repeat f_equal.
  rewrite N.mul_comm. symmetry. apply N.div_mod. lia.
Qed.

Lemma take_escapes_percent k c t :
  take_escapes (S k) (percent_encode c +:+ t) =
  match take_escapes k t with Some (bs, r) => Some (octet c :: bs, r) | None => None end.
Proof. cbn [take_escapes]. by rewrite parse_escape_percent. Qed.

Lemma parse_escape_head s b esc rest :
  parse_escape s = Some (b, esc, rest) -> exists r, s = String "%" r.
Proof.
  destruct s as [|c r]; [discriminate|]. intros H. exists r. f_equal.
  destruct c as [[] [] [] [] [] [] [] []]; try discriminate H; reflexivity.
Qed.

Lemma decode_go_escape f s b esc rest :
  parse_escape s = Some (b, esc, rest) ->
  decode_go (S f) s = decode_escape (decode_go f) b esc rest.
Proof.
  intros H. destruct (parse_escape_head _ _ _ _ H) as [r ->].
  cbn [decode_go]. by rewrite H.
Qed.

Lemma decode_go_char f c r :
  c <> "%"%char -> decode_go (S f) (String c r) = res_prepend (String c EmptyString) (decode_go f r).
Proof.
  intros Hc. destruct c as [[] [] [] [] [] [] [] []]; try reflexivity. by contradiction Hc.
Qed.

Lemma in_set_In set c : in_set set c = true -> In c (String.list_ascii_of_string set).
Proof.
  unfold in_set. rewrite existsb_exists. intros (d & Hd & Heq).
  apply bool_decide_eq_true in Heq. by subst.
Qed.

Lemma keep_ascii c : encode_keep c = true -> (octet c < 0x80)%N.
Proof.
  unfold encode_keep. intros H. nbool. destruct H as [[H|H]|H].
  - unfold is_alnum in H. nbool. lia.
  - apply in_set_In in H. simpl in H.
    repeat (destruct H as [<-|H]; [reflexivity|]); done.
  - apply in_set_In in H. simpl in H.
    repeat (destruct H as [<-|H]; [reflexivity|]); done.
Qed.

Lemma keep_not_percent c : encode_keep c = true -> c <> "%"%char.
Proof. intros H ->. discriminate H. Qed.

Lemma reserved_kept c : in_set reserved_hash c = true -> encode_keep c = true.
Proof. intros H. unfold encode_keep. by rewrite H, orb_true_r. Qed.

Lemma encode_bytes_cons c r :
  encode_bytes (String c r) =
  (if encode_keep c then String c EmptyString else percent_encode c) +:+ encode_bytes r.
Proof. reflexivity. Qed.

(** A character [encodeURI] keeps passes through unescaped, whatever
    surrounds it. *)
Lemma encode_bytes_kept a c b :
  encode_keep c = true ->
  encode_bytes (a +:+ String c b) = encode_bytes a +:+ String c (encode_bytes b).
Proof.
  intros Hc. induction a as [|c' a IH]; [rewrite string_app_nil_l; cbn [encode_bytes]; by rewrite Hc|]. rewrite string_app_cons. cbn [encode_bytes].
  by rewrite IH, string_app_assoc.
Qed.

Lemma leading_ones_2 b : (0xC0 <= b < 0xE0)%N -> leading_ones b = 2.
Proof. intros H. unfold leading_ones. repeat case_match; nbool; lia. Qed.
Lemma leading_ones_3 b : (0xE0 <= b < 0xF0)%N -> leading_ones b = 3.
Proof. intros H. unfold leading_ones. repeat case_match; nbool; lia. Qed.
Lemma leading_ones_4 b : (0xF0 <= b < 0xF8)%N -> leading_ones b = 4.
Proof. intros H. unfold leading_ones. repeat case_match; nbool; lia. Qed.
Lemma leading_ones_0 b : (b < 0x80)%N -> leading_ones b = 0.
Proof. intros H. unfold leading_ones. repeat case_match; nbool; lia. Qed.

(** ** Round trip *)

Definition pe_concat (cs : list ascii) (t : string) : string :=
  foldr (fun c acc => percent_encode c +:+ acc) t cs.

Lemma take_escapes_concat cs t :
  take_escapes (length cs) (pe_concat cs t) = Some (map octet cs, t).
Proof.
  induction cs as [|c cs IH]; [done|]. cbn [length pe_concat foldr map].
  rewrite take_escapes_percent. fold (pe_concat cs t). by rewrite IH.
Qed.

Lemma octets_map cs : octets (map octet cs) = String.string_of_list_ascii cs.
Proof.
  unfold octets. rewrite map_map.
  induction cs as [|c cs IH]; [done|]. simpl. by rewrite ascii_of_octet, IH.
Qed.

Lemma encode_nonascii c r :
  (0x80 <= octet c)%N -> encode_bytes (String c r) = percent_encode c +:+ encode_bytes r.
Proof.
  intros H. rewrite encode_bytes_cons.
  destruct (encode_keep c) eqn:E; [apply keep_ascii in E; lia | done].
Qed.

(** Decoding a multi-octet sequence of escapes. *)
Lemma decode_go_seq f c1 cs t :
  2 <= S (length cs) <= 4 -> leading_ones (octet c1) = S (length cs) ->
  utf8_seq_valid (octet c1 :: map octet cs) = true ->
  decode_go (S f) (percent_encode c1 +:+ pe_concat cs t) =
  res_prepend (String.string_of_list_ascii (c1 :: cs)) (decode_go f t).
Proof.
  intros Hn Hl Hv. rewrite (decode_go_escape _ _ _ _ _ (parse_escape_percent c1 _)).
  unfold decode_escape. rewrite Hl.
  replace (S (length cs) - 1) with (length cs) by lia. rewrite take_escapes_concat, Hv.
  rewrite <- octets_map.
  destruct cs as [|c2 [|c3 [|c4 [|c5 cs]]]]; cbn in Hn |- *; [lia| | | |lia]; reflexivity.
Qed.

Lemma seq_ok2_range b1 b2 :
  seq_ok2 b1 b2 = true -> (0xC0 <= b1 < 0xE0)%N /\ (0x80 <= b2)%N.
Proof. unfold seq_ok2, cont. intros H. nbool. lia. Qed.

Lemma seq_ok3_range b1 b2 b3 :
  seq_ok3 b1 b2 b3 = true -> (0xE0 <= b1 < 0xF0)%N /\ (0x80 <= b2)%N /\ (0x80 <= b3)%N.
Proof. unfold seq_ok3, cont. intros H. nbool. lia. Qed.

Lemma seq_ok4_range b1 b2 b3 b4 :
  seq_ok4 b1 b2 b3 b4 = true ->
  (0xF0 <= b1 < 0xF8)%N /\ (0x80 <= b2)%N /\ (0x80 <= b3)%N /\ (0x80 <= b4)%N.
Proof. unfold seq_ok4, cont. intros H. nbool. lia. Qed.

Lemma encode_length_pos c r : 1 <= String.length (encode_bytes (String c r)).
Proof.
  rewrite encode_bytes_cons, string_length_app. destruct (encode_keep c); simpl; lia.
Qed.

Lemma length_pe_concat cs t :
  String.length (pe_concat cs t) = 3 * length cs + String.length t.
Proof.
  induction cs as [|c cs IH]; [done|]. cbn [pe_concat foldr length].
  fold (pe_concat cs t). rewrite string_length_app, IH. simpl. lia.
Qed.

Ltac seq_step IH :=
  rewrite ?encode_nonascii by lia;
  lazymatch goal with
  | |- decode_go _ (percent_encode ?c1 +:+ percent_encode ?c2 +:+ percent_encode ?c3
                     +:+ percent_encode ?c4 +:+ ?t) = _ =>
      change (percent_encode c2 +:+ percent_encode c3 +:+ percent_encode c4 +:+ t)
        with (pe_concat [c2; c3; c4] t)
  | |- decode_go _ (percent_encode ?c1 +:+ percent_encode ?c2 +:+ percent_encode ?c3
                     +:+ ?t) = _ =>
      change (percent_encode c2 +:+ percent_encode c3 +:+ t) with (pe_concat [c2; c3] t)
  | |- decode_go _ (percent_encode ?c1 +:+ percent_encode ?c2 +:+ ?t) = _ =>
      change (percent_encode c2 +:+ t) with (pe_concat [c2] t)
  end;
  rewrite decode_go_seq;
  [ rewrite IH; [reflexivity | assumption |]
  | cbn [length]; lia
  | cbn [length]; first [ apply leading_ones_2 | apply leading_ones_3 | apply leading_ones_4 ]; lia
  | cbn [utf8_seq_valid map]; assumption ].

Lemma decode_encode_go f s :
  utf8_valid s = true -> String.length (encode_bytes s) <= f ->
  decode_go f (encode_bytes s) = Ok s.
Proof.
  revert s. induction f as [|f IH]; intros s Hv Hl.
  { destruct s as [|c r]; [done|]. pose proof (encode_length_pos c r). lia. }
  destruct s as [|c1 r1]; [done|].
  cbn [utf8_valid] in Hv. destruct (octet c1 <? 0x80)%N eqn:Ha.
  - rewrite encode_bytes_cons in Hl |- *. rewrite string_length_app in Hl.
    destruct (encode_keep c1) eqn:Hk.
    + rewrite string_app_cons, string_app_nil_l, decode_go_char by (by apply keep_not_percent).
      rewrite IH; [done|done|]. simpl in Hl. lia.
    + rewrite (decode_go_escape _ _ _ _ _ (parse_escape_percent c1 _)). unfold decode_escape.
      rewrite leading_ones_0 by (nbool; lia). cbn [Nat.eqb]. rewrite ascii_of_octet.
      destruct (in_set reserved_hash c1) eqn:Hr;
        [rewrite reserved_kept in Hk by done; discriminate|].
      rewrite IH; [done|done|]. simpl in Hl. lia.
  - nbool. destruct r1 as [|c2 r2]; [discriminate|].
    destruct (seq_ok2 (octet c1) (octet c2)) eqn:H2.
    { destruct (seq_ok2_range _ _ H2). rewrite !encode_nonascii in Hl by lia.
      rewrite !string_length_app in Hl. seq_step IH. simpl in Hl. lia. }
    destruct r2 as [|c3 r3]; [discriminate|].
    destruct (seq_ok3 (octet c1) (octet c2) (octet c3)) eqn:H3.
    { destruct (seq_ok3_range _ _ _ H3) as (? & ? & ?).
      rewrite !encode_nonascii in Hl by lia. rewrite !string_length_app in Hl.
      seq_step IH. simpl in Hl. lia. }
    destruct r3 as [|c4 r4]; [discriminate|].
    apply andb_true_iff in Hv as [H4 Hv].
    destruct (seq_ok4_range _ _ _ _ H4) as (? & ? & ? & ?).
    rewrite !encode_nonascii in Hl by lia. rewrite !string_length_app in Hl.
    seq_step IH. simpl in Hl. lia.
Qed.

(** The decoder inverts the encoder: whatever [encodeURI] returns,
    [decodeURI] decodes back to the original string (a check of the two
    transcriptions against each other; the program itself never
    decodes what it encoded). *)
Theorem decodeURI_encodeURI s t :
  encodeURI s = Ok t -> decodeURI t = Ok s.
Proof.
  unfold encodeURI, decodeURI. destruct (utf8_valid s) eqn:Hv; intros H; [|discriminate].
  injection H as <-. by apply decode_encode_go.
Qed.

(** ** Fuel *)

Lemma parse_escape_length s b esc rest :
  parse_escape s = Some (b, esc, rest) -> String.length rest + 3 = String.length s.
Proof.
  intros H. destruct (parse_escape_head _ _ _ _ H) as [r ->].
  destruct r as [|h1 [|h2 rest']]; cbn [parse_escape] in H; try discriminate.
  destruct (hex_val h1), (hex_val h2); simplify_eq; simpl; lia.
Qed.

Lemma take_escapes_length k s bs r :
  take_escapes k s = Some (bs, r) -> String.length r <= String.length s.
Proof.
  revert s bs. induction k as [|k IH]; intros s bs; cbn [take_escapes].
  - intros H. by simplify_eq.
  - destruct (parse_escape s) as [[[b esc] rest]|] eqn:Hp; [|discriminate].
    destruct (take_escapes k rest) as [[bs' r']|] eqn:Ht; [|discriminate].
    intros H. simplify_eq. apply parse_escape_length in Hp. apply IH in Ht. lia.
Qed.

Lemma decode_escape_ext (go1 go2 : string -> Result JsError string) b esc rest :
  (forall t, String.length t <= String.length rest -> go1 t = go2 t) ->
  decode_escape go1 b esc rest = decode_escape go2 b esc rest.
Proof.
  intros Hgo. unfold decode_escape.
  destruct (take_escapes (leading_ones b - 1) rest) as [[bs r]|] eqn:Ht;
    repeat case_match; rewrite ?Hgo; eauto using take_escapes_length.
Qed.

(** Any fuel at least the length of the input gives the same result as
    [decodeURI]: every step consumes at least one character. *)
Lemma decode_go_fuel_eq f1 f2 s :
  String.length s <= f1 -> String.length s <= f2 -> decode_go f1 s = decode_go f2 s.
Proof.
  revert f2 s. induction f1 as [|f1 IH]; intros f2 s H1 H2.
  - destruct s; [destruct f2; reflexivity | simpl in H1; lia].
  - destruct f2 as [|f2]; [destruct s; [reflexivity | simpl in H2; lia]|].
    destruct s as [|c r]; [reflexivity|].
    destruct (ascii_dec c "%") as [->|Hc].
    + destruct (parse_escape (String "%" r)) as [[[b esc] rest]|] eqn:Hp.
      * rewrite !(decode_go_escape _ _ _ _ _ Hp). apply decode_escape_ext.
        apply parse_escape_length in Hp. intros t Ht. apply IH; lia.
      * cbn [decode_go]. by rewrite Hp.
    + rewrite !decode_go_char by done. simpl in H1, H2. by rewrite (IH f2 r) by lia.
Qed.

(** Termination of the decoder.  [decode_go] with any fuel at least
    the input's length computes exactly [decodeURI]: the fuel bound in
    the model never cuts the loop short. *)
Theorem decode_go_enough_fuel f s :
  String.length s <= f -> decode_go f s = decodeURI s.
Proof. intros H. unfold decodeURI. apply decode_go_fuel_eq; lia. Qed.

(** ** Concrete runs *)

Lemma decodeURI_encodeURI_witness :
  encodeURI "my file#1%.png" = Ok "my%20file#1%25.png" /\
  decodeURI "my%20file#1%25.png" = Ok "my file#1%.png".
Proof. split; [reflexivity|]. apply decodeURI_encodeURI. reflexivity. Defined.

Lemma decode_go_enough_fuel_witness :
  decode_go 40 "img%20one%2F.png" = decodeURI "img%20one%2F.png".
Proof. apply decode_go_enough_fuel. simpl. lia. Defined.

End Uri.
