(* ===== verification/Markdown.v ===== *)
(** * Markdown: the content transformer ([MarkdownProcessor.process])

    Models [src/core/markdown_processor.ts].  [process] prepends the
    title line ["# " + file.basename + "\n\n"], then runs
    [processed.replace(/!\[(.*?)\]\((.*?)\)/g, callback)].

    - The regular expression is modelled by [match_at], a direct
      transcription of the backtracking matcher on this pattern: the
      lazy [(.*?)] of the alt text tries the shortest alt first and, for
      each, the lazy [(.*?)] of the url takes the shortest url followed
      by [)]; a candidate alt that leads to no url is extended by one
      character.  [.] matches any character but the line terminators
      \n, \r, U+2028 and U+2029 (the octets E2 80 A8 / E2 80 A9).
      [match_at_sound], [match_at_complete] and [match_at_least] relate
      it to the declarative reading [regex_match] of the pattern.
    - The global [replace] scans left to right: a match at the current
      position is replaced and the scan resumes after it, otherwise one
      character is kept.  [scan] records that as a list of [piece]s; it
      recurses with fuel (the input's length, [scan_enough_fuel]).
    - The callback decodes the url ([Uri.decodeURI], which may throw),
      asks the vault's link resolver ([getFirstLinkpathDest], a
      parameter of the model, the one piece of Obsidian it consults)
      and, for a resolved file, pushes it onto [assets] and rewrites the
      target to [assetsFolderName/encodeURI(name)].  A throw in the
      callback aborts the whole [replace]. *)

From S2P Require Import Prelude Uri.

Module Markdown.

(** Obsidian's [TFile], the fields the plugin reads. *)
Record TFile := mkTFile {
  path : string;        (** vault path, e.g. "notes/a.md" *)
  name : string;        (** file name with extension *)
  basename : string;    (** file name without extension *)
  extension : string;
}.

#[export] Instance TFile_eq_dec : EqDecision TFile.
Proof. solve_decision. Defined.

(** [app.metadataCache.getFirstLinkpathDest(linkpath, sourcePath)] *)
Abbreviation Resolver := (string -> string -> option TFile).

Definition code (c : ascii) : N := N_of_ascii c.

(** A line terminator starts here: [.] does not match it. *)
Definition line_term_at (s : string) : bool :=
  match s with
  | EmptyString => false
  | String c r =>
      (code c =? 10)%N || (code c =? 13)%N ||
      ((code c =? 0xE2)%N &&
       match r with
       | String c2 (String c3 _) =>
           (code c2 =? 0x80)%N && ((code c3 =? 0xA8)%N || (code c3 =? 0xA9)%N)
       | _ => false
       end)
  end.

(** [(.*?)\)]: the shortest url followed by [)]. *)
Fixpoint lazy_url (s : string) : option (string * string) :=
  match s with
  | EmptyString => None
  | String c r =>
      if bool_decide (c = ")"%char) then Some (EmptyString, r)
      else if line_term_at s then None
      else match lazy_url r with
           | Some (u, rest) => Some (String c u, rest)
           | None => None
           end
  end.

(** [\]\((.*?)\)] at the head: the url and the rest. *)
Definition bracket_url (s : string) : option (string * string) :=
  match s with
  | String c1 (String c2 r) =>
      if bool_decide (c1 = "]"%char) && bool_decide (c2 = "("%char) then lazy_url r else None
  | _ => None
  end.

(** [(.*?)\]\((.*?)\)]: the shortest alt for which a url exists. *)
Fixpoint lazy_alt (s : string) : option (string * string * string) :=
  match s with
  | EmptyString => None
  | String c r =>
      match bracket_url s with
      | Some (u, rest) => Some (EmptyString, u, rest)
      | None =>
          if line_term_at s then None
          else match lazy_alt r with
               | Some (a, u, rest) => Some (String c a, u, rest)
               | None => None
               end
      end
  end.

(** A match of the pattern starting exactly here: alt, url, rest. *)
Definition match_at (s : string) : option (string * string * string) :=
  match s with
  | String c1 (String c2 r) =>
      if bool_decide (c1 = "!"%char) && bool_decide (c2 = "["%char) then lazy_alt r else None
  | _ => None
  end.

(** The text of a match, [match] in the callback. *)
Definition match_text (alt url : string) : string :=
  "![" +:+ alt +:+ "](" +:+ url +:+ ")".

Inductive piece :=
| PText (c : ascii)
| PImg (alt url : string).

(** The global scan of [replace]. *)
Fixpoint scan_go (fuel : nat) (s : string) : list piece :=
  match fuel with
  | O => []
  | S f =>
      match s with
      | EmptyString => []
      | String c r =>
          match match_at s with
          | Some (a, u, rest) => PImg a u :: scan_go f rest
          | None => PText c :: scan_go f r
          end
      end
  end.

Definition scan (s : string) : list piece := scan_go (String.length s) s.

Definition render_piece (p : piece) : string :=
  match p with
  | PText c => String c EmptyString
  | PImg a u => match_text a u
  end.

Definition render (ps : list piece) : string :=
  foldr (fun p acc => render_piece p +:+ acc) EmptyString ps.

Section Process.

Variable getFirstLinkpathDest : Resolver.

(** The replace callback [(match, alt, url) => ...]: the replacement and
    the file pushed onto [assets], if any. *)
Definition replacer (file : TFile) (assetsFolderName alt url : string)
  : Result JsError (string * option TFile) :=
  match Uri.decodeURI url with
  | Throw e => Throw e
  | Ok decodedUrl =>
      match getFirstLinkpathDest decodedUrl (path file) with
      | Some target =>
          match Uri.encodeURI (name target) with
          | Throw e => Throw e
          | Ok enc =>
              let newPath := assetsFolderName +:+ "/" +:+ enc in
              Ok ("![" +:+ alt +:+ "](" +:+ newPath +:+ ")", Some target)
          end
      | None => Ok (match_text alt url, None)
      end
  end.

(** Run the callback over the pieces, left to right. *)
Fixpoint replace_pieces (file : TFile) (assetsFolderName : string) (ps : list piece)
  : Result JsError (string * list TFile) :=
  match ps with
  | [] => Ok (EmptyString, [])
  | PText c :: ps' =>
      match replace_pieces file assetsFolderName ps' with
      | Ok (out, assets) => Ok (String c out, assets)
      | Throw e => Throw e
      end
  | PImg a u :: ps' =>
      match replacer file assetsFolderName a u with
      | Throw e => Throw e
      | Ok (txt, t) =>
          match replace_pieces file assetsFolderName ps' with
          | Ok (out, assets) =>
              Ok (txt +:+ out, match t with Some f => f :: assets | None => assets end)
          | Throw e => Throw e
          end
      end
  end.

Definition newline : string := String (ascii_of_nat 10) EmptyString.

(** ["# " + file.basename + "\n\n"] *)
Definition titleLine (file : TFile) : string :=
  "# " +:+ basename file +:+ newline +:+ newline.

(** [process(content, file, assetsFolderName)] *)
Definition process (content : string) (file : TFile) (assetsFolderName : string)
  : Result JsError (string * list TFile) :=
  let processed := titleLine file +:+ content in
  replace_pieces file assetsFolderName (scan processed).

End Process.

(** ** The pattern, declaratively *)

(** A run of [.] matches [x] when no position of [x] starts a line terminator
    ([after] is the text that follows [x], for the look-ahead). *)
Fixpoint dots (x after : string) : bool :=
  match x with
  | EmptyString => true
  | String c r => negb (line_term_at (String c r +:+ after)) && dots r after
  end.

(** [s] matches the pattern, read without laziness, with captures [a]
    and [u] (each a run of [.]), leaving [rest]. *)
Definition regex_match (s a u rest : string) : Prop :=
  s = match_text a u +:+ rest /\
  dots a ("](" +:+ u +:+ ")" +:+ rest) = true /\
  dots u (")" +:+ rest) = true.

(** ** The matcher against the pattern *)

Lemma dots_cons c r after :
  dots (String c r) after = negb (line_term_at (String c (r +:+ after))) && dots r after.
Proof. reflexivity. Qed.

Lemma lazy_url_sound s u rest :
  lazy_url s = Some (u, rest) ->
  s = u +:+ ")" +:+ rest /\ dots u (")" +:+ rest) = true /\
  ~ In ")"%char (String.list_ascii_of_string u).
Proof.
  revert u. induction s as [|c r IH]; intros u H; [discriminate|].
  cbn [lazy_url] in H. case_bool_decide as Hc.
  - simplify_eq. split_and!; [reflexivity|reflexivity|simpl; tauto].
  - destruct (line_term_at (String c r)) eqn:Hl; [discriminate|].
    destruct (lazy_url r) as [[u' r']|] eqn:E; [|discriminate]. simplify_eq.
    destruct (IH _ eq_refl) as (Hr & Hd & Hn). subst r. split_and!.
    + reflexivity.
    + rewrite dots_cons, Hd, andb_true_r. by rewrite Hl.
    + simpl. intros [H|H]; [by apply Hc|by apply Hn].
Qed.

Lemma lazy_url_complete u rest :
  dots u (")" +:+ rest) = true ->
  exists u' rest', lazy_url (u +:+ ")" +:+ rest) = Some (u', rest') /\
                   String.length u' <= String.length u.
Proof.
  induction u as [|c u IH]; intros Hd.
  - exists "", rest. split; [reflexivity | simpl; lia].
  - rewrite dots_cons in Hd. apply andb_true_iff in Hd as [Hl Hd].
    apply negb_true_iff in Hl. rewrite string_app_cons. cbn [lazy_url].
    case_bool_decide.
    + eexists _, _. split; [reflexivity | simpl; lia].
    + rewrite Hl. destruct (IH Hd) as (u' & r' & E & Hlen). rewrite E.
      eexists _, _. split; [reflexivity | simpl; lia].
Qed.

Lemma bracket_url_some s u rest :
  bracket_url s = Some (u, rest) -> exists r, s = "](" +:+ r /\ lazy_url r = Some (u, rest).
Proof.
  destruct s as [|c1 [|c2 r]]; try discriminate. cbn [bracket_url].
  repeat case_bool_decide; simpl; try discriminate. subst. intros H. by exists r.
Qed.

Lemma lazy_alt_sound s a u rest :
  lazy_alt s = Some (a, u, rest) ->
  s = a +:+ "](" +:+ u +:+ ")" +:+ rest /\
  dots a ("](" +:+ u +:+ ")" +:+ rest) = true /\ dots u (")" +:+ rest) = true.
Proof.
  revert a. induction s as [|c r IH]; intros a H; [discriminate|].
  cbn [lazy_alt] in H. destruct (bracket_url (String c r)) as [[u0 r0]|] eqn:Eb.
  - simplify_eq. destruct (bracket_url_some _ _ _ Eb) as (t & Es & Eu).
    destruct (lazy_url_sound _ _ _ Eu) as (-> & Hd & _). rewrite Es. by split_and!.
  - destruct (line_term_at (String c r)) eqn:Hl; [discriminate|].
    destruct (lazy_alt r) as [[[a0 u0] r0]|] eqn:E; [|discriminate]. simplify_eq.
    destruct (IH _ eq_refl) as (Hr & Hd & Hu). subst r. split_and!; [reflexivity| |done].
    rewrite dots_cons, Hd, andb_true_r. by rewrite Hl.
Qed.

Lemma lazy_alt_complete a u rest :
  dots a ("](" +:+ u +:+ ")" +:+ rest) = true -> dots u (")" +:+ rest) = true ->
  exists a' u' rest', lazy_alt (a +:+ "](" +:+ u +:+ ")" +:+ rest) = Some (a', u', rest') /\
    (String.length a' < String.length a \/
     String.length a' = String.length a /\ String.length u' <= String.length u).
Proof.
  intros Ha Hu. induction a as [|c a IH].
  - destruct (lazy_url_complete _ _ Hu) as (u' & r' & E & L).
    exists "", u', r'. split; [|right; simpl; lia].
    change (lazy_alt ("" +:+ "](" +:+ u +:+ ")" +:+ rest))
      with (lazy_alt (String "]" (String "(" (u +:+ ")" +:+ rest)))).
    cbn [lazy_alt bracket_url]. simpl (bool_decide _ && _). by rewrite E.
  - rewrite dots_cons in Ha. apply andb_true_iff in Ha as [Hl Ha].
    apply negb_true_iff in Hl. rewrite string_app_cons. cbn [lazy_alt].
    destruct (bracket_url _) as [[u0 r0]|].
    + exists "", u0, r0. split; [reflexivity | left; simpl; lia].
    + rewrite Hl. destruct (IH Ha) as (a' & u' & r' & E & L). rewrite E.
      exists (String c a'), u', r'. split; [reflexivity | simpl; lia].
Qed.

Lemma match_text_app a u rest :
  match_text a u +:+ rest = String "!" (String "[" (a +:+ "](" +:+ u +:+ ")" +:+ rest)).
Proof. unfold match_text. by rewrite !string_app_assoc. Qed.

Lemma match_at_some s a u rest :
  match_at s = Some (a, u, rest) -> exists r, s = String "!" (String "[" r) /\ lazy_alt r = Some (a, u, rest).
Proof.
  destruct s as [|c1 [|c2 r]]; try discriminate. cbn [match_at].
  repeat case_bool_decide; simpl; try discriminate. subst. intros H. by exists r.
Qed.

Lemma match_at_sound s a u rest :
  match_at s = Some (a, u, rest) -> regex_match s a u rest.
Proof.
  intros H. destruct (match_at_some _ _ _ _ H) as (r & -> & E).
  destruct (lazy_alt_sound _ _ _ _ E) as (-> & Ha & Hu).
  split_and!; [by rewrite match_text_app | done | done].
Qed.

Lemma match_at_complete s a u rest :
  regex_match s a u rest ->
  exists a' u' rest', match_at s = Some (a', u', rest') /\
    (String.length a' < String.length a \/
     String.length a' = String.length a /\ String.length u' <= String.length u).
Proof.
  intros (-> & Ha & Hu). rewrite match_text_app. cbn [match_at]. simpl (bool_decide _ && _).
  by apply lazy_alt_complete.
Qed.

Lemma regex_match_unique s a u r a' u' r' :
  regex_match s a u r -> regex_match s a' u' r' ->
  String.length a = String.length a' -> String.length u = String.length u' ->
  a = a' /\ u = u' /\ r = r'.
Proof.
  intros (Hs & _ & _) (Hs' & _ & _) La Lu. rewrite Hs' in Hs.
  rewrite !match_text_app in Hs. injection Hs as Hs.
  destruct (string_app_inj_len _ _ _ _ (eq_sym La) Hs) as [-> Hs2].
  injection Hs2 as Hs2.
  destruct (string_app_inj_len _ _ _ _ (eq_sym Lu) Hs2) as [-> Hs3].
  injection Hs3 as Hs3. rewrite !string_app_nil_l in Hs3. by subst.
Qed.

(** C11: the matcher is the regular expression.  [match_at s] returns
    [(alt, url, rest)] exactly when [s] starts with
    [![alt](url)] followed by [rest], alt and url containing no line
    terminator, and no other such decomposition has a shorter alt, or
    the same alt and a shorter url: the match JavaScript's backtracking
    with two lazy quantifiers selects. *)
Theorem match_at_spec s a u rest :
  match_at s = Some (a, u, rest) <->
  regex_match s a u rest /\
  (forall a' u' rest', regex_match s a' u' rest' ->
     String.length a < String.length a' \/
     String.length a = String.length a' /\ String.length u <= String.length u').
Proof.
  split.
  - intros H. split; [by apply match_at_sound|]. intros a' u' r' Hm.
    destruct (match_at_complete _ _ _ _ Hm) as (a0 & u0 & r0 & E & L).
    rewrite H in E. simplify_eq. lia.
  - intros [Hm Hleast]. destruct (match_at_complete _ _ _ _ Hm) as (a0 & u0 & r0 & E & L).
    pose proof (match_at_sound _ _ _ _ E) as Hm0. specialize (Hleast _ _ _ Hm0).
    destruct (regex_match_unique _ _ _ _ _ _ _ Hm Hm0) as (-> & -> & ->); [lia|lia|done].
Qed.

(** No match is missed.  [match_at s] is [None] exactly when no
    decomposition of [s] matches the pattern. *)
Theorem match_at_none s :
  match_at s = None <-> forall a u rest, ~ regex_match s a u rest.
Proof.
  split.
  - intros H a u r Hm. destruct (match_at_complete _ _ _ _ Hm) as (? & ? & ? & E & _).
    congruence.
  - intros H. destruct (match_at s) as [[[a u] r]|] eqn:E; [|done].
    exfalso. by apply (H a u r), match_at_sound.
Qed.

(** ** The global scan *)

Lemma match_text_length a u :
  String.length (match_text a u) = 5 + String.length a + String.length u.
Proof. unfold match_text. rewrite !string_length_app. simpl. lia. Qed.

Lemma match_at_length s a u rest :
  match_at s = Some (a, u, rest) -> String.length rest < String.length s.
Proof.
  intros H. destruct (match_at_sound _ _ _ _ H) as (-> & _ & _).
  rewrite string_length_app, match_text_length. lia.
Qed.

Lemma scan_go_fuel_eq f1 f2 s :
  String.length s <= f1 -> String.length s <= f2 -> scan_go f1 s = scan_go f2 s.
Proof.
  revert f2 s. induction f1 as [|f1 IH]; intros [|f2] [|c r] H1 H2;
    cbn [String.length] in H1, H2; try lia; cbn [scan_go]; try done.
  destruct (match_at (String c r)) as [[[a u] rest]|] eqn:E.
  - apply match_at_length in E. simpl in E. f_equal. apply IH; lia.
  - f_equal. apply IH; lia.
Qed.

(** Termination of the scan.  [scan_go] with any fuel at least the
    input's length computes [scan]: every step consumes a character or a
    whole match. *)
Theorem scan_enough_fuel f s : String.length s <= f -> scan_go f s = scan s.
Proof. intros H. apply scan_go_fuel_eq; [done|lia]. Qed.

Lemma render_scan_go f s : String.length s <= f -> render (scan_go f s) = s.
Proof.
  revert s. induction f as [|f IH]; intros [|c r] H;
    cbn [String.length] in H; try lia; cbn [scan_go]; try done.
  destruct (match_at (String c r)) as [[[a u] rest]|] eqn:E.
  - pose proof (match_at_length _ _ _ _ E) as L. simpl in L.
    destruct (match_at_sound _ _ _ _ E) as (Hs & _ & _). cbn [render foldr render_piece].
    fold (render (scan_go f rest)). rewrite IH by lia. by rewrite <- Hs.
  - cbn [render foldr render_piece]. fold (render (scan_go f r)).
    rewrite IH by lia. reflexivity.
Qed.

(** The scan loses nothing.  Printing the pieces back (each match as
    its own text) gives the scanned string: [replace] leaves every
    character outside the matches in place. *)
Theorem render_scan s : render (scan s) = s.
Proof. by apply render_scan_go. Qed.

(** ** [process] *)

Lemma match_at_not_bang c r : c <> "!"%char -> match_at (String c r) = None.
Proof.
  intros Hc. destruct r as [|c2 r]; [reflexivity|]. cbn [match_at].
  by rewrite bool_decide_eq_false_2.
Qed.

Lemma scan_go_text f t s :
  ~ In "!"%char (String.list_ascii_of_string t) ->
  String.length (t +:+ s) <= f ->
  scan_go f (t +:+ s) =
  map PText (String.list_ascii_of_string t) ++ scan_go (f - String.length t) s.
Proof.
  revert f. induction t as [|c t IH]; intros f Hn Hf.
  - cbn [map String.list_ascii_of_string app String.length].
    by rewrite string_app_nil_l, Nat.sub_0_r.
  - destruct f as [|f]; [rewrite string_length_app in Hf; simpl in Hf; lia|].
    rewrite string_app_cons. cbn [scan_go].
    rewrite match_at_not_bang by (intros ->; apply Hn; by left).
    cbn [map String.list_ascii_of_string app String.length Nat.sub].
    rewrite IH; [done| |].
    + intros H; apply Hn; by right.
    + rewrite string_length_app in *. simpl in Hf. lia.
Qed.

Lemma scan_app_text t s :
  ~ In "!"%char (String.list_ascii_of_string t) ->
  scan (t +:+ s) = map PText (String.list_ascii_of_string t) ++ scan s.
Proof.
  intros Hn. unfold scan at 1. rewrite scan_go_text by (done || lia).
  unfold scan. rewrite (scan_go_fuel_eq _ (String.length s)); [done| |lia].
  rewrite string_length_app. lia.
Qed.

Lemma titleLine_no_bang file :
  ~ In "!"%char (String.list_ascii_of_string (basename file)) ->
  ~ In "!"%char (String.list_ascii_of_string (titleLine file)).
Proof.
  intros Hb. unfold titleLine.
  repeat apply not_in_list_ascii_app; try done;
    cbn; intros H; repeat (destruct H as [H|H]; [discriminate|]); exact H.
Qed.

Section ProcessProps.

Variable getFirstLinkpathDest : Resolver.

Lemma replace_pieces_text file folder t ps :
  replace_pieces getFirstLinkpathDest file folder (map PText (String.list_ascii_of_string t) ++ ps) =
  res_map (fun '(out, assets) => (t +:+ out, assets))
          (replace_pieces getFirstLinkpathDest file folder ps).
Proof.
  induction t as [|c t IH].
  - cbn [map String.list_ascii_of_string app].
    by destruct (replace_pieces _ _ _ ps) as [[o a]|e].
  - cbn [map String.list_ascii_of_string app replace_pieces]. rewrite IH.
    by destruct (replace_pieces _ _ _ ps) as [[o a]|e].
Qed.

(** C31: title injection.  When the file's basename contains no [!], the
    output of [process] is the title line ["# " + basename + "\n\n"]
    followed by the rewritten body, with the assets of the body: the
    title is added unconditionally and never rewritten. *)
Theorem process_title content file folder :
  ~ In "!"%char (String.list_ascii_of_string (basename file)) ->
  process getFirstLinkpathDest content file folder =
  res_map (fun '(out, assets) => (titleLine file +:+ out, assets))
          (replace_pieces getFirstLinkpathDest file folder (scan content)).
Proof.
  intros H. unfold process. rewrite scan_app_text by (by apply titleLine_no_bang).
  apply replace_pieces_text.
Qed.

Lemma replace_pieces_identity file folder ps :
  (forall a u, In (PImg a u) ps ->
     replacer getFirstLinkpathDest file folder a u = Ok (match_text a u, None)) ->
  replace_pieces getFirstLinkpathDest file folder ps = Ok (render ps, []).
Proof.
  induction ps as [|[c|a u] ps IH]; intros H; cbn [replace_pieces]; [done| |].
  - rewrite IH; [done|]. intros a u Hin. apply H. by right.
  - rewrite H by (by left). rewrite IH; [done|]. intros a' u' Hin. apply H. by right.
Qed.

(** Unresolved references are left byte for byte.  When every image
    url of the body decodes and resolves to no vault file (an external
    link, a missing file), [process] returns the title line followed by
    the body unchanged, and no asset. *)
Theorem process_unresolved content file folder :
  ~ In "!"%char (String.list_ascii_of_string (basename file)) ->
  (forall a u, In (PImg a u) (scan content) ->
     exists d, Uri.decodeURI u = Ok d /\ getFirstLinkpathDest d (path file) = None) ->
  process getFirstLinkpathDest content file folder = Ok (titleLine file +:+ content, []).
Proof.
  intros Hb H. unfold process. rewrite scan_app_text by (by apply titleLine_no_bang).
  rewrite replace_pieces_text, replace_pieces_identity.
  - cbn. unfold scan. by rewrite render_scan_go.
  - intros a u Hin. destruct (H a u Hin) as (d & Hd & Hr).
    unfold replacer. by rewrite Hd, Hr.
Qed.

(** The files the callback pushes for one piece. *)
Definition resolved_assets (file : TFile) (p : piece) : list TFile :=
  match p with
  | PImg _ u =>
      match Uri.decodeURI u with
      | Ok d => match getFirstLinkpathDest d (path file) with Some t => [t] | None => [] end
      | Throw _ => []
      end
  | PText _ => []
  end.

Lemma replace_pieces_assets file folder ps out assets :
  replace_pieces getFirstLinkpathDest file folder ps = Ok (out, assets) ->
  assets = flat_map (resolved_assets file) ps.
Proof.
  revert out assets. induction ps as [|[c|a u] ps IH]; intros out assets H;
    cbn [replace_pieces] in H.
  - by simplify_eq.
  - destruct (replace_pieces _ _ _ ps) as [[o a']|e] eqn:E; simplify_eq. eauto.
  - unfold replacer in H. cbn [flat_map resolved_assets].
    destruct (Uri.decodeURI u) as [d|e] eqn:Ed; [|discriminate].
    destruct (getFirstLinkpathDest d (path file)) as [t|] eqn:Er.
    + destruct (Uri.encodeURI (name t)); [|discriminate].
      destruct (replace_pieces _ _ _ ps) as [[o a']|e] eqn:E; simplify_eq.
      cbn [app]. f_equal. eauto.
    + destruct (replace_pieces _ _ _ ps) as [[o a']|e] eqn:E; simplify_eq. eauto.
Qed.

(** C12: the assets.  On success, [assets] lists, in the order of the
    matches, the file each image url decodes and resolves to, one entry
    per match: a file referenced twice is listed twice (the spec asks
    for a set without duplicates). *)
Theorem process_assets content file folder out assets :
  process getFirstLinkpathDest content file folder = Ok (out, assets) ->
  assets = flat_map (resolved_assets file) (scan (titleLine file +:+ content)).
Proof. apply replace_pieces_assets. Qed.

Lemma replace_pieces_throw file folder ps a u e :
  In (PImg a u) ps -> replacer getFirstLinkpathDest file folder a u = Throw e ->
  exists e', replace_pieces getFirstLinkpathDest file folder ps = Throw e'.
Proof.
  induction ps as [|p ps IH]; [done|]. intros [->|Hin] Hr; cbn [replace_pieces].
  - rewrite Hr. eauto.
  - destruct (IH Hin Hr) as [e' E]. destruct p as [c|a' u']; [rewrite E; eauto|].
    destruct (replacer _ _ _ a' u') as [[txt t]|e'']; [rewrite E|]; eauto.
Qed.

(** C30: a malformed escape anywhere aborts.  If any image url of the
    processed text fails [decodeURI] (a [%] not followed by two hex
    digits, a bad UTF-8 sequence), [process] throws, even when the link
    is external and would otherwise be left alone. *)
Theorem process_malformed_url content file folder a u e :
  In (PImg a u) (scan (titleLine file +:+ content)) -> Uri.decodeURI u = Throw e ->
  exists e', process getFirstLinkpathDest content file folder = Throw e'.
Proof.
  intros Hin Hd. apply (replace_pieces_throw _ _ _ a u e Hin).
  unfold replacer. by rewrite Hd.
Qed.

(** C20: a [#] or [?] in an asset's name breaks its rewritten link.
    [encodeURI] escapes neither character (both are URI delimiters it
    keeps), so when an image link resolves to a file whose name holds
    one, the callback writes it raw into the new link: the link reads
    [folder/<encoded part before>#<encoded part after>], and a URL
    parser (the Markdown renderer, the browser) takes everything from
    that character on as the fragment or the query, so the link points
    at [folder/<encoded part before>], not at the uploaded asset. *)
Theorem replacer_raw_delimiter file folder alt url d target a c b :
  c = "#"%char \/ c = "?"%char ->
  Uri.decodeURI url = Ok d -> getFirstLinkpathDest d (path file) = Some target ->
  name target = a +:+ String c b -> Uri.utf8_valid (name target) = true ->
  replacer getFirstLinkpathDest file folder alt url =
    Ok ("![" +:+ alt +:+ "](" +:+ folder +:+ "/" +:+
        Uri.encode_bytes a +:+ String c (Uri.encode_bytes b) +:+ ")", Some target).
Proof.
  intros Hc Hd Hr Hn Hv. unfold replacer. rewrite Hd, Hr. unfold Uri.encodeURI. rewrite Hv, Hn.
  rewrite Uri.encode_bytes_kept by (by destruct Hc as [-> | ->]). by rewrite !string_app_assoc.
Qed.

End ProcessProps.

(** ** Concrete runs (the spec's examples) *)

Definition img_png : TFile := mkTFile "img.png" "img.png" "img" "png".
Definition notes_md : TFile := mkTFile "Notes.md" "Notes.md" "Notes" "md".

(** A vault where [./img.png] resolves to [img.png] and nothing else resolves. *)
Definition vault_resolver : Resolver :=
  fun link _ => if bool_decide (link = "./img.png") then Some img_png else None.

(** A vault holding an image named [my?1.png] ([?] is a legal file-name
    character on macOS and Linux), linked as written. *)
Definition query_png : TFile := mkTFile "my?1.png" "my?1.png" "my?1" "png".
Definition query_resolver : Resolver :=
  fun link _ => if bool_decide (link = "my?1.png") then Some query_png else None.

Lemma replacer_raw_delimiter_witness :
  replacer query_resolver notes_md "assets" "p" "my?1.png" = Ok ("![p](assets/my?1.png)", Some query_png).
Proof.
  refine (replacer_raw_delimiter query_resolver notes_md "assets" "p" "my?1.png" "my?1.png" query_png
            "my" "?"%char "1.png" _ _ _ _ _); [right; reflexivity|vm_compute; reflexivity..].
Defined.

Lemma scan_enough_fuel_witness :
  scan_go 100 "x![a]](b)c" = scan "x![a]](b)c" /\ scan "x![a]](b)c" = [PText "x"; PImg "a]" "b"; PText "c"].
Proof. split; [apply scan_enough_fuel; simpl; lia | reflexivity]. Defined.

Lemma process_title_witness :
  process vault_resolver "hello" notes_md "assets" =
  res_map (fun '(out, assets) => (titleLine notes_md +:+ out, assets))
          (replace_pieces vault_resolver notes_md "assets" (scan "hello")) /\
  process vault_resolver "hello" notes_md "assets" =
  Ok ("# Notes" +:+ newline +:+ newline +:+ "hello", []).
Proof.
  split; [apply process_title; cbn; intros H; repeat (destruct H as [H|H]; [discriminate|]); exact H|].
  reflexivity.
Defined.

Lemma process_unresolved_witness :
  process vault_resolver "![x](https://example.com/a.png)" notes_md "assets" =
  Ok (titleLine notes_md +:+ "![x](https://example.com/a.png)", []).
Proof.
  apply process_unresolved.
  - cbn. intros H; repeat (destruct H as [H|H]; [discriminate|]); exact H.
  - intros a u Hin. vm_compute in Hin. destruct Hin as [Hin|[]]. injection Hin as <- <-.
    eexists. split; reflexivity.
Defined.

Lemma process_assets_witness :
  process vault_resolver "![pic](./img.png)" notes_md "assets" =
    Ok ("# Notes" +:+ newline +:+ newline +:+ "![pic](assets/img.png)", [img_png]) /\
  [img_png] = flat_map (resolved_assets vault_resolver notes_md)
                       (scan (titleLine notes_md +:+ "![pic](./img.png)")).
Proof.
  split; [reflexivity|].
  apply (process_assets vault_resolver "![pic](./img.png)" notes_md "assets"
           ("# Notes" +:+ newline +:+ newline +:+ "![pic](assets/img.png)")).
  reflexivity.
Defined.

Lemma process_malformed_url_witness :
  exists e', process vault_resolver "![x](100%)" notes_md "assets" = Throw e'.
Proof.
  apply (process_malformed_url vault_resolver "![x](100%)" notes_md "assets" "x" "100%"
           Uri.uri_error); [vm_compute; tauto | reflexivity].
Defined.

(** Duplicates are kept.  A note that shows the same image twice
    yields that file twice in [assets], and its reference rewritten
    twice; [publishNote] then uploads it twice. *)
Theorem process_duplicate_assets :
  process vault_resolver "![a](./img.png) ![b](./img.png)" notes_md "assets" =
  Ok (titleLine notes_md +:+ "![a](assets/img.png) ![b](assets/img.png)", [img_png; img_png]).
Proof. vm_compute. reflexivity. Qed.

End Markdown.
