(* ===== verification/Base64.v ===== *)
(** * Base64: [Buffer.from(data).toString('base64')]

    [GitHubService.toBase64] turns the note (UTF-8 text) or an asset (an
    [ArrayBuffer]) into the base64 text the contents API expects; both
    branches of the method do the same thing on the octets.  The
    encoder packs three octets into a 24-bit group [n] and emits the
    four sextets [n >> 18], [n >> 12], [n >> 6], [n] (each [& 63]) as
    characters of the standard alphabet; a last group of one or two
    octets is padded with [=].  The decoder is the one the remote
    applies to the request body (the in-memory remote of [GitHub.v]
    uses it); [fromBase64_toBase64] is the round trip. *)

From S2P Require Import Prelude.
From Stdlib Require Import Zbitwise.

Module Base64.

Definition alphabet : string :=
  "ABCDEFGHIJKLMNOPQRSTUVWXYZabcdefghijklmnopqrstuvwxyz0123456789+/".

(** The character of the low six bits of [n]. *)
Definition sextet_char (n : Z) : ascii :=
  match String.get (Z.to_nat (Z.land n 63)) alphabet with
  | Some c => c
  | None => "A"%char
  end.

Definition octet (c : ascii) : Z := Z.of_N (N_of_ascii c).
Definition of_octet (z : Z) : ascii := ascii_of_N (Z.to_N (Z.land z 255)).

(** The 24-bit group of three octets. *)
Definition group (a b c : Z) : Z :=
  Z.lor (Z.shiftl (Z.lor (Z.shiftl a 8) b) 8) c.

Definition sextets (n : Z) : list ascii :=
  [sextet_char (Z.shiftr n 18); sextet_char (Z.shiftr n 12);
   sextet_char (Z.shiftr n 6); sextet_char n].

Fixpoint encode_list (l : list ascii) : list ascii :=
  match l with
  | [] => []
  | [a] => take 2 (sextets (group (octet a) 0 0)) ++ ["="%char; "="%char]
  | [a; b] => take 3 (sextets (group (octet a) (octet b) 0)) ++ ["="%char]
  | a :: b :: c :: rest => sextets (group (octet a) (octet b) (octet c)) ++ encode_list rest
  end.

(** [toBase64(data)] *)
Definition toBase64 (data : string) : string :=
  String.string_of_list_ascii (encode_list (String.list_ascii_of_string data)).

(** The [i]-th character of the alphabet. *)
Definition alpha_at (i : nat) : ascii :=
  match String.get i alphabet with Some c => c | None => "A"%char end.

(** ** Decoding *)

Fixpoint index_of (c : ascii) (s : string) (i : Z) : option Z :=
  match s with
  | EmptyString => None
  | String d r => if bool_decide (d = c) then Some i else index_of c r (i + 1)
  end.

Definition sextet_val (c : ascii) : option Z := index_of c alphabet 0.

Definition is_pad (c : ascii) : bool := bool_decide (c = "="%char).

(** Four characters back to the 24-bit group. *)
Definition ungroup (c0 c1 c2 c3 : ascii) : option Z :=
  match sextet_val c0, sextet_val c1, sextet_val c2, sextet_val c3 with
  | Some v0, Some v1, Some v2, Some v3 =>
      Some (Z.lor (Z.shiftl (Z.lor (Z.shiftl (Z.lor (Z.shiftl v0 6) v1) 6) v2) 6) v3)
  | _, _, _, _ => None
  end.

Definition octets_of (n : Z) : list ascii :=
  [of_octet (Z.shiftr n 16); of_octet (Z.shiftr n 8); of_octet n].

Fixpoint decode_list (l : list ascii) : option (list ascii) :=
  match l with
  | [] => Some []
  | c0 :: c1 :: c2 :: c3 :: rest =>
      if is_pad c3 then
        match rest with
        | [] =>
            if is_pad c2
            then option_map (take 1 ∘ octets_of) (ungroup c0 c1 "A" "A")
            else option_map (take 2 ∘ octets_of) (ungroup c0 c1 c2 "A")
        | _ => None
        end
      else
        match ungroup c0 c1 c2 c3, decode_list rest with
        | Some n, Some out => Some (octets_of n ++ out)
        | _, _ => None
        end
  | _ => None
  end.

Definition fromBase64 (text : string) : option string :=
  option_map String.string_of_list_ascii (decode_list (String.list_ascii_of_string text)).

(** ** Arithmetic of the groups *)

Local Open Scope Z_scope.

Lemma lor_shiftl_disjoint (a b k : Z) :
  0 <= k -> 0 <= b < 2 ^ k -> Z.lor (Z.shiftl a k) b = a * 2 ^ k + b.
Proof.
  intros Hk Hb.
  assert (Hl : Z.land (Z.shiftl a k) b = 0).
  { apply Z.bits_inj_0. intros i. rewrite Z.land_spec.
    destruct (Z.lt_ge_cases i 0); [by rewrite Z.testbit_neg_r|].
    destruct (Z.lt_ge_cases i k).
    - by rewrite Z.shiftl_spec_low.
    - rewrite <- (Z.mod_small b (2 ^ k)) by lia.
      rewrite Z.mod_pow2_bits_high by lia. apply andb_false_r. }
  pose proof (Z.add_lor_land (Z.shiftl a k) b) as E.
  rewrite Hl in E. rewrite Z.shiftl_mul_pow2 in * by lia. lia.
Qed.

Lemma land_63 (x : Z) : Z.land x 63 = x mod 64.
Proof. change 63 with (Z.ones 6). rewrite Z.land_ones; [done|lia]. Qed.

Lemma land_255 (x : Z) : Z.land x 255 = x mod 256.
Proof. change 255 with (Z.ones 8). rewrite Z.land_ones; [done|lia]. Qed.

Lemma alpha_table i : (i < 64)%nat ->
  sextet_val (alpha_at i) = Some (Z.of_nat i) /\ is_pad (alpha_at i) = false.
Proof.
  intros Hi.
  assert (Hall : Forall (fun i => sextet_val (alpha_at i) = Some (Z.of_nat i)
                                  /\ is_pad (alpha_at i) = false) (seq 0 64)).
  { apply (bool_decide_unpack _). vm_compute. reflexivity. }
  rewrite Forall_seq in Hall. apply Hall. lia.
Qed.

Lemma sextet_char_val (n : Z) : sextet_val (sextet_char n) = Some (n mod 64).
Proof.
  unfold sextet_char. rewrite land_63. fold (alpha_at (Z.to_nat (n mod 64))).
  pose proof (Z.mod_pos_bound n 64).
  rewrite (proj1 (alpha_table (Z.to_nat (n mod 64)) ltac:(lia))). f_equal. lia.
Qed.

Lemma sextet_char_pad (n : Z) : is_pad (sextet_char n) = false.
Proof.
  unfold sextet_char. rewrite land_63. fold (alpha_at (Z.to_nat (n mod 64))).
  pose proof (Z.mod_pos_bound n 64).
  exact (proj2 (alpha_table (Z.to_nat (n mod 64)) ltac:(lia))).
Qed.

Lemma shiftr_div (n k : Z) : 0 <= k -> Z.shiftr n k = n / 2 ^ k.
Proof. apply Z.shiftr_div_pow2. Qed.

Lemma ungroup_sextets (n : Z) : 0 <= n < 2 ^ 24 ->
  ungroup (sextet_char (Z.shiftr n 18)) (sextet_char (Z.shiftr n 12))
          (sextet_char (Z.shiftr n 6)) (sextet_char n) = Some n.
Proof.
  intros Hn. unfold ungroup. rewrite !sextet_char_val. f_equal.
  rewrite !shiftr_div by lia.
  rewrite !lor_shiftl_disjoint by (cbn; pose proof (Z.mod_pos_bound (n / 2 ^ 6) 64);
                                   pose proof (Z.mod_pos_bound (n / 2 ^ 12) 64);
                                   pose proof (Z.mod_pos_bound n 64); lia).
  change (2 ^ 6) with 64 in *; change (2 ^ 12) with 4096 in *;
  change (2 ^ 18) with 262144 in *; change (2 ^ 24) with 16777216 in *.
  change 262144 with (64 * 64 * 64); change 4096 with (64 * 64).
  rewrite <- !Z.div_div by lia.
  pose proof (Z.div_mod n 64). pose proof (Z.div_mod (n / 64) 64).
  pose proof (Z.div_mod (n / 64 / 64) 64).
  assert (n / 64 / 64 / 64 < 64).
  { rewrite !Z.div_div by lia. apply Z.div_lt_upper_bound; lia. }
  rewrite (Z.mod_small (n / 64 / 64 / 64)) by (split; [repeat apply Z.div_pos; lia|lia]).
  lia.
Qed.

Lemma group_value (a b c : Z) : 0 <= b < 256 -> 0 <= c < 256 ->
  group a b c = a * 65536 + b * 256 + c.
Proof.
  intros Hb Hc. unfold group.
  rewrite (lor_shiftl_disjoint a b 8), lor_shiftl_disjoint by (cbn; lia). lia.
Qed.

Lemma octet_range (x : ascii) : 0 <= octet x < 256.
Proof. unfold octet. pose proof (N_ascii_bounded x). lia. Qed.

Lemma of_octet_eq (z : Z) (x : ascii) : z mod 256 = octet x -> of_octet z = x.
Proof.
  intros E. unfold of_octet. rewrite land_255, E. unfold octet.
  rewrite N2Z.id. apply ascii_N_embedding.
Qed.

Lemma octets_of_group (x y z : ascii) :
  octets_of (group (octet x) (octet y) (octet z)) = [x; y; z].
Proof.
  pose proof (octet_range x). pose proof (octet_range y). pose proof (octet_range z).
  unfold octets_of. rewrite group_value by done. rewrite !shiftr_div by lia.
  change (2 ^ 16) with 65536; change (2 ^ 8) with 256.
  f_equal; [|f_equal; [|f_equal]]; apply of_octet_eq.
  - rewrite <- (Z.div_unique_pos _ 65536 (octet x) (octet y * 256 + octet z)) by lia.
    apply Z.mod_small; lia.
  - rewrite <- (Z.div_unique_pos _ 256 (octet x * 256 + octet y) (octet z)) by lia.
    symmetry. apply (Z.mod_unique_pos _ _ (octet x)); lia.
  - symmetry. apply (Z.mod_unique_pos _ _ (octet x * 256 + octet y)); lia.
Qed.

Lemma sextet_char_zero (n : Z) : n mod 64 = 0 -> sextet_char n = "A"%char.
Proof. intros E. unfold sextet_char. by rewrite land_63, E. Qed.

Lemma group_bound (x y z : ascii) : 0 <= group (octet x) (octet y) (octet z) < 2 ^ 24.
Proof.
  pose proof (octet_range x). pose proof (octet_range y). pose proof (octet_range z).
  rewrite group_value by done. change (2 ^ 24) with 16777216. lia.
Qed.

Lemma octet_zero : octet Ascii.zero = 0.
Proof. reflexivity. Qed.

Lemma is_pad_eq : is_pad "="%char = true.
Proof. reflexivity. Qed.

Lemma div_exact (a b q : Z) : 0 < b -> a = q * b -> a / b = q.
Proof. intros Hb ->. apply Z.div_mul. lia. Qed.

Lemma decode_encode_list (l : list ascii) : decode_list (encode_list l) = Some l.
Proof.
  induction l as [l IH] using (induction_ltof1 _ (@length _)); unfold ltof in IH.
  destruct l as [|a [|b [|c rest]]]; [done| | |].
  - cbn [encode_list].
    change (group (octet a) 0 0) with (group (octet a) (octet Ascii.zero) (octet Ascii.zero)).
    pose proof (ungroup_sextets _ (group_bound a Ascii.zero Ascii.zero)) as U.
    remember (group (octet a) (octet Ascii.zero) (octet Ascii.zero)) as g eqn:Hgd.
    assert (Hg : g = octet a * 1024 * 64) by (rewrite Hgd, group_value; rewrite ?octet_zero; lia).
    rewrite (sextet_char_zero g), (sextet_char_zero (Z.shiftr g 6)) in U.
    2: rewrite shiftr_div, (div_exact _ _ (octet a * 1024)) by (change (2 ^ 6) with 64; lia).
    2: replace (octet a * 1024) with (octet a * 16 * 64) by lia. 2,3: rewrite ?Hg; apply Z.mod_mul; lia.
    cbn [sextets take app decode_list]. rewrite is_pad_eq, U. cbn [option_map compose].
    by rewrite Hgd, octets_of_group.
  - cbn [encode_list].
    change (group (octet a) (octet b) 0) with (group (octet a) (octet b) (octet Ascii.zero)).
    pose proof (ungroup_sextets _ (group_bound a b Ascii.zero)) as U.
    remember (group (octet a) (octet b) (octet Ascii.zero)) as g eqn:Hgd.
    assert (Hg : g = (octet a * 1024 + octet b * 4) * 64).
    { pose proof (octet_range b). rewrite Hgd, group_value; rewrite ?octet_zero; lia. }
    rewrite (sextet_char_zero g) in U by (rewrite Hg; apply Z.mod_mul; lia).
    cbn [sextets take app decode_list]. rewrite is_pad_eq, sextet_char_pad, U.
    cbn [option_map compose]. by rewrite Hgd, octets_of_group.
  - cbn [encode_list sextets app decode_list].
    rewrite sextet_char_pad, ungroup_sextets by apply group_bound.
    rewrite IH by (cbn; lia). by rewrite octets_of_group.
Qed.

(** Decoding inverts encoding. *)
Lemma decode_toBase64 (s : string) : fromBase64 (toBase64 s) = Some s.
Proof.
  unfold fromBase64, toBase64.
  rewrite String.list_ascii_of_string_of_list_ascii, decode_encode_list.
  cbn [option_map]. by rewrite String.string_of_list_ascii_of_string.
Qed.

(** C21: Base64 round trip: decoding what [toBase64] produced gives back
    the original text, octet for octet (the remote stores exactly the
    note or asset the plugin read). *)
Theorem fromBase64_toBase64 (s : string) : fromBase64 (toBase64 s) = Some s.
Proof. apply decode_toBase64. Qed.

Lemma encode_list_length (l : list ascii) :
  length (encode_list l) = (4 * ((length l + 2) / 3))%nat.
Proof.
  induction l as [l IH] using (induction_ltof1 _ (@length _)); unfold ltof in IH.
  destruct l as [|a [|b [|c rest]]]; [done..|].
  cbn [encode_list sextets app length]. rewrite IH by (cbn; lia).
  replace (S (S (S (length rest))) + 2)%nat with (1 * 3 + (length rest + 2))%nat by lia.
  rewrite Nat.div_add_l by lia. lia.
Qed.

(** The base64 text is [4 * ceil(n / 3)] characters long for [n]
    input octets. *)
Theorem toBase64_length (s : string) :
  String.length (toBase64 s) = (4 * ((String.length s + 2) / 3))%nat.
Proof.
  unfold toBase64.
  rewrite <- length_list_ascii_of_string, String.list_ascii_of_string_of_list_ascii.
  by rewrite encode_list_length, length_list_ascii_of_string.
Qed.

End Base64.
