(* ===== verification/GitHub.v ===== *)
(** * GitHub: the remote operations of [GitHubService]

    Models [uploadFile], [checkPathExists] and [deletePath] of
    [src/core/github_service.ts] against an abstract remote.

    - [RemoteApi] is the interface the service consumes: the three
      Octokit calls [repos.getContent], [repos.createOrUpdateFileContents]
      and [repos.deleteFile], each taking the request's credential and
      target ([Req]) and failing with a [JsError] that carries the HTTP
      status.  [getContent] only reads the remote.  The service's
      theorems below hold for every instance; [Remote.v] gives an
      in-memory repository as one and proves the refinement theorems.
    - [World] is the state the service's methods (and the orchestrator's)
      run against: the plugin object of [Settings.v], the remote, the
      notices shown so far ([new Notice(...)]) and the clipboard.
    - The service holds no settings of its own: [this.settings] is the
      plugin's settings object, and [this.octokit] is the client the
      plugin's service was last given, represented by its token. *)

From S2P Require Import Prelude Settings Base64.

Module GitHub.

Import Settings.

(** The credential and target of an Octokit request. *)
Record Req := mkReq { rq_auth : string; rq_owner : string; rq_repo : string; rq_ref : string }.

(** The [data] of a [getContent] response: a file object (with its
    [path] and [sha]) or a directory listing (the [path] of each item). *)
Inductive ContentData :=
| DFile (path sha : string)
| DDir (items : list string).

Class RemoteApi (R : Type) := {
  getContent : Req -> string -> R -> Result JsError ContentData;
  createOrUpdateFileContents :
    Req -> string (* path *) -> string (* message *) -> string (* base64 content *) ->
    option string (* sha *) -> R -> Result JsError unit * R;
  deleteFile : Req -> string (* path *) -> string (* message *) -> string (* sha *) ->
    R -> Result JsError unit * R;
  (** a bound on the nesting depth of the repository tree, the number of
      recursive calls [deletePath] is given *)
  tree_depth : R -> nat;
}.

Record World (R : Type) := mkWorld {
  w_plugin : Plugin;
  w_remote : R;
  w_notices : list string;
  w_clipboard : option string;
  (** whether [navigator.clipboard.writeText] succeeds: the browser
      rejects it (a [NotAllowedError]) when the document has no focus or
      the permission is refused *)
  w_clipboard_ok : bool;
}.
Arguments mkWorld {R}.
Arguments w_plugin {R}.
Arguments w_remote {R}.
Arguments w_notices {R}.
Arguments w_clipboard {R}.
Arguments w_clipboard_ok {R}.

Definition set_plugin {R} (p : Plugin) (w : World R) : World R :=
  mkWorld p (w_remote w) (w_notices w) (w_clipboard w) (w_clipboard_ok w).
Definition set_remote {R} (r : R) (w : World R) : World R :=
  mkWorld (w_plugin w) r (w_notices w) (w_clipboard w) (w_clipboard_ok w).
Definition add_notice {R} (msg : string) (w : World R) : World R :=
  mkWorld (w_plugin w) (w_remote w) (w_notices w ++ [msg]) (w_clipboard w) (w_clipboard_ok w).
Definition set_clipboard {R} (text : string) (w : World R) : World R :=
  mkWorld (w_plugin w) (w_remote w) (w_notices w) (Some text) (w_clipboard_ok w).

Abbreviation WM R := (ST (World R) JsError).

(** [new Notice(msg)] *)
Definition notice {R} (msg : string) : WM R unit := st_modify (add_notice msg).

(** A method of the plugin ([StateManager], settings) run on the world. *)
Definition on_plugin {R A} (m : PM A) : WM R A := st_focus w_plugin set_plugin m.

Definition not_found (e : JsError) : bool := bool_decide (e_status e = Some 404%Z).

(** [this.githubService.m(...)] before [onload] built the service. *)
Definition undefined_service : JsError :=
  plain_error "Cannot read properties of undefined".

Section Service.

Context `{RemoteApi R}.

(** [this.octokit] *)
Definition client : WM R (option string) :=
  fun w => match githubService (w_plugin w) with
           | Some svc => (Ok (octokit svc), w)
           | None => (Throw undefined_service, w)
           end.

(** [const { owner, repo, branch } = this.settings], with the client's token. *)
Definition request (tok : string) (s : ObsiGithubSettings) : Req :=
  mkReq tok (owner s) (repo s) (branch s).

Definition get_settings : WM R ObsiGithubSettings := st_gets (fun w => settings (w_plugin w)).

(** [await this.octokit.repos.getContent(...)]: a read of the remote. *)
Definition fetch (rq : Req) (path : string) : WM R ContentData :=
  fun w => (getContent rq path (w_remote w), w).

(** A call that changes the remote. *)
Definition remote_call {A} (f : R -> Result JsError A * R) : WM R A :=
  st_focus w_remote set_remote f.

(** [if (data && !Array.isArray(data) && 'sha' in data) sha = data.sha] *)
Definition data_sha (d : ContentData) : option string :=
  match d with DFile _ sha => Some sha | DDir _ => None end.

Definition no_token_msg : string := "ObsiGithub: No Token provided.".
Definition not_configured_msg : string := "ObsiGithub: Owner or Repo not configured.".

(** [uploadFile(path, content, message)] *)
Definition uploadFile (path content message : string) : WM R bool :=
  let* cl := client in
  match cl with
  | None => do* notice no_token_msg in st_ret false
  | Some tok =>
      let* s := get_settings in
      if negb (js_truthy (owner s)) || negb (js_truthy (repo s)) then
        do* notice not_configured_msg in st_ret false
      else
        let rq := request tok s in
        st_catch
          (let* sha := st_catch (let* data := fetch rq path in st_ret (data_sha data))
                                (fun _ => st_ret None) in
           let contentEncoded := Base64.toBase64 content in
           do* remote_call (createOrUpdateFileContents rq path message contentEncoded sha) in
           st_ret true)
          (fun e => do* notice ("GitHub Upload Error: " +:+ e_message e) in st_ret false)
  end.

(** [checkPathExists(path)] *)
Definition checkPathExists (path : string) : WM R bool :=
  let* cl := client in
  match cl with
  | None => st_ret false
  | Some tok =>
      let* s := get_settings in
      st_catch (do* fetch (request tok s) path in st_ret true)
               (fun e => if not_found e then st_ret false else st_throw e)
  end.

(** [deletePath(path, message)], with [fuel] bounding the depth of the
    recursion.  The recursive calls' results are not looked at: the
    loop awaits each child and then [return true]. *)
Fixpoint deletePath_go (fuel : nat) (path message : string) : WM R bool :=
  match fuel with
  | O => st_ret false
  | S fuel' =>
      let* cl := client in
      match cl with
      | None => st_ret false
      | Some tok =>
          let* s := get_settings in
          let rq := request tok s in
          st_catch
            (let* data := fetch rq path in
             match data with
             | DDir items =>
                 do* st_for items (fun item =>
                       do* deletePath_go fuel' item message in st_ret tt) in
                 st_ret true
             | DFile p sha =>
                 do* remote_call (deleteFile rq p message sha) in st_ret true
             end)
            (fun e => if not_found e then st_ret true
                      else do* notice ("Failed to delete " +:+ path +:+ ": " +:+ e_message e) in
                           st_ret false)
      end
  end.

Definition deletePath (path message : string) : WM R bool :=
  fun w => deletePath_go (S (tree_depth (w_remote w))) path message w.

End Service.

Lemma on_plugin_run {R A} (m : PM A) (w : World R) :
  on_plugin m w = (st_value m (w_plugin w), set_plugin (st_state m (w_plugin w)) w).
Proof. unfold on_plugin, st_focus, st_value, st_state. by destruct (m _). Qed.

Lemma set_plugin_id {R} (w : World R) : set_plugin (w_plugin w) w = w.
Proof. by destruct w. Qed.

(** ** Frame: what the service's methods leave alone *)

Section Frame.

Context `{RemoteApi R}.

(** A property of the plugin object, read on the world. *)
Definition of_plugin (Q : Plugin -> Prop) (w : World R) : Prop := Q (w_plugin w).

Lemma preserves_client P : preserves P (@client R).
Proof. intros w. unfold client, st_state. by destruct (githubService _). Qed.

Lemma preserves_fetch P rq path : preserves P (fetch rq path).
Proof. by intros w. Qed.

Lemma preserves_notice Q msg : preserves (of_plugin Q) (@notice R msg).
Proof. by intros w. Qed.

Lemma preserves_remote_call {A} Q (f : R -> Result JsError A * R) :
  preserves (of_plugin Q) (remote_call f).
Proof. intros w Hw. unfold remote_call, st_focus, st_state. by destruct (f _). Qed.

Lemma preserves_on_plugin {A} Q (m : PM A) :
  preserves Q m -> preserves (of_plugin Q) (@on_plugin R A m).
Proof.
  intros Hm w Hw. unfold on_plugin, st_focus, st_state, of_plugin in *.
  specialize (Hm _ Hw). unfold st_state in Hm. by destruct (m (w_plugin w)).
Qed.

#[local] Hint Resolve preserves_client preserves_fetch preserves_notice preserves_remote_call : obsi.

Lemma preserves_uploadFile Q path content message :
  preserves (of_plugin Q) (uploadFile path content message).
Proof. unfold uploadFile, get_settings. preserves_tac. Qed.

Lemma preserves_checkPathExists Q path : preserves (of_plugin Q) (checkPathExists path).
Proof. unfold checkPathExists, get_settings. preserves_tac. Qed.

Lemma preserves_deletePath_go Q fuel path message :
  preserves (of_plugin Q) (deletePath_go fuel path message).
Proof.
  revert path. induction fuel as [|fuel IH]; intros path; cbn [deletePath_go]; [eauto with obsi|].
  unfold get_settings. preserves_tac.
Qed.

Lemma preserves_deletePath Q path message : preserves (of_plugin Q) (deletePath path message).
Proof. intros w. apply preserves_deletePath_go. Qed.

End Frame.

#[export] Hint Resolve preserves_client preserves_fetch preserves_notice preserves_remote_call
  preserves_on_plugin preserves_uploadFile preserves_checkPathExists preserves_deletePath : obsi.

(** ** Properties that hold for every remote *)

Section Generic.

Context `{RemoteApi R}.

(** The sha the create call is given: that of the file [getContent]
    returned; none for a directory or after any error. *)
Definition fetched_sha (d : Result JsError ContentData) : option string :=
  match d with Ok d => data_sha d | Throw _ => None end.

(** The service is configured: it exists, it has a client with token
    [tok], and the settings name an owner and a repository. *)
Definition configured (w : World R) (tok : string) : Prop :=
  (exists svc, githubService (w_plugin w) = Some svc /\ octokit svc = Some tok) /\
  js_truthy (owner (settings (w_plugin w))) = true /\
  js_truthy (repo (settings (w_plugin w))) = true.

Definition has_service (w : World R) : Prop := is_Some (githubService (w_plugin w)).

Lemma client_some (w : World R) tok :
  (exists svc, githubService (w_plugin w) = Some svc /\ octokit svc = Some tok) ->
  client w = (Ok (Some tok), w).
Proof. intros (svc & Hs & Ho). unfold client. by rewrite Hs, Ho. Qed.

Lemma client_service (w : World R) :
  has_service w -> exists cl, client w = (Ok cl, w).
Proof. intros [svc Hs]. unfold client. rewrite Hs. eauto. Qed.

(** [uploadFile] with no client: the notice, [false], nothing sent. *)
Lemma uploadFile_no_client path content message (w : World R) svc :
  githubService (w_plugin w) = Some svc -> octokit svc = None ->
  uploadFile path content message w = (Ok false, add_notice no_token_msg w).
Proof.
  intros Hs Hoc. unfold uploadFile, client, st_gets, st_bind, notice, st_modify, st_ret.
  by rewrite Hs, Hoc.
Qed.

(** [uploadFile] on a configured service, step by step. *)
Lemma uploadFile_run path content message (w : World R) tok :
  configured w tok ->
  let rq := request tok (settings (w_plugin w)) in
  uploadFile path content message w =
  match createOrUpdateFileContents rq path message (Base64.toBase64 content)
          (fetched_sha (getContent rq path (w_remote w))) (w_remote w) with
  | (Ok _, r') => (Ok true, set_remote r' w)
  | (Throw e, r') =>
      (Ok false, add_notice ("GitHub Upload Error: " +:+ e_message e) (set_remote r' w))
  end.
Proof.
  intros ((svc & Hs & Hoc) & Ho & Hr) rq.
  unfold uploadFile, client, get_settings, st_gets, st_bind, st_catch, fetch, remote_call,
    st_focus, st_ret, notice, st_modify.
  rewrite Hs, Hoc, Ho, Hr. cbn [negb orb]. fold rq.
  destruct (getContent rq path (w_remote w)) as [d|e]; cbn [fetched_sha];
    destruct (createOrUpdateFileContents _ _ _ _ _ _) as [[[]|e'] r']; reflexivity.
Qed.

(** C18: upload.  On a configured service, [uploadFile] makes exactly one
    create-or-update call, with the base64 text of the content and the
    sha of the file [getContent] found ([None] when the fetch failed,
    404 or otherwise); it returns [true] when that call succeeds, and
    otherwise [false] with the notice [GitHub Upload Error: <message>]. *)
Theorem uploadFile_spec path content message (w : World R) tok :
  configured w tok ->
  let rq := request tok (settings (w_plugin w)) in
  uploadFile path content message w =
  match createOrUpdateFileContents rq path message (Base64.toBase64 content)
          (fetched_sha (getContent rq path (w_remote w))) (w_remote w) with
  | (Ok _, r') => (Ok true, set_remote r' w)
  | (Throw e, r') =>
      (Ok false, add_notice ("GitHub Upload Error: " +:+ e_message e) (set_remote r' w))
  end.
Proof. apply uploadFile_run. Qed.

(** C28: no network call without a client or a target.  Without a client
    [uploadFile] returns [false] with the notice [No Token provided.],
    and with an empty owner or repository it returns [false] with the
    notice [Owner or Repo not configured.]; the remote is untouched. *)
Theorem uploadFile_not_configured path content message (w : World R) :
  has_service w ->
  (client w = (Ok None, w) /\
     uploadFile path content message w = (Ok false, add_notice no_token_msg w)) \/
  (exists tok, client w = (Ok (Some tok), w) /\
     (js_truthy (owner (settings (w_plugin w))) = false \/
      js_truthy (repo (settings (w_plugin w))) = false) /\
     uploadFile path content message w = (Ok false, add_notice not_configured_msg w)) \/
  configured w (default "" (octokit (default (mkService None) (githubService (w_plugin w))))).
Proof.
  intros [svc Hs]. unfold uploadFile, client, get_settings, st_gets, st_bind, notice, st_modify, st_ret.
  rewrite Hs. destruct (octokit svc) as [tok|] eqn:Hoc; [|left; by split].
  right. destruct (js_truthy (owner _)) eqn:Ho, (js_truthy (repo _)) eqn:Hr; cbn [negb orb];
    try (left; exists tok; split_and!; auto; fail).
  right. split_and!; [|done|done]. exists svc. cbn. by rewrite Hs, Hoc.
Qed.

(** [checkPathExists] on an existing service, step by step. *)
Lemma checkPathExists_run path (w : World R) svc :
  githubService (w_plugin w) = Some svc ->
  checkPathExists path w =
  (match octokit svc with
   | None => Ok false
   | Some tok =>
       match getContent (request tok (settings (w_plugin w))) path (w_remote w) with
       | Ok _ => Ok true
       | Throw e => if not_found e then Ok false else Throw e
       end
   end, w).
Proof.
  intros Hs. unfold checkPathExists, client, get_settings, st_gets, st_bind, st_catch, fetch,
    st_ret, st_throw. rewrite Hs.
  destruct (octokit svc) as [tok|]; [|done].
  destruct (getContent _ path _) as [d|e]; [done|]. by destruct (not_found e).
Qed.

(** C19: existence check.  [checkPathExists] changes nothing; without a
    client it answers [false] (no request, no error); otherwise it
    answers [true] when [getContent] succeeds, [false] on a 404, and
    rethrows any other error. *)
Theorem checkPathExists_spec path (w : World R) svc :
  githubService (w_plugin w) = Some svc ->
  checkPathExists path w =
  (match octokit svc with
   | None => Ok false
   | Some tok =>
       match getContent (request tok (settings (w_plugin w))) path (w_remote w) with
       | Ok _ => Ok true
       | Throw e => if not_found e then Ok false else Throw e
       end
   end, w).
Proof. apply checkPathExists_run. Qed.

(** [deletePath] never throws (every error is caught) and leaves the
    plugin object alone. *)
Lemma deletePath_go_ok fuel path message (w : World R) :
  has_service w ->
  exists b w', deletePath_go fuel path message w = (Ok b, w') /\ w_plugin w' = w_plugin w.
Proof.
  revert path w. induction fuel as [|fuel IH]; intros path w [svc Hs]; [by exists false, w|].
  cbn [deletePath_go]. unfold client, get_settings, st_gets, st_bind at 1 2. rewrite Hs.
  destruct (octokit svc) as [tok|]; [|by exists false, w].
  unfold st_catch, st_bind at 1, fetch.
  destruct (getContent _ path _) as [[p sha|items]|e].
  - unfold st_bind, remote_call, st_focus.
    destruct (deleteFile _ _ _ _ _) as [[[]|e] r']; [by eexists _, _|].
    destruct (not_found e); [by eexists _, _|].
    unfold notice, st_modify, st_ret. by eexists _, _.
  - destruct (st_for_ok (fun w' : World R => w_plugin w' = w_plugin w) items
                (fun item => do* deletePath_go fuel item message in st_ret tt) w)
      as (w' & E & Hw'); [|done|].
    + intros item w1 _ Hw1. destruct (IH item w1) as (b & w2 & E & Hw2).
      { exists svc. by rewrite Hw1. }
      rewrite (st_bind_ok _ _ _ _ _ E). exists w2. split; [done|congruence].
    + rewrite (st_bind_ok _ _ _ _ _ E). by eexists _, _.
  - destruct (not_found e); [by eexists _, _|]. unfold st_bind, notice, st_modify, st_ret.
    by eexists _, _.
Qed.

(** C17: [deletePath] on a directory reports success whatever happens to
    its entries: the recursive calls' results are discarded, so a child
    whose delete failed (with its notice) does not make the parent
    fail.  The spec asks for [false] when a child fails. *)
Theorem deletePath_dir_true fuel path message (w : World R) svc tok items :
  githubService (w_plugin w) = Some svc -> octokit svc = Some tok ->
  getContent (request tok (settings (w_plugin w))) path (w_remote w) = Ok (DDir items) ->
  st_value (deletePath_go (S fuel) path message) w = Ok true.
Proof.
  intros Hs Ho Hg. unfold st_value. cbn [deletePath_go].
  unfold client, get_settings, st_gets, st_bind at 1 2. rewrite Hs, Ho.
  unfold st_catch, st_bind at 1, fetch. rewrite Hg.
  destruct (st_for_ok (fun w' : World R => w_plugin w' = w_plugin w) items
              (fun item => do* deletePath_go fuel item message in st_ret tt) w)
    as (w' & E & _); [|done|].
  - intros item w1 _ Hw1. destruct (deletePath_go_ok fuel item message w1) as (b & w2 & E & Hw2).
    { exists svc. by rewrite Hw1. }
    rewrite (st_bind_ok _ _ _ _ _ E). exists w2. split; [done|congruence].
  - by rewrite (st_bind_ok _ _ _ _ _ E).
Qed.

(** [uploadFile] never throws: every failure is a [false]. *)
Lemma uploadFile_ok path content message (w : World R) :
  has_service w ->
  exists b w', uploadFile path content message w = (Ok b, w') /\ w_plugin w' = w_plugin w.
Proof.
  intros [svc Hs].
  assert (w_plugin (st_state (uploadFile path content message) w) = w_plugin w) as Hp
    by (apply (preserves_uploadFile (fun p => p = w_plugin w)); done).
  unfold st_state in Hp. destruct (uploadFile path content message w) as [[b|e] w'] eqn:E;
    [by eexists _, _|exfalso].
  revert E. unfold uploadFile, client, get_settings, st_gets, st_bind, notice, st_modify, st_ret,
    st_catch, fetch, remote_call, st_focus. rewrite Hs.
  destruct (octokit svc); [|done]. destruct (negb _ || negb _); [done|].
  destruct (getContent _ _ _); destruct (createOrUpdateFileContents _ _ _ _ _ _) as [[[]|] ?]; done.
Qed.

End Generic.

End GitHub.
