(* ===== verification/Remote.v ===== *)
(** * Remote: an in-memory GitHub repository

    A model of the part of GitHub's contents API the service uses, as an
    instance of [GitHub.RemoteApi]: one branch of one repository, its
    files as a map from path to content, requests checked against the
    repository's token, owner, repository and branch.

    - [getContent] answers a file (its [sha] is its content: any
      injective digest would do) or the listing of a directory (the
      paths of its immediate entries), and 404 otherwise;
    - [createOrUpdateFileContents] decodes the base64 body, refuses a
      stale or missing sha (409, 422) and a path that would be both a
      file and a directory (422);
    - [deleteFile] removes one file given its current sha.

    The refinement theorems of this file state what the service's
    methods do to the files: [uploadFile] stores the content at the
    path, [checkPathExists] answers whether anything lives at the path,
    and [deletePath] removes exactly the subtree of the path.  [Faulty]
    wraps any remote so that writes to chosen paths fail, to exhibit
    how the service and the orchestrator report partial failures. *)

From S2P Require Import Prelude Settings Base64 GitHub.

Module Remote.

Import Settings.

Import GitHub.

Record MemRemote := mkMem {
  m_token : string;
  m_owner : string;
  m_repo : string;
  m_branch : string;
  m_files : gmap string string;
}.

Definition set_files (fs : gmap string string) (r : MemRemote) : MemRemote :=
  mkMem (m_token r) (m_owner r) (m_repo r) (m_branch r) fs.

Definition unauthorized : JsError := mkErr (Some 401%Z) "Bad credentials".
Definition not_found_error : JsError := mkErr (Some 404%Z) "Not Found".
Definition stale_sha (path : string) : JsError := mkErr (Some 409%Z) (path +:+ " does not match").
Definition unprocessable (msg : string) : JsError := mkErr (Some 422%Z) msg.

(** ** Paths *)

(** [strip p s = Some t] when [s = p ++ t]. *)
Fixpoint strip (p s : string) : option string :=
  match p, s with
  | EmptyString, _ => Some s
  | String c p', String d s' => if bool_decide (c = d) then strip p' s' else None
  | String _ _, EmptyString => None
  end.

(** The first segment of a relative path. *)
Fixpoint segment (s : string) : string :=
  match s with
  | EmptyString => EmptyString
  | String c r => if bool_decide (c = "/"%char) then EmptyString else String c (segment r)
  end.

Definition slash : string := "/".

(** [k] lies strictly inside the directory [dir]. *)
Definition inside (dir k : string) : bool := bool_decide (is_Some (strip (dir +:+ slash) k)).

(** [k] is [dir] or lies inside it. *)
Definition under (dir k : string) : bool := bool_decide (k = dir) || inside dir k.

(** The entry of [dir] that contains [k]. *)
Definition child_of (dir k : string) : option string :=
  match strip (dir +:+ slash) k with
  | Some rest => Some (dir +:+ slash +:+ segment rest)
  | None => None
  end.

Definition children (dir : string) (fs : gmap string string) : list string :=
  elements (list_to_set (omap (child_of dir) (elements (dom fs))) : gset string).

(** A path that would be a file and a directory at once. *)
Definition conflicts (path : string) (fs : gmap string string) : bool :=
  existsb (fun k => inside path k || inside k path) (elements (dom fs)).

(** ** The API *)

Definition authorize (rq : Req) (r : MemRemote) : option JsError :=
  if bool_decide (rq_auth rq = m_token r) then
    if bool_decide (rq_owner rq = m_owner r /\ rq_repo rq = m_repo r /\ rq_ref rq = m_branch r)
    then None else Some not_found_error
  else Some unauthorized.

Definition mem_getContent (rq : Req) (path : string) (r : MemRemote) : Result JsError ContentData :=
  match authorize rq r with
  | Some e => Throw e
  | None =>
      match m_files r !! path with
      | Some c => Ok (DFile path c)
      | None =>
          match children path (m_files r) with
          | [] => Throw not_found_error
          | items => Ok (DDir items)
          end
      end
  end.

Definition mem_create (rq : Req) (path message content : string) (sha : option string)
           (r : MemRemote) : Result JsError unit * MemRemote :=
  match authorize rq r with
  | Some e => (Throw e, r)
  | None =>
      match Base64.fromBase64 content with
      | None => (Throw (unprocessable "content is not valid Base64"), r)
      | Some bytes =>
          if conflicts path (m_files r) then (Throw (unprocessable "path conflicts with a tree entry"), r)
          else
            let store := (Ok tt, set_files (<[path := bytes]> (m_files r)) r) in
            match m_files r !! path, sha with
            | Some cur, Some h => if bool_decide (h = cur) then store else (Throw (stale_sha path), r)
            | Some _, None => (Throw (unprocessable "sha wasn't supplied."), r)
            | None, _ => store
            end
      end
  end.

Definition mem_delete (rq : Req) (path message sha : string) (r : MemRemote)
  : Result JsError unit * MemRemote :=
  match authorize rq r with
  | Some e => (Throw e, r)
  | None =>
      match m_files r !! path with
      | None => (Throw not_found_error, r)
      | Some cur =>
          if bool_decide (sha = cur) then (Ok tt, set_files (delete path (m_files r)) r)
          else (Throw (stale_sha path), r)
      end
  end.

(** Every path is longer than its directory, so the length of the
    longest path bounds the depth of the tree. *)
Definition max_path_length (fs : gmap string string) : nat :=
  foldr max 0 (map String.length (elements (dom fs))).

#[export] Instance mem_api : RemoteApi MemRemote := {
  getContent := mem_getContent;
  createOrUpdateFileContents := mem_create;
  deleteFile := mem_delete;
  tree_depth r := max_path_length (m_files r);
}.

(** ** A remote whose writes fail on chosen paths *)

Record Faulty (R : Type) := mkFaulty { f_inner : R; f_failing : list string }.
Arguments mkFaulty {R}.
Arguments f_inner {R}.
Arguments f_failing {R}.

Definition server_error : JsError := mkErr (Some 500%Z) "Server Error".

#[export] Instance faulty_api `{RemoteApi R} : RemoteApi (Faulty R) := {
  getContent rq path r := getContent rq path (f_inner r);
  createOrUpdateFileContents rq path msg c sha r :=
    if bool_decide (path ∈ f_failing r) then (Throw server_error, r)
    else let '(res, r') := createOrUpdateFileContents rq path msg c sha (f_inner r) in
         (res, mkFaulty r' (f_failing r));
  deleteFile rq path msg sha r :=
    if bool_decide (path ∈ f_failing r) then (Throw server_error, r)
    else let '(res, r') := deleteFile rq path msg sha (f_inner r) in
         (res, mkFaulty r' (f_failing r));
  tree_depth r := tree_depth (f_inner r);
}.

(** ** Paths: lemmas *)

Lemma strip_app p t : strip p (p +:+ t) = Some t.
Proof. induction p as [|c p IH]; [done|]. rewrite string_app_cons. cbn [strip]. by rewrite bool_decide_true. Qed.

Lemma strip_Some p s t : strip p s = Some t -> s = p +:+ t.
Proof.
  revert s. induction p as [|c p IH]; intros [|d s] H; cbn [strip] in H;
    [by injection H as <-|by injection H as <-|done|].
  destruct (decide (c = d)) as [<-|Hn].
  - rewrite bool_decide_true in H by done. rewrite string_app_cons. f_equal. auto.
  - by rewrite bool_decide_false in H.
Qed.

Lemma segment_split r :
  exists tail, r = segment r +:+ tail /\ (tail = "" \/ exists t, tail = slash +:+ t).
Proof.
  induction r as [|c r (tail & E & Ht)]; [exists ""; split; [done|by left]|].
  cbn [segment]. destruct (decide (c = "/"%char)) as [->|Hc].
  - rewrite bool_decide_true by done. exists (String "/" r). split; [done|]. right. by exists r.
  - rewrite bool_decide_false by done. exists tail. rewrite string_app_cons, <- E. by split.
Qed.

Lemma inside_spec dir k : inside dir k = true <-> exists t, k = dir +:+ slash +:+ t.
Proof.
  unfold inside. rewrite bool_decide_eq_true. split.
  - intros [t Ht]. exists t. rewrite <- string_app_assoc. by apply strip_Some.
  - intros [t ->]. rewrite <- string_app_assoc, strip_app. eauto.
Qed.

Lemma under_spec dir k : under dir k = true <-> k = dir \/ inside dir k = true.
Proof. unfold under. by rewrite orb_true_iff, bool_decide_eq_true. Qed.

Lemma child_of_spec dir k c :
  child_of dir k = Some c <->
  exists rest, k = dir +:+ slash +:+ rest /\ c = dir +:+ slash +:+ segment rest.
Proof.
  unfold child_of. split.
  - destruct (strip _ k) as [rest|] eqn:E; [|done]. intros [= <-]. exists rest.
    split; [|done]. rewrite <- string_app_assoc. by apply strip_Some.
  - intros (rest & -> & ->). rewrite <- string_app_assoc, strip_app. done.
Qed.

Lemma child_of_under dir k c : child_of dir k = Some c -> under c k = true.
Proof.
  rewrite child_of_spec, under_spec. intros (rest & -> & ->).
  destruct (segment_split rest) as (tail & E & [->|[t ->]]);
    set (sg := segment rest) in *; rewrite E.
  - left. by rewrite string_app_nil_r.
  - right. apply inside_spec. exists t. by rewrite !string_app_assoc.
Qed.

Lemma child_of_inside dir k c : child_of dir k = Some c -> inside dir c = true.
Proof. rewrite child_of_spec, inside_spec. intros (rest & _ & ->). eauto. Qed.

Lemma inside_under_trans dir c k :
  inside dir c = true -> under c k = true -> inside dir k = true.
Proof.
  rewrite under_spec, !inside_spec. intros [x ->] [->|[y ->]]; [eauto|].
  exists (x +:+ slash +:+ y). by rewrite !string_app_assoc.
Qed.

Lemma inside_child_of dir k : inside dir k = true -> exists c, child_of dir k = Some c.
Proof. intros H. apply inside_spec in H as [t ->]. eexists. apply child_of_spec. eauto. Qed.

Lemma inside_length dir k : inside dir k = true -> String.length dir < String.length k.
Proof.
  intros H. apply inside_spec in H as [t ->]. rewrite !string_length_app. cbn. lia.
Qed.

Lemma under_length dir k : under dir k = true -> String.length dir <= String.length k.
Proof. rewrite under_spec. intros [->|H]; [lia|]. apply inside_length in H. lia. Qed.

Lemma elem_of_children dir fs c :
  c ∈ children dir fs <-> exists k, k ∈ dom fs /\ child_of dir k = Some c.
Proof.
  unfold children. rewrite elem_of_elements, elem_of_list_to_set, list_elem_of_omap.
  by setoid_rewrite elem_of_elements.
Qed.

Lemma child_of_Some_inside dir k c : child_of dir k = Some c -> inside dir k = true.
Proof. rewrite child_of_spec, inside_spec. intros (rest & -> & _). eauto. Qed.

Lemma children_nil dir fs :
  children dir fs = [] <-> forall k, k ∈ dom fs -> inside dir k = false.
Proof.
  split.
  - intros Hn k Hk. destruct (inside dir k) eqn:Hi; [|done].
    destruct (inside_child_of _ _ Hi) as [c Hc].
    assert (c ∈ children dir fs) as Hin by (apply elem_of_children; eauto).
    rewrite Hn in Hin. set_solver.
  - intros H. destruct (children dir fs) as [|c cs] eqn:E; [done|].
    assert (c ∈ children dir fs) as Hin by (rewrite E; set_solver).
    apply elem_of_children in Hin as (k & Hk & Hc).
    apply child_of_Some_inside in Hc. by rewrite H in Hc.
Qed.

(** ** The files: well-formedness, sizes, subtrees *)

(** No file has anything inside it: a path is a file or a directory. *)
Definition tree_wf (fs : gmap string string) : Prop :=
  forall k1 k2, k1 ∈ dom fs -> k2 ∈ dom fs -> inside k1 k2 = false.

(** The files outside the subtree of [path]. *)
Definition outside (path : string) (fs : gmap string string) : gmap string string :=
  filter (fun kv : string * string => under path kv.1 = false) fs.

Lemma foldr_max_le {A} (f : A -> nat) (l : list A) n :
  foldr max 0 (map f l) <= n <-> forall x, x ∈ l -> f x <= n.
Proof.
  induction l as [|x l IH]; cbn [map foldr]; [split; [intros _ x Hx; inversion Hx|lia]|].
  rewrite Nat.max_lub_iff, IH. setoid_rewrite elem_of_cons. split; [intros [? ?] y [->|?]; auto|intros Hx; split; [apply Hx; by left|intros y ?; apply Hx; by right]].
Qed.

Lemma max_path_length_le fs n :
  max_path_length fs <= n <-> forall k, k ∈ dom fs -> String.length k <= n.
Proof. unfold max_path_length. rewrite foldr_max_le. by setoid_rewrite elem_of_elements. Qed.

Lemma max_path_length_ge fs k : k ∈ dom fs -> String.length k <= max_path_length fs.
Proof. intros Hk. by apply (proj1 (max_path_length_le fs _) (le_n _)). Qed.

Lemma elem_of_dom_filter (P : string * string -> Prop) `{!forall kv, Decision (P kv)} (fs : gmap string string) k :
  k ∈ dom (filter P fs) -> k ∈ dom fs.
Proof.
  rewrite !elem_of_dom. intros [x Hx]. apply map_lookup_filter_Some in Hx as [Hx _]. eauto.
Qed.

Lemma max_path_length_filter (P : string * string -> Prop) `{!forall kv, Decision (P kv)} (fs : gmap string string) :
  max_path_length (filter P fs) <= max_path_length fs.
Proof.
  apply max_path_length_le. intros k Hk. apply max_path_length_ge.
  by eapply elem_of_dom_filter.
Qed.

Lemma tree_wf_filter (P : string * string -> Prop) `{!forall kv, Decision (P kv)} (fs : gmap string string) :
  tree_wf fs -> tree_wf (filter P fs).
Proof. intros Hwf k1 k2 H1 H2. apply Hwf; by eapply elem_of_dom_filter. Qed.

(** A path longer than every file has nothing in its subtree. *)
Lemma outside_short path fs :
  max_path_length fs < String.length path -> outside path fs = fs.
Proof.
  intros Hl. apply map_filter_id. intros k x Hk. cbn.
  destruct (under path k) eqn:Hu; [|done]. apply under_length in Hu.
  assert (k ∈ dom fs) by (apply elem_of_dom; eauto).
  pose proof (max_path_length_ge fs k ltac:(done)). lia.
Qed.

(** The subtree of a file is the file. *)
Lemma outside_file path fs c :
  tree_wf fs -> fs !! path = Some c -> outside path fs = delete path fs.
Proof.
  intros Hwf Hp. apply map_eq. intros k. unfold outside. rewrite map_lookup_filter.
  destruct (decide (k = path)) as [->|Hk].
  - rewrite lookup_delete_eq, Hp. cbn. unfold under. by rewrite bool_decide_true.
  - rewrite lookup_delete_ne by congruence. destruct (fs !! k) as [x|] eqn:Ex; [|done]. cbn.
    unfold under. rewrite bool_decide_false by done.
    rewrite (Hwf path k) by (apply elem_of_dom; eauto). done.
Qed.

(** The subtree of a path that is neither a file nor a directory is empty. *)
Lemma outside_absent path fs :
  fs !! path = None -> children path fs = [] -> outside path fs = fs.
Proof.
  intros Hp Hc. rewrite children_nil in Hc. apply map_filter_id. intros k x Hk. cbn.
  unfold under. rewrite bool_decide_false by congruence.
  apply Hc, elem_of_dom. eauto.
Qed.

(** A directory's subtree is the union of its entries' subtrees. *)
Lemma under_children path fs k :
  fs !! path = None -> k ∈ dom fs ->
  existsb (fun c => under c k) (children path fs) = under path k.
Proof.
  intros Hp Hk.
  assert (existsb (fun c => under c k) (children path fs) = true <-> under path k = true) as Hiff.
  { rewrite existsb_exists. split.
    - intros (c & Hc & Hu).
      assert (c ∈ children path fs) as Hc' by (by apply list_elem_of_In).
      apply elem_of_children in Hc' as (k' & _ & Hck).
      apply under_spec. right. eapply inside_under_trans; [|done]. by eapply child_of_inside.
    - intros Hu. apply under_spec in Hu as [->|Hi]; [apply elem_of_dom in Hk as [? ?]; congruence|].
      destruct (inside_child_of _ _ Hi) as [c Hc]. exists c. split.
      + apply list_elem_of_In, elem_of_children. eauto.
      + by eapply child_of_under. }
  destruct (existsb _ _), (under path k); intuition congruence.
Qed.

(** ** The service against the in-memory repository *)

Definition remote_files (w : World MemRemote) : gmap string string := m_files (w_remote w).

Definition with_files (fs : gmap string string) (w : World MemRemote) : World MemRemote :=
  set_remote (set_files fs (w_remote w)) w.

(** The service's requests reach the repository: its client carries
    the repository's token and the settings name its owner, repository
    and branch. *)
Definition reaches (w : World MemRemote) (tok : string) : Prop :=
  (exists svc, githubService (w_plugin w) = Some svc /\ octokit svc = Some tok) /\
  authorize (request tok (settings (w_plugin w))) (w_remote w) = None.

Lemma with_files_twice fs1 fs2 w : with_files fs2 (with_files fs1 w) = with_files fs2 w.
Proof. reflexivity. Qed.

Lemma with_files_id w : with_files (remote_files w) w = w.
Proof. by destruct w as [p [] n c]. Qed.

Lemma remote_files_with fs w : remote_files (with_files fs w) = fs.
Proof. reflexivity. Qed.

Lemma reaches_with_files fs w tok : reaches w tok -> reaches (with_files fs w) tok.
Proof. done. Qed.

#[local] Hint Rewrite with_files_twice with_files_id remote_files_with : obsi_rw.

Lemma mem_getContent_auth rq path r :
  authorize rq r = None ->
  mem_getContent rq path r =
  match m_files r !! path with
  | Some c => Ok (DFile path c)
  | None => match children path (m_files r) with
            | [] => Throw not_found_error
            | items => Ok (DDir items)
            end
  end.
Proof. intros Ha. unfold mem_getContent. by rewrite Ha. Qed.

(** One step of the loop over a directory's entries, given what the
    recursive call does. *)
Lemma delete_loop f path message items (w : World MemRemote) tok :
  (forall path' (w' : World MemRemote), reaches w' tok -> tree_wf (remote_files w') ->
     max_path_length (remote_files w') < f + String.length path' ->
     exists b, deletePath_go f path' message w' =
               (Ok b, with_files (outside path' (remote_files w')) w')) ->
  (forall c, c ∈ items -> String.length path < String.length c) ->
  reaches w tok -> tree_wf (remote_files w) ->
  max_path_length (remote_files w) < S f + String.length path ->
  st_for items (fun item => do* deletePath_go f item message in st_ret tt) w =
  (Ok tt, with_files (filter (fun kv : string * string =>
                                existsb (fun c => under c kv.1) items = false)
                             (remote_files w)) w).
Proof.
  intros IH. revert w. induction items as [|c items IHi]; intros w Hlen Hr Hwf Hl.
  - cbn. rewrite map_filter_id by done. by rewrite with_files_id.
  - assert (String.length path < String.length c) by (apply Hlen; set_solver).
    destruct (IH c w Hr Hwf ltac:(lia)) as [b E].
    cbn [st_for]. rewrite (st_bind_ok _ _ _ _ _ (st_bind_ok _ _ _ _ _ E)).
    rewrite IHi; [|set_solver|by apply reaches_with_files|by apply tree_wf_filter|].
    + rewrite with_files_twice, remote_files_with. unfold outside. rewrite map_filter_filter.
      f_equal. f_equal. apply map_filter_ext. intros k x _. cbn. rewrite orb_false_iff. tauto.
    + rewrite remote_files_with. unfold outside. pose proof (max_path_length_filter
        (fun kv : string * string => under c kv.1 = false) (remote_files w)). lia.
Qed.

Lemma deletePath_go_outside fuel : forall path message (w : World MemRemote) tok,
  reaches w tok -> tree_wf (remote_files w) ->
  max_path_length (remote_files w) < fuel + String.length path ->
  exists b, deletePath_go fuel path message w =
            (Ok b, with_files (outside path (remote_files w)) w) /\ (0 < fuel -> b = true).
Proof.
  induction fuel as [|f IH]; intros path message w tok Hr Hwf Hl.
  - exists false. cbn [deletePath_go]. rewrite outside_short by lia.
    rewrite with_files_id. split; [done|lia].
  - exists true. split; [|done]. pose proof Hr as ((svc & Hs & Ho) & Ha).
    cbn [deletePath_go]. unfold client, get_settings, st_gets, st_bind at 1 2. rewrite Hs, Ho.
    unfold st_catch, st_bind at 1, fetch. cbn [getContent mem_api].
    rewrite (mem_getContent_auth _ _ _ Ha). fold (remote_files w).
    destruct (remote_files w !! path) as [c|] eqn:Ep.
    + unfold st_bind, remote_call, st_focus. cbn [deleteFile mem_api]. unfold mem_delete.
      rewrite Ha. fold (remote_files w). rewrite Ep, bool_decide_true by done.
      by rewrite (outside_file _ _ c Hwf Ep).
    + destruct (children path (remote_files w)) as [|c0 cs] eqn:Ec.
      * cbn. rewrite outside_absent by done. by rewrite with_files_id.
      * rewrite <- Ec. erewrite st_bind_ok; [|apply (delete_loop f path message _ w tok)];
          [|intros p' w' H1 H2 H3; destruct (IH p' message w' tok H1 H2 H3) as (b & E & _); eauto
           |..|done|done|done].
        -- cbn. do 2 f_equal. unfold outside. apply map_filter_ext. intros k x Hk. cbn.
           rewrite under_children by (done || (apply elem_of_dom; eauto)). done.
        -- intros c Hc. apply elem_of_children in Hc as (k & _ & Hck).
           apply inside_length. by eapply child_of_inside.
Qed.

(** [deletePath] against the in-memory repository. *)
Lemma deletePath_subtree path message (w : World MemRemote) tok :
  reaches w tok -> tree_wf (remote_files w) ->
  deletePath path message w = (Ok true, with_files (outside path (remote_files w)) w).
Proof.
  intros Hr Hwf. unfold deletePath.
  destruct (deletePath_go_outside (S (tree_depth (w_remote w))) path message w tok Hr Hwf)
    as (b & E & Hb); [cbn; fold (remote_files w); lia|].
  rewrite E. by rewrite Hb by lia.
Qed.

(** C9: recursive delete refines removal of a subtree.  When the
    service's requests reach a well-formed repository, [deletePath path]
    returns [true] and leaves exactly the files outside [path]: the file
    [path] itself, or every file of the directory [path] at any depth;
    nothing else changes and no notice is shown.  The fuel
    [S (tree_depth r)] is enough. *)
Theorem deletePath_removes path message (w : World MemRemote) tok :
  reaches w tok -> tree_wf (remote_files w) ->
  deletePath path message w = (Ok true, with_files (outside path (remote_files w)) w).
Proof. apply deletePath_subtree. Qed.

(** Whether anything lives at [path]: a file, or a file below it. *)
Definition occupied (path : string) (fs : gmap string string) : bool :=
  existsb (under path) (elements (dom fs)).

Lemma occupied_spec path fs :
  occupied path fs = true <-> exists k, k ∈ dom fs /\ under path k = true.
Proof. unfold occupied. rewrite existsb_exists. by setoid_rewrite <- list_elem_of_In; setoid_rewrite elem_of_elements. Qed.

(** [checkPathExists] against the in-memory repository. *)
Lemma checkPathExists_answer path (w : World MemRemote) tok :
  reaches w tok -> checkPathExists path w = (Ok (occupied path (remote_files w)), w).
Proof.
  intros [(svc & Hs & Ho) Ha]. rewrite (checkPathExists_run path w svc Hs), Ho.
  cbn [getContent mem_api]. rewrite (mem_getContent_auth _ _ _ Ha). fold (remote_files w).
  f_equal. destruct (remote_files w !! path) as [c|] eqn:Ep.
  - f_equal. symmetry. apply occupied_spec. exists path. split; [apply elem_of_dom; eauto|].
    apply under_spec. by left.
  - destruct (children path (remote_files w)) as [|c0 cs] eqn:Ec.
    + f_equal. symmetry. apply not_true_iff_false. rewrite occupied_spec. intros (k & Hk & Hu).
      apply under_spec in Hu as [->|Hi]; [apply elem_of_dom in Hk as [? ?]; congruence|].
      rewrite children_nil in Ec. by rewrite Ec in Hi.
    + f_equal. symmetry. apply occupied_spec.
      assert (c0 ∈ children path (remote_files w)) as Hc by (rewrite Ec; set_solver).
      apply elem_of_children in Hc as (k & Hk & Hck). exists k. split; [done|].
      apply under_spec. right. by eapply child_of_Some_inside.
Qed.

(** The existence check refines membership.  When the requests reach
    the repository, [checkPathExists path] answers whether a file is
    stored at [path] or below it, and changes nothing. *)
Theorem checkPathExists_occupied path (w : World MemRemote) tok :
  reaches w tok -> checkPathExists path w = (Ok (occupied path (remote_files w)), w).
Proof. apply checkPathExists_answer. Qed.

(** [uploadFile] against the in-memory repository. *)
Lemma uploadFile_put path content message (w : World MemRemote) tok :
  configured w tok -> authorize (request tok (settings (w_plugin w))) (w_remote w) = None ->
  conflicts path (remote_files w) = false ->
  uploadFile path content message w =
  (Ok true, with_files (<[path := content]> (remote_files w)) w).
Proof.
  intros Hc Ha Hconf. rewrite (uploadFile_run _ _ _ _ _ Hc).
  cbn [createOrUpdateFileContents getContent mem_api]. unfold mem_create.
  rewrite (mem_getContent_auth _ _ _ Ha), Ha, Base64.decode_toBase64.
  fold (remote_files w). rewrite Hconf.
  destruct (remote_files w !! path) as [c|] eqn:Ep; cbn [fetched_sha data_sha].
  - by rewrite bool_decide_true.
  - reflexivity.
Qed.

(** C10: upload refines storing the content.  When the service is
    configured, its requests reach the repository and the path does not
    clash with a directory or a file above it, [uploadFile] returns
    [true] and the repository then holds exactly [content] at [path]
    (after the base64 round trip), the other files unchanged: a new
    file is created, an existing one updated with its current sha. *)
Theorem uploadFile_stores path content message (w : World MemRemote) tok :
  configured w tok -> authorize (request tok (settings (w_plugin w))) (w_remote w) = None ->
  conflicts path (remote_files w) = false ->
  uploadFile path content message w =
  (Ok true, with_files (<[path := content]> (remote_files w)) w).
Proof. apply uploadFile_put. Qed.

(** Uploads keep the repository well formed. *)
Lemma tree_wf_insert path c fs :
  tree_wf fs -> conflicts path fs = false -> tree_wf (<[path := c]> fs).
Proof.
  intros Hwf Hc k1 k2. rewrite !dom_insert_L, !elem_of_union, !elem_of_singleton.
  assert (forall k, k ∈ dom fs -> inside path k = false /\ inside k path = false) as Hk.
  { intros k Hk. unfold conflicts in Hc.
    assert (In k (elements (dom fs))) as Hin by (apply list_elem_of_In, elem_of_elements; done).
    destruct (inside path k || inside k path) eqn:E; [|by apply orb_false_iff in E].
    assert (existsb (fun k => inside path k || inside k path) (elements (dom fs)) = true)
      by (apply existsb_exists; eauto). congruence. }
  assert (inside path path = false) as Hpp.
  { destruct (inside path path) eqn:E; [|done]. apply inside_length in E. lia. }
  intros [->|H1] [->|H2]; [done|apply Hk; done|apply Hk; done|by apply Hwf].
Qed.

(** The check of [tree_wf] as a boolean. *)
Definition tree_wfb (fs : gmap string string) : bool :=
  forallb (fun k1 => forallb (fun k2 => negb (inside k1 k2)) (elements (dom fs)))
          (elements (dom fs)).

Lemma tree_wfb_spec fs : tree_wfb fs = true -> tree_wf fs.
Proof.
  unfold tree_wfb. rewrite forallb_forall. intros H k1 k2 H1 H2.
  assert (In k1 (elements (dom fs))) as I1 by (apply list_elem_of_In, elem_of_elements; done).
  assert (In k2 (elements (dom fs))) as I2 by (apply list_elem_of_In, elem_of_elements; done).
  specialize (H k1 I1). rewrite forallb_forall in H. apply negb_true_iff. auto.
Qed.

(** A clash with the repository after a write: with the files already
    there, or with the path written. *)
Lemma conflicts_spec q fs :
  conflicts q fs = true <-> exists k, k ∈ dom fs /\ (inside q k || inside k q) = true.
Proof.
  unfold conflicts. rewrite existsb_exists.
  by setoid_rewrite <- list_elem_of_In; setoid_rewrite elem_of_elements.
Qed.

Lemma conflicts_insert q q' c fs :
  conflicts q (<[q' := c]> fs) = conflicts q fs || inside q q' || inside q' q.
Proof.
  apply eq_bool_prop_intro. rewrite !Is_true_true, !orb_true_iff, !conflicts_spec.
  setoid_rewrite dom_insert_L. setoid_rewrite elem_of_union. setoid_rewrite elem_of_singleton.
  split.
  - intros (k & [->|Hk] & Hi).
    + apply orb_true_iff in Hi as [Hi|Hi]; [left; by right|by right].
    + left; left. eauto.
  - intros [[(k & Hk & Hi)|Hi]|Hi]; [eauto| |]; exists q'; split; auto; apply orb_true_iff; auto.
Qed.

(** ** Paths below a fresh id *)

(** A path that meets [k/t] at its first separator: [u] has no [/]
    ([segment u = u]), so [k] is [u] or lies inside it. *)
Lemma slash_split u k t x :
  segment u = u -> k +:+ slash +:+ t = u +:+ slash +:+ x ->
  (k = u /\ t = x) \/ (exists y, k = u +:+ slash +:+ y /\ x = y +:+ slash +:+ t).
Proof.
  revert k. induction u as [|c u IH]; intros [|d k] Hs E; unfold slash in *;
    rewrite ?string_app_nil_l, ?string_app_cons, ?string_app_nil_l in E.
  - left. by injection E as ->.
  - injection E as -> E. right. by exists k.
  - cbn [segment] in Hs. injection E as <- _. rewrite bool_decide_true in Hs by done. discriminate.
  - cbn [segment] in Hs. injection E as -> E.
    destruct (decide (c = "/"%char)) as [->|Hc]; [rewrite bool_decide_true in Hs by done; discriminate|].
    rewrite bool_decide_false in Hs by done. injection Hs as Hs.
    destruct (IH k Hs E) as [[-> ->]|(y & -> & ->)]; [by left|right; by exists y].
Qed.

Lemma strip_common p q r : strip (p +:+ q) (p +:+ r) = strip q r.
Proof. induction p as [|c p IH]; [done|]. rewrite !string_app_cons. cbn [strip]. by rewrite bool_decide_true. Qed.

Lemma inside_common u a b : inside (u +:+ slash +:+ a) (u +:+ slash +:+ b) = inside a b.
Proof.
  unfold inside.
  replace ((u +:+ slash +:+ a) +:+ slash) with ((u +:+ slash) +:+ (a +:+ slash)) by (by rewrite !string_app_assoc).
  replace (u +:+ slash +:+ b) with ((u +:+ slash) +:+ b) by (by rewrite !string_app_assoc).
  by rewrite strip_common.
Qed.

(** Nothing at or below [u]: no path [u/x] clashes with the
    repository. *)
Lemma not_occupied_conflicts u x fs :
  segment u = u -> occupied u fs = false -> conflicts (u +:+ slash +:+ x) fs = false.
Proof.
  intros Hs Ho. destruct (conflicts _ _) eqn:E; [|done]. exfalso.
  apply conflicts_spec in E as (k & Hk & Hi).
  assert (under u k = true) as Hu.
  { apply under_spec. apply orb_true_iff in Hi as [Hi|Hi]; apply inside_spec in Hi as [t Ht].
    - right. apply inside_spec. exists (x +:+ slash +:+ t). by rewrite Ht, !string_app_assoc.
    - destruct (slash_split u k t x Hs (eq_sym Ht)) as [[-> _]|(y & -> & _)]; [by left|].
      right. apply inside_spec. by exists y. }
  assert (occupied u fs = true) as T by (apply occupied_spec; eauto). congruence.
Qed.

(** ** Concrete runs *)

Definition demo_settings : ObsiGithubSettings := mkSettings "tok" "alice" "notes" "main" "assets" ∅ ∅.
Definition demo_plugin : Plugin := mkPlugin demo_settings None (Some (mkService (Some "tok"))) 0.
Definition demo_repo (fs : gmap string string) : MemRemote := mkMem "tok" "alice" "notes" "main" fs.
Definition demo_world (fs : gmap string string) : World MemRemote := mkWorld demo_plugin (demo_repo fs) [] None true.

(** A published note with one asset, and another note. *)
Definition demo_files : gmap string string :=
  <["u1/note.md" := "# N"]> (<["u1/assets/a.png" := "PNG"]> (<["u2/note.md" := "# M"]> ∅)).

Lemma demo_reaches fs : reaches (demo_world fs) "tok".
Proof. split; [by eexists|reflexivity]. Qed.

Lemma deletePath_removes_witness :
  reaches (demo_world demo_files) "tok" /\ tree_wf (remote_files (demo_world demo_files)) /\
  deletePath "u1" "rm" (demo_world demo_files) =
    (Ok true, with_files (outside "u1" demo_files) (demo_world demo_files)) /\
  outside "u1" demo_files = <["u2/note.md" := "# M"]> ∅.
Proof.
  assert (tree_wf (remote_files (demo_world demo_files))) as Hwf
    by (apply tree_wfb_spec; vm_compute; reflexivity).
  split_and!; [apply demo_reaches|exact Hwf| |vm_compute; reflexivity].
  exact (deletePath_removes "u1" "rm" (demo_world demo_files) "tok" (demo_reaches _) Hwf).
Defined.

Lemma checkPathExists_occupied_witness :
  checkPathExists "u1" (demo_world demo_files) = (Ok true, demo_world demo_files) /\
  checkPathExists "u3" (demo_world demo_files) = (Ok false, demo_world demo_files).
Proof.
  split.
  - rewrite (checkPathExists_occupied "u1" _ "tok" (demo_reaches _)). vm_compute. reflexivity.
  - rewrite (checkPathExists_occupied "u3" _ "tok" (demo_reaches _)). vm_compute. reflexivity.
Defined.

Lemma uploadFile_stores_witness :
  uploadFile "u1/note.md" "# N2" "Update note" (demo_world demo_files) =
  (Ok true, with_files (<["u1/note.md" := "# N2"]> demo_files) (demo_world demo_files)).
Proof.
  apply (uploadFile_stores "u1/note.md" "# N2" "Update note" (demo_world demo_files) "tok").
  - split; [by eexists|done].
  - reflexivity.
  - vm_compute. reflexivity.
Defined.

(** The spec's partial failure: a directory of two files whose second
    delete fails (a server error) is reported deleted, the failed file
    stays, and the failure only shows as a notice. *)
Definition faulty_world : World (Faulty MemRemote) :=
  mkWorld demo_plugin (mkFaulty (demo_repo (<["d/a.md" := "A"]> (<["d/b.md" := "B"]> ∅))) ["d/b.md"])
          [] None true.

Lemma deletePath_dir_true_witness :
  st_value (deletePath_go 5 "d" "rm") faulty_world = Ok true /\
  m_files (f_inner (w_remote (st_state (deletePath_go 5 "d" "rm") faulty_world))) =
    <["d/b.md" := "B"]> ∅ /\
  w_notices (st_state (deletePath_go 5 "d" "rm") faulty_world) =
    ["Failed to delete d/b.md: Server Error"].
Proof.
  split_and!; [|vm_compute; reflexivity|vm_compute; reflexivity].
  apply (deletePath_dir_true 4 "d" "rm" faulty_world (mkService (Some "tok")) "tok" ["d/a.md"; "d/b.md"]);
    reflexivity.
Defined.

Lemma demo_configured fs : configured (demo_world fs) "tok".
Proof. split_and!; [by eexists|done|done]. Qed.

Lemma uploadFile_spec_witness :
  fetched_sha (getContent (request "tok" demo_settings) "u1/note.md" (demo_repo demo_files)) = Some "# N" /\
  uploadFile "u1/note.md" "# N2" "m" (demo_world demo_files) =
  match createOrUpdateFileContents (request "tok" demo_settings) "u1/note.md" "m"
          (Base64.toBase64 "# N2") (Some "# N") (demo_repo demo_files) with
  | (Ok _, r') => (Ok true, set_remote r' (demo_world demo_files))
  | (Throw e, r') =>
      (Ok false, add_notice ("GitHub Upload Error: " +:+ e_message e) (set_remote r' (demo_world demo_files)))
  end.
Proof.
  split; [reflexivity|].
  exact (uploadFile_spec "u1/note.md" "# N2" "m" (demo_world demo_files) "tok" (demo_configured _)).
Defined.

(** A plugin whose service has no client, and one without owner. *)
Definition world_no_client : World MemRemote :=
  mkWorld (mkPlugin demo_settings None (Some (mkService None)) 0) (demo_repo ∅) [] None true.

Lemma uploadFile_not_configured_witness :
  uploadFile "u/note.md" "x" "m" world_no_client = (Ok false, add_notice no_token_msg world_no_client).
Proof.
  destruct (uploadFile_not_configured "u/note.md" "x" "m" world_no_client) as [[_ E]|[(tok & Hc & _)|Hc]].
  - by eexists.
  - exact E.
  - discriminate Hc.
  - destruct Hc as ((svc & Hs & Ho) & _). injection Hs as <-. discriminate Ho.
Defined.

(** A repository whose token was rotated: the client's token is refused. *)
Definition world_rotated : World MemRemote :=
  mkWorld demo_plugin (mkMem "tok2" "alice" "notes" "main" demo_files) [] None true.

Lemma checkPathExists_spec_witness :
  checkPathExists "u1" world_rotated = (Throw unauthorized, world_rotated) /\
  checkPathExists "u3" (demo_world demo_files) = (Ok false, demo_world demo_files).
Proof.
  split.
  - rewrite (checkPathExists_spec "u1" world_rotated (mkService (Some "tok")) eq_refl). reflexivity.
  - rewrite (checkPathExists_spec "u3" (demo_world demo_files) (mkService (Some "tok")) eq_refl).
    vm_compute. reflexivity.
Defined.

End Remote.
