(* ===== verification/Main.v ===== *)
(** * Main: the orchestrator of [src/main.ts]

    [publishNote] and the handlers of the file menu, composed from the
    components of the other files: the identifier store
    ([StateManager.getOrCreateUUID], [updateStatus]), the content
    transformer ([Markdown.process]) and the GitHub service
    ([uploadFile], [checkPathExists], [deletePath]).  They run on the
    [GitHub.World] (plugin object, remote, notices, clipboard) and read
    the Obsidian app ([App]): the two vault settings [checkRequirements]
    looks at, the vault's files and the link resolver.

    The remote-existence callback handed to [getOrCreateUUID] is
    [checkPathExists] on the world as it is when the allocation starts:
    [checkPathExists] changes nothing, and the allocation only changes
    [fileMap], [fileStatus], the data file and the random draws, none of
    which the check reads.  [publishNote] is split where the id is
    known: [publish_uploads] is the rest of its [try] block (read,
    process, upload the note and the assets, copy the link).
    [navigator.clipboard.writeText] succeeds or rejects as the world's
    [w_clipboard_ok] says; the publication catches the rejection, the
    menu's "Copy GitHub Link" does not.  [refreshManagementView] redraws the view from the settings without
    changing anything ([View.refreshManagementView_noop]) and is left
    out.

    Against the in-memory repository: republishing overwrites the same
    paths ([publishNote_republish]); a first publication gets an id
    under which the repository holds nothing, so its uploads land in an
    empty folder, or fails with the max-retries error and changes
    nothing ([publishNote_first]); the menu handlers record what the
    repository holds.  Without a token the allocation still records the
    note as [published] before [uploadFile] refuses
    ([publishNote_no_token]). *)

From stdpp Require Import pretty.
From S2P Require Import Prelude Settings StateManager Markdown GitHub Remote.

Module Main.

Import Settings.

Import GitHub Markdown StateManager Remote.

(** What the orchestrator reads of [this.app]. *)
Record App := mkApp {
  useMarkdownLinks : bool;          (** [vault.getConfig("useMarkdownLinks")] *)
  newLinkFormat : string;           (** [vault.getConfig("newLinkFormat")] *)
  vault : gmap string string;       (** the files, by path *)
  resolver : Resolver;              (** [metadataCache.getFirstLinkpathDest] *)
}.

Section Orchestrator.

Context `{RemoteApi R}.
Variable getRandomValues : nat -> nat -> Z.
Variable app : App.

Definition wikilinks_msg : string := "ObsiGithub: Please turn OFF 'Use WikiLinks' in settings.".
Definition link_format_msg : string := "ObsiGithub: 'New link format' must be 'Relative path to file'.".

(** [checkRequirements()] *)
Definition checkRequirements : WM R bool :=
  if negb (useMarkdownLinks app) then do* notice wikilinks_msg in st_ret false
  else if negb (bool_decide (newLinkFormat app = "relative")) then
    do* notice link_format_msg in st_ret false
  else st_ret true.

(** [this.app.vault.read(file)] / [readBinary(file)]: rejects when the
    file is gone. *)
Definition vault_read (path : string) : WM R string :=
  match vault app !! path with
  | Some c => st_ret c
  | None => st_throw (plain_error ("ENOENT: no such file or directory, open '" +:+ path +:+ "'"))
  end.

(** [`https://github.com/${owner}/${repo}/blob/${branch}/${remotePath}`] *)
Definition github_url (s : ObsiGithubSettings) (remotePath : string) : string :=
  "https://github.com/" +:+ owner s +:+ "/" +:+ repo s +:+ "/blob/" +:+ branch s +:+ "/" +:+ remotePath.

(** What [navigator.clipboard.writeText] rejects with when the browser
    refuses the write. *)
Definition clipboard_error : JsError :=
  plain_error "NotAllowedError: Write permission denied.".

(** [await navigator.clipboard.writeText(text)] *)
Definition writeText (text : string) : WM R unit :=
  fun w => if w_clipboard_ok w then (Ok tt, set_clipboard text w) else (Throw clipboard_error, w).

(** The loop of step 5: [uploadedCount] is threaded as the result. *)
Fixpoint upload_assets (uuid : string) (assets : list TFile) (uploadedCount : nat) : WM R nat :=
  match assets with
  | [] => st_ret uploadedCount
  | asset :: rest =>
      let* count :=
        st_catch
          (let* assetData := vault_read (path asset) in
           let* s := get_settings in
           let assetPath := uuid +:+ "/" +:+ assetsFolderName s +:+ "/" +:+ name asset in
           do* uploadFile assetPath assetData ("Upload asset: " +:+ name asset) in
           st_ret (S uploadedCount))
          (fun _ => do* notice ("Failed to upload: " +:+ name asset) in st_ret uploadedCount) in
      upload_assets uuid rest count
  end.

Definition note_path (uuid : string) : string := uuid +:+ "/note.md".

(** Steps 2 to 6 of [publishNote], once the id [uuid] is known: read
    the note, process it, upload it and its assets, copy the link. *)
Definition publish_uploads (file : TFile) (uuid : string) : WM R unit :=
  let* content := vault_read (path file) in
  let* s := get_settings in
  let* out := st_lift (process (resolver app) content file (assetsFolderName s)) in
  let '(processedContent, assets) := out in
  let remotePath := note_path uuid in
  let* noteSuccess := uploadFile remotePath processedContent ("Update note: " +:+ basename file) in
  do* (if noteSuccess && negb (bool_decide (assets = [])) then
         do* notice ("ObsiGithub: Uploading " +:+ pretty (length assets) +:+ " assets...") in
         let* uploadedCount := upload_assets uuid assets 0 in
         notice ("ObsiGithub: Published note with " +:+ pretty uploadedCount +:+ "/" +:+
                 pretty (length assets) +:+ " assets.")
       else if noteSuccess then notice ("ObsiGithub: Successfully published to " +:+ uuid)
       else notice "ObsiGithub: Upload failed. Check console for details.") in
  if noteSuccess then
    let* s := get_settings in
    st_catch (do* writeText (github_url s remotePath) in notice "GitHub URL copied to clipboard!")
             (fun _ => notice "Published, but failed to copy URL.")
  else st_ret tt.

(** [publishNote(file)] *)
Definition publishNote (file : TFile) : WM R unit :=
  let* ok := checkRequirements in
  if negb ok then st_ret tt else
  do* notice ("ObsiGithub: Publishing " +:+ basename file +:+ "...") in
  st_catch
    (let* w0 := st_get in
     let remoteCheck := fun id => st_value (checkPathExists id) w0 in
     let* uuid := on_plugin (getOrCreateUUID getRandomValues (path file) (Some remoteCheck)) in
     publish_uploads file uuid)
    (fun e => notice ("ObsiGithub: Error " +:+ e_message e)).

(** ** The file menu *)

(** [this.settings.fileMap[file.path]] and the [isPublished] test. *)
Definition isPublished (p : Plugin) (file : TFile) : bool :=
  match getUUID (path file) p with
  | Some u => js_truthy u && negb (bool_decide (getStatus (path file) p = unshared))
  | None => false
  end.

Inductive MenuItem :=
| MPublish (title : string)
| MCheckStatus
| MCopyLink
| MRemoveShare.

(** The items the [file-menu] handler adds for [file]. *)
#[export] Instance MenuItem_eq_dec : EqDecision MenuItem.
Proof. solve_decision. Defined.

Definition file_menu (p : Plugin) (file : TFile) : list MenuItem :=
  if bool_decide (extension file = "md") then
    MPublish (if isPublished p file then "Update Share on GitHub" else "Publish to GitHub") ::
    (if isPublished p file then [MCheckStatus; MCopyLink; MRemoveShare] else [])
  else [].

Definition status_text (st : Status) : string :=
  match st with published => "PUBLISHED" | unshared => "UNSHARED" | unknown => "UNKNOWN" end.

(** "Check Remote Status", with the [uuid] read when the menu opened. *)
Definition checkStatus_click (file : TFile) (uuid : string) : WM R unit :=
  do* notice ("Checking status for " +:+ basename file +:+ "...") in
  st_catch
    (let* exists_ := checkPathExists uuid in
     let newStatus := if exists_ then published else unshared in
     do* on_plugin (updateStatus (path file) newStatus) in
     notice ("Status: " +:+ status_text newStatus))
    (fun _ => notice "Check failed. See console.").

(** "Copy GitHub Link" *)
Definition copyLink_click (uuid : string) : WM R unit :=
  let* s := get_settings in
  do* writeText (github_url s (note_path uuid)) in
  notice "Link copied to clipboard".

Definition delete_message : string := "Delete via ObsiGithub".

(** "Remove Share from GitHub"; [confirmed] is the answer to [confirm]. *)
Definition removeShare_click (file : TFile) (uuid : string) (confirmed : bool) : WM R unit :=
  if negb confirmed then st_ret tt else
  do* notice "Deleting remote files..." in
  let* success := deletePath uuid delete_message in
  if success then
    do* notice "Unshare complete." in
    on_plugin (updateStatus (path file) unshared)
  else notice "Unshare failed.".

(** A click on [item] of the menu opened on [file].  The [file-menu]
    handler reads [uuid] ([this.settings.fileMap[file.path]]) when the
    menu opens and adds only the items of [file_menu]; the click runs
    that item's handler. *)
Definition menu_click (file : TFile) (item : MenuItem) (confirmed : bool) : WM R unit :=
  let* p := st_gets w_plugin in
  let uuid := default "" (getUUID (path file) p) in
  if bool_decide (item ∈ file_menu p file) then
    match item with
    | MPublish _ => publishNote file
    | MCheckStatus => checkStatus_click file uuid
    | MCopyLink => copyLink_click uuid
    | MRemoveShare => removeShare_click file uuid confirmed
    end
  else st_ret tt.

(** [publishCurrentNote()], the command; [active] is
    [workspace.getActiveFile()]. *)
Definition publishCurrentNote (active : option TFile) : WM R unit :=
  match active with
  | None => notice "ObsiGithub: No active file."
  | Some file => publishNote file
  end.

(** ** Properties on every remote *)

Lemma vault_read_some path c :
  vault app !! path = Some c -> vault_read path = st_ret c.
Proof. intros E. unfold vault_read. by rewrite E. Qed.

(** C13: the asset counter counts reads, not uploads.  [upload_assets]
    returns the number of assets it could read from the vault, whatever
    [uploadFile] answered for them: since [uploadFile] reports failure
    by returning [false] and never throws, [uploadedCount++] runs after
    a failed upload too, and the final notice announces [n/n] assets. *)
Theorem upload_assets_count uuid assets c (w : World R) :
  has_service w ->
  st_value (upload_assets uuid assets c) w =
  Ok (c + length (filter (fun a => is_Some (vault app !! path a)) assets)).
Proof.
  revert c w. induction assets as [|a assets IH]; intros c w Hw; cbn [upload_assets].
  - cbn. f_equal. lia.
  - destruct (vault app !! path a) as [d|] eqn:Ev.
    + rewrite (vault_read_some _ _ Ev).
      destruct (uploadFile_ok (uuid +:+ "/" +:+ assetsFolderName (settings (w_plugin w)) +:+ "/" +:+ name a)
                  d ("Upload asset: " +:+ name a) w Hw) as (b & w' & E & Hp).
      unfold st_value, st_bind at 1, st_catch. cbn [st_ret st_gets get_settings st_bind].
      rewrite (st_bind_ok _ _ _ _ _ E). cbn [st_ret]. fold (st_value (upload_assets uuid assets (S c)) w'). rewrite IH.
      * rewrite filter_cons_True by (rewrite Ev; eauto). cbn [length]. f_equal. lia.
      * unfold has_service. by rewrite Hp.
    + unfold vault_read. rewrite Ev.
      unfold st_value, st_bind at 1, st_catch. cbn [st_throw st_bind notice st_modify st_ret].
      fold (st_value (upload_assets uuid assets c) (add_notice ("Failed to upload: " +:+ name a) w)).
      rewrite IH by done. rewrite filter_cons_False by (rewrite Ev; by intros []). done.
Qed.

(** C27: the link settings are checked first.  When wiki links are on or
    the new-link format is not ["relative"], [publishNote] shows the
    corresponding notice and does nothing else: no id is allocated, no
    file read, no request sent. *)
Theorem publishNote_requirements file (w : World R) :
  useMarkdownLinks app = false \/ newLinkFormat app <> "relative" ->
  publishNote file w =
  (Ok tt, add_notice (if useMarkdownLinks app then link_format_msg else wikilinks_msg) w).
Proof.
  intros Hreq. unfold publishNote, checkRequirements.
  destruct (useMarkdownLinks app) eqn:Hm; cbn [negb].
  - destruct Hreq as [Hf|Hn]; [discriminate|]. rewrite bool_decide_false by done. reflexivity.
  - reflexivity.
Qed.

(** With the link settings right, [publishNote] allocates the id with
    the remote check taken on the world after the first notice, then
    runs the uploads, any throw becoming the error notice. *)
Lemma publishNote_run file (w : World R) :
  useMarkdownLinks app = true -> newLinkFormat app = "relative" ->
  let w1 := add_notice ("ObsiGithub: Publishing " +:+ basename file +:+ "...") w in
  let handler := fun e : JsError => notice ("ObsiGithub: Error " +:+ e_message e) in
  publishNote file w =
    match on_plugin (getOrCreateUUID getRandomValues (path file)
                       (Some (fun id => st_value (checkPathExists id) w1))) w1 with
    | (Ok u, w2) => st_catch (publish_uploads file u) handler w2
    | (Throw e, w2) => handler e w2
    end.
Proof.
  intros Hm Hf w1 handler.
  assert (checkRequirements w = (Ok true, w)) as Ereq.
  { unfold checkRequirements. rewrite Hm. cbn [negb]. by rewrite bool_decide_true. }
  unfold publishNote. rewrite (st_bind_ok _ _ _ _ _ Ereq). cbn [negb].
  unfold st_bind at 1. cbn [notice st_modify]. fold w1. unfold st_catch.
  rewrite st_bind_ok with (a := w1) (s' := w1) by reflexivity.
  unfold st_bind. destruct (on_plugin _ w1) as [[u|e] w2]; reflexivity.
Qed.

(** Step 6 of [publishNote]: the link on the clipboard and its notice,
    or, when the browser refuses the write, only the notice saying so. *)
Lemma copy_url_run url (w : World R) :
  st_catch (do* writeText url in notice "GitHub URL copied to clipboard!")
           (fun _ => notice "Published, but failed to copy URL.") w =
  (Ok tt, if w_clipboard_ok w then add_notice "GitHub URL copied to clipboard!" (set_clipboard url w)
          else add_notice "Published, but failed to copy URL." w).
Proof. unfold st_catch, st_bind, writeText. by destruct (w_clipboard_ok w). Qed.

Definition upload_failed_msg : string := "ObsiGithub: Upload failed. Check console for details.".

(** The uploads when the service has no client: the note is read and
    processed, [uploadFile] refuses, and only the failure notices are
    shown. *)
Lemma publish_uploads_no_client file u content out assets (w : World R) svc :
  githubService (w_plugin w) = Some svc -> octokit svc = None ->
  vault app !! path file = Some content ->
  process (resolver app) content file (assetsFolderName (settings (w_plugin w))) = Ok (out, assets) ->
  publish_uploads file u w = (Ok tt, add_notice upload_failed_msg (add_notice no_token_msg w)).
Proof.
  intros Hs Hoc Hc Hp. unfold publish_uploads. rewrite (vault_read_some _ _ Hc), st_bind_ret_l.
  unfold get_settings. rewrite st_bind_ok with (a := settings (w_plugin w)) (s' := w) by reflexivity.
  unfold st_lift. rewrite st_bind_ok with (a := (out, assets)) (s' := w) by (by rewrite Hp).
  rewrite (st_bind_ok _ _ _ _ _ (uploadFile_no_client _ _ _ w svc Hs Hoc)). reflexivity.
Qed.

(** C15: a first publication without a token records a note that was
    never uploaded.  With the link settings right but no GitHub client
    and no token in the settings, publishing a note with no id still
    allocates an id and records it with status [published] (setUUID
    writes the status before anything is uploaded); [uploadFile] then
    refuses, the notices say the upload failed, and the repository and
    the clipboard are untouched: the note is shown as published though
    nothing of it is on GitHub.  (Or all five candidates collided
    locally, and then nothing is recorded.) *)
Theorem publishNote_no_token file content out assets (w : World R) svc :
  useMarkdownLinks app = true -> newLinkFormat app = "relative" ->
  githubService (w_plugin w) = Some svc -> octokit svc = None ->
  js_truthy (githubToken (settings (w_plugin w))) = false ->
  getUUID (path file) (w_plugin w) = None ->
  vault app !! path file = Some content ->
  process (resolver app) content file (assetsFolderName (settings (w_plugin w))) = Ok (out, assets) ->
  let w' := st_state (publishNote file) w in
  w_remote w' = w_remote w /\ w_clipboard w' = w_clipboard w /\
  ((exists u, getUUID (path file) (w_plugin w') = Some u /\
              getStatus (path file) (w_plugin w') = published /\
              last (w_notices w') = Some upload_failed_msg) \/
   (fileMap (settings (w_plugin w')) = fileMap (settings (w_plugin w)) /\
    last (w_notices w') = Some ("ObsiGithub: Error " +:+ e_message max_retries_error))).
Proof.
  intros Hm Hf Hs Hoc Ht Hnone Hc Hp w'.
  set (w1 := add_notice ("ObsiGithub: Publishing " +:+ basename file +:+ "...") w).
  set (rc := fun id => st_value (checkPathExists id) w1).
  assert (forall id, rc id = Ok false) as Hrc.
  { intros id. unfold rc, st_value. by rewrite (checkPathExists_run id w1 svc Hs), Hoc. }
  assert (synced (w_plugin w)) as Hsy by (intros ? _ T; by rewrite Ht in T).
  pose proof (getOrCreateUUID_service getRandomValues (path file) (Some rc) svc
                (config (settings (w_plugin w))) (w_plugin w) (conj Hs (conj Hsy eq_refl))) as Hsvc.
  subst w'. unfold st_state. rewrite (publishNote_run file w Hm Hf). fold w1 rc.
  rewrite on_plugin_run. change (w_plugin w1) with (w_plugin w). unfold st_value, st_state in *.
  destruct (getOrCreateUUID getRandomValues (path file) (Some rc) (w_plugin w)) as [[u|e] p'] eqn:E;
    cbn [fst snd] in *; destruct Hsvc as (Hs' & _ & Hcfg).
  - destruct (getOrCreateUUID_ok_cases _ _ _ _ _ _ E) as [(Hu & _)|(_ & _ & Hset & _)]; [congruence|].
    injection Hcfg as _ _ _ _ Efold.
    unfold st_catch.
    rewrite (publish_uploads_no_client file u content out assets (set_plugin p' w1) svc); [|done|done|done|].
    + cbn. split_and!; [done|done|left]. exists u. split_and!; [by eapply getUUID_put| |apply last_snoc].
      unfold getStatus. rewrite Hset. cbn. by rewrite lookup_insert_eq.
    + cbn [set_plugin w_plugin]. by rewrite Efold.
  - assert (e = max_retries_error) as ->.
    { cbv [getOrCreateUUID st_bind st_gets] in E. rewrite Hnone in E.
      destruct (create_loop_throw _ _ _ _ _ _ _ _ E) as [->|(rcf & v & [= <-] & Hv')]; [done|].
      by rewrite Hrc in Hv'. }
    destruct (getOrCreateUUID_throw_cases _ _ _ _ _ _ E) as (Hs2 & _ & _).
    cbn. split_and!; [done|done|right]. split; [by rewrite Hs2|apply last_snoc].
Qed.

End Orchestrator.

(** ** The handlers against the in-memory repository *)

Section OnRepository.

Variable getRandomValues : nat -> nat -> Z.
Variable app : App.

Definition asset_path (uuid folder : string) (a : TFile) : string :=
  uuid +:+ "/" +:+ folder +:+ "/" +:+ name a.

(** The repository after the asset loop wrote each asset, in order. *)
Fixpoint put_assets (uuid folder : string) (assets : list TFile) (fs : gmap string string)
  : gmap string string :=
  match assets with
  | [] => fs
  | a :: rest =>
      put_assets uuid folder rest (<[asset_path uuid folder a := default "" (vault app !! path a)]> fs)
  end.

(** The paths a publication writes clash neither with the repository
    nor with each other. *)
Definition independent (paths : list string) (fs : gmap string string) : Prop :=
  (forall q, q ∈ paths -> conflicts q fs = false) /\
  (forall q1 q2, q1 ∈ paths -> q2 ∈ paths -> inside q1 q2 = false).

(** The check of [independent] as a boolean. *)
Definition independentb (paths : list string) (fs : gmap string string) : bool :=
  forallb (fun q => negb (conflicts q fs)) paths &&
  forallb (fun q1 => forallb (fun q2 => negb (inside q1 q2)) paths) paths.

Lemma independentb_spec paths fs : independentb paths fs = true -> independent paths fs.
Proof.
  unfold independentb. rewrite andb_true_iff, !forallb_forall. intros [Hc Hi]. split.
  - intros q Hq. apply negb_true_iff, Hc. by apply list_elem_of_In.
  - intros q1 q2 H1 H2. specialize (Hi q1 (proj1 (list_elem_of_In _ _) H1)).
    rewrite forallb_forall in Hi. apply negb_true_iff, Hi. by apply list_elem_of_In.
Qed.

Lemma independent_insert q c paths fs :
  q ∈ paths -> independent paths fs -> independent paths (<[q := c]> fs).
Proof.
  intros Hq [Hc Hi]. split; [|done]. intros q' Hq'.
  rewrite conflicts_insert, Hc, (Hi q' q), (Hi q q'); done.
Qed.

Lemma independent_sub paths paths' fs :
  (forall q, q ∈ paths' -> q ∈ paths) -> independent paths fs -> independent paths' fs.
Proof. intros Hs [Hc Hi]. split; auto. Qed.

Lemma upload_assets_stores uuid assets c (w : World MemRemote) tok :
  configured w tok -> authorize (request tok (settings (w_plugin w))) (w_remote w) = None ->
  (forall a, a ∈ assets -> is_Some (vault app !! path a)) ->
  independent (map (asset_path uuid (assetsFolderName (settings (w_plugin w)))) assets) (remote_files w) ->
  exists w', upload_assets app uuid assets c w = (Ok (c + length assets), w') /\
    remote_files w' = put_assets uuid (assetsFolderName (settings (w_plugin w))) assets (remote_files w) /\
    w_plugin w' = w_plugin w /\ w_clipboard w' = w_clipboard w /\ w_clipboard_ok w' = w_clipboard_ok w.
Proof.
  revert c w. induction assets as [|a assets IH]; intros c w Hc Ha Hv Hind.
  - exists w. cbn. split_and!; [by rewrite Nat.add_0_r|done..].
  - destruct (Hv a ltac:(set_solver)) as [d Ed].
    set (folder := assetsFolderName (settings (w_plugin w))) in *.
    assert (conflicts (asset_path uuid folder a) (remote_files w) = false) as Hca
      by (apply Hind; set_solver).
    cbn [upload_assets]. rewrite (vault_read_some _ _ _ Ed).
    unfold st_bind at 1, st_catch. cbn [st_ret st_gets get_settings st_bind].
    fold folder. fold (asset_path uuid folder a).
    rewrite (st_bind_ok _ _ _ _ _ (uploadFile_put _ _ _ _ _ Hc Ha Hca)). cbn [st_ret].
    destruct (IH (S c) (with_files (<[asset_path uuid folder a := d]> (remote_files w)) w))
      as (w' & E & Hf & Hp & Hcl & Hok); [done|done|set_solver| |].
    + rewrite remote_files_with. cbn [with_files set_remote w_plugin]. fold folder.
      eapply independent_sub; [|apply independent_insert; [|exact Hind]]; set_solver.
    + exists w'. rewrite E. split_and!; [cbn [length]; by rewrite Nat.add_succ_r| |done|done|done].
      rewrite Hf. cbn [put_assets]. by rewrite Ed.
Qed.

(** C22: unsharing removes the remote folder and records it.  On a
    well-formed repository reached by the service, a confirmed "Remove
    Share from GitHub" deletes every file at or below the note's id,
    sets the note's status to [unshared] and keeps its id: it does not
    call [removeUUID], whose doc comment (state_manager.ts:99-100) says
    it is used when "Unshare" is called; the spec has unshare mutate
    the record and only "forget" delete it, as the code does. *)
Theorem removeShare_unshares file u (w : World MemRemote) tok :
  reaches w tok -> tree_wf (remote_files w) ->
  remote_files (st_state (removeShare_click file u true) w) = outside u (remote_files w) /\
  getStatus (path file) (w_plugin (st_state (removeShare_click file u true) w)) = unshared /\
  fileMap (settings (w_plugin (st_state (removeShare_click file u true) w))) =
    fileMap (settings (w_plugin w)).
Proof.
  intros Hr Hwf.
  assert (removeShare_click file u true w =
          (Ok tt, set_plugin (st_state (updateStatus (path file) unshared) (w_plugin w))
                    (add_notice "Unshare complete."
                       (with_files (outside u (remote_files w))
                          (add_notice "Deleting remote files..." w))))) as E.
  { unfold removeShare_click. cbn [negb]. unfold st_bind at 1. cbn [notice st_modify].
    rewrite st_bind_ok with (a := true)
      (s' := with_files (outside u (remote_files w)) (add_notice "Deleting remote files..." w))
      by exact (deletePath_subtree u delete_message (add_notice "Deleting remote files..." w) tok Hr Hwf).
    unfold st_bind. cbn [notice st_modify]. rewrite on_plugin_run.
    by rewrite (proj1 (updateStatus_effect (path file) unshared _)). }
  unfold st_state. rewrite E. cbn [snd].
  destruct (updateStatus_effect (path file) unshared (w_plugin w)) as (_ & Hs & Hm & _).
  split_and!; [done|exact Hs|exact Hm].
Qed.

(** C23: the status check records what the repository holds.  When the
    service reaches the repository, "Check Remote Status" sets the
    note's status to [published] when something is stored at or below
    its id and to [unshared] otherwise, and changes nothing else. *)
Theorem checkStatus_records file u (w : World MemRemote) tok :
  reaches w tok ->
  getStatus (path file) (w_plugin (st_state (checkStatus_click file u) w)) =
    (if occupied u (remote_files w) then published else unshared) /\
  fileMap (settings (w_plugin (st_state (checkStatus_click file u) w))) =
    fileMap (settings (w_plugin w)) /\
  remote_files (st_state (checkStatus_click file u) w) = remote_files w.
Proof.
  intros Hr. set (st := if occupied u (remote_files w) then published else unshared).
  set (msg := "Checking status for " +:+ basename file +:+ "...").
  assert (checkStatus_click file u w =
          (Ok tt, add_notice ("Status: " +:+ status_text st)
                    (set_plugin (st_state (updateStatus (path file) st) (w_plugin w))
                       (add_notice msg w)))) as E.
  { unfold checkStatus_click. unfold st_bind at 1. cbn [notice st_modify]. fold msg.
    unfold st_catch, st_bind at 1.
    rewrite (checkPathExists_answer u (add_notice msg w) tok) by done.
    unfold st_bind. rewrite on_plugin_run.
    by rewrite (proj1 (updateStatus_effect (path file) st _)). }
  unfold st_state. rewrite E. cbn [snd].
  destruct (updateStatus_effect (path file) st (w_plugin w)) as (_ & Hs & Hm & _).
  split_and!; [exact Hs|exact Hm|done].
Qed.

(** What [publish_uploads] does when everything succeeds: the note at
    [u/note.md], each asset at [u/<folder>/<name>], the link on the
    clipboard, the plugin untouched. *)
Lemma publish_uploads_put file u content out assets (w : World MemRemote) tok :
  vault app !! path file = Some content ->
  process (resolver app) content file (assetsFolderName (settings (w_plugin w))) = Ok (out, assets) ->
  (forall a, a ∈ assets -> is_Some (vault app !! path a)) ->
  configured w tok -> authorize (request tok (settings (w_plugin w))) (w_remote w) = None ->
  independent (note_path u :: map (asset_path u (assetsFolderName (settings (w_plugin w)))) assets)
              (remote_files w) ->
  exists w', publish_uploads app file u w = (Ok tt, w') /\ w_plugin w' = w_plugin w /\
    remote_files w' =
      put_assets u (assetsFolderName (settings (w_plugin w))) assets (<[note_path u := out]> (remote_files w)) /\
    w_clipboard w' = (if w_clipboard_ok w then Some (github_url (settings (w_plugin w)) (note_path u))
                      else w_clipboard w).
Proof.
  intros Hc Hp Hv Hconf Ha Hind.
  set (folder := assetsFolderName (settings (w_plugin w))) in *.
  assert (conflicts (note_path u) (remote_files w) = false) as Hcn
    by (apply (proj1 Hind); set_solver).
  pose proof (uploadFile_put (note_path u) out ("Update note: " +:+ basename file) w tok Hconf Ha Hcn)
    as Enote.
  set (w2 := with_files (<[note_path u := out]> (remote_files w)) w) in *.
  unfold publish_uploads. rewrite (vault_read_some _ _ _ Hc), st_bind_ret_l.
  unfold get_settings. rewrite st_bind_ok with (a := settings (w_plugin w)) (s' := w) by reflexivity.
  fold folder. unfold st_lift. rewrite st_bind_ok with (a := (out, assets)) (s' := w) by (by rewrite Hp).
  rewrite (st_bind_ok _ _ _ _ _ Enote).
  destruct assets as [|a rest].
  - rewrite bool_decide_true by done. cbn [negb andb].
    unfold st_bind at 1. cbn [notice st_modify]. unfold get_settings, st_bind at 1, st_gets.
    rewrite copy_url_run. eexists. split; [reflexivity|].
    cbn. destruct (w_clipboard_ok w); split_and!; reflexivity.
  - rewrite bool_decide_false by done. cbn [negb andb]. rewrite !st_bind_assoc.
    set (m1 := "ObsiGithub: Uploading " +:+ pretty (length (a :: rest)) +:+ " assets...").
    unfold st_bind at 1. cbn [notice st_modify].
    destruct (upload_assets_stores u (a :: rest) 0 (add_notice m1 w2) tok)
      as (w3 & Eup & Hf3 & Hp3 & Hc3 & Hok3); [exact Hconf|exact Ha|exact Hv| |].
    { cbn [add_notice w_plugin w2 with_files set_remote remote_files w_remote set_files m_files].
      fold folder. eapply independent_sub; [|apply independent_insert; [|exact Hind]]; set_solver. }
    rewrite st_bind_assoc, (st_bind_ok _ _ _ _ _ Eup).
    unfold st_bind at 1. cbn [notice st_modify]. unfold get_settings, st_bind at 1, st_gets.
    rewrite copy_url_run. eexists. split; [reflexivity|].
    cbn in Hok3. cbn [add_notice w_clipboard_ok]. rewrite Hok3.
    destruct (w_clipboard_ok w); cbn; split_and!; try done; rewrite Hp3; reflexivity.
Qed.

(** C8: republishing reuses the id and overwrites the same files (the
    spec's end-to-end property).  When the note already has an id [u],
    the link settings are right, the service is configured and reaches
    the repository, the note and its assets are in the vault and the
    paths written clash with nothing, [publishNote] allocates nothing
    (the plugin object is unchanged) and leaves the repository with the
    processed note at [u/note.md] and each asset at
    [u/<assetsFolderName>/<name>], every other file untouched; the
    note's GitHub URL is on the clipboard, unless the browser refuses
    the write, and then the clipboard is as it was. *)
Theorem publishNote_republish file u content out assets (w : World MemRemote) tok :
  useMarkdownLinks app = true -> newLinkFormat app = "relative" ->
  getUUID (path file) (w_plugin w) = Some u -> js_truthy u = true ->
  vault app !! path file = Some content ->
  process (resolver app) content file (assetsFolderName (settings (w_plugin w))) = Ok (out, assets) ->
  (forall a, a ∈ assets -> is_Some (vault app !! path a)) ->
  configured w tok -> authorize (request tok (settings (w_plugin w))) (w_remote w) = None ->
  independent (note_path u :: map (asset_path u (assetsFolderName (settings (w_plugin w)))) assets)
              (remote_files w) ->
  w_plugin (st_state (publishNote getRandomValues app file) w) = w_plugin w /\
  remote_files (st_state (publishNote getRandomValues app file) w) =
    put_assets u (assetsFolderName (settings (w_plugin w))) assets (<[note_path u := out]> (remote_files w)) /\
  w_clipboard (st_state (publishNote getRandomValues app file) w) =
    if w_clipboard_ok w then Some (github_url (settings (w_plugin w)) (note_path u)) else w_clipboard w.
Proof.
  intros Hm Hf Hu Ht Hc Hp Hv Hconf Ha Hind.
  set (w1 := add_notice ("ObsiGithub: Publishing " +:+ basename file +:+ "...") w).
  assert (on_plugin (getOrCreateUUID getRandomValues (path file)
            (Some (fun id => st_value (checkPathExists id) w1))) w1 = (Ok u, w1)) as Eid.
  { rewrite on_plugin_run. unfold st_value, st_state.
    rewrite (getOrCreateUUID_existing getRandomValues (path file) _ (w_plugin w1) u Hu Ht).
    cbn [fst snd]. by rewrite set_plugin_id. }
  destruct (publish_uploads_put file u content out assets w1 tok Hc Hp Hv Hconf Ha Hind)
    as (w' & E & H1 & H2 & H3).
  unfold st_state. rewrite (publishNote_run getRandomValues app file w Hm Hf). fold w1.
  rewrite Eid. unfold st_catch. rewrite E. done.
Qed.

(** ** The first publication *)

(** The paths a publication writes, relative to the id's folder. *)
Definition rel_paths (folder : string) (assets : list TFile) : list string :=
  "note.md" :: map (fun a => folder +:+ "/" +:+ name a) assets.

Lemma publish_paths u folder assets :
  note_path u :: map (asset_path u folder) assets = map (fun q => u +:+ slash +:+ q) (rel_paths folder assets).
Proof. cbn [map rel_paths]. f_equal. rewrite map_map. by apply map_ext. Qed.

Lemma is_uuid_segment u : is_uuid u = true -> segment u = u.
Proof.
  unfold is_uuid. rewrite andb_true_iff. intros [_ H]. induction u as [|c u IH]; [done|].
  cbn [String.list_ascii_of_string forallb] in H. apply andb_true_iff in H as [Hc H].
  cbn [segment]. rewrite bool_decide_false by (intros ->; discriminate Hc). by rewrite IH.
Qed.

(** A folder with nothing at or below it takes the paths of a
    publication, when they are not nested in one another. *)
Lemma fresh_independent u folder assets fs :
  segment u = u -> occupied u fs = false -> independent (rel_paths folder assets) ∅ ->
  independent (note_path u :: map (asset_path u folder) assets) fs.
Proof.
  intros Hs Ho [_ Hrel]. rewrite publish_paths. split.
  - intros q Hq. apply list_elem_of_In, in_map_iff in Hq as (r & <- & _). by apply not_occupied_conflicts.
  - intros q1 q2 H1 H2. apply list_elem_of_In, in_map_iff in H1 as (r1 & <- & H1).
    apply list_elem_of_In, in_map_iff in H2 as (r2 & <- & H2).
    rewrite inside_common. apply Hrel; by apply list_elem_of_In.
Qed.

Lemma configured_frame (w w' : World MemRemote) tok :
  configured w tok -> githubService (w_plugin w') = githubService (w_plugin w) ->
  config (settings (w_plugin w')) = config (settings (w_plugin w)) -> configured w' tok.
Proof.
  intros (Hsvc & Ho & Hr) Hs Hc. injection Hc as _ Ho' Hr' _ _.
  split_and!; [by rewrite Hs|by rewrite Ho'|by rewrite Hr'].
Qed.

(** C7: the first publication of a note.  For a note with no id, with
    the link settings right, a configured service that reaches the
    repository and agrees with the settings, the note and its assets in
    the vault and the relative paths of the publication not nested in
    one another, [publishNote] either allocates an id [u] (ten
    characters of the alphabet, held by no other note, and with nothing
    stored at or below it in the repository, which the remote check
    guarantees), records it with status [published], writes the note
    at [u/note.md] and each asset at [u/<folder>/<name>] into the empty
    folder, leaving every other file untouched, and copies the link
    when the browser allows it; or
    all five candidates were taken, and then the repository and the
    records are unchanged and the last notice is the max-retries
    error. *)
Theorem publishNote_first file content out assets (w : World MemRemote) tok :
  useMarkdownLinks app = true -> newLinkFormat app = "relative" ->
  getUUID (path file) (w_plugin w) = None ->
  vault app !! path file = Some content ->
  process (resolver app) content file (assetsFolderName (settings (w_plugin w))) = Ok (out, assets) ->
  (forall a, a ∈ assets -> is_Some (vault app !! path a)) ->
  configured w tok -> synced (w_plugin w) ->
  authorize (request tok (settings (w_plugin w))) (w_remote w) = None ->
  independent (rel_paths (assetsFolderName (settings (w_plugin w))) assets) ∅ ->
  let w' := st_state (publishNote getRandomValues app file) w in
  (exists u, is_uuid u = true /\ occupied u (remote_files w) = false /\
     (forall k, fileMap (settings (w_plugin w)) !! k <> Some u) /\
     getUUID (path file) (w_plugin w') = Some u /\ getStatus (path file) (w_plugin w') = published /\
     remote_files w' =
       put_assets u (assetsFolderName (settings (w_plugin w))) assets (<[note_path u := out]> (remote_files w)) /\
     w_clipboard w' = if w_clipboard_ok w then Some (github_url (settings (w_plugin w)) (note_path u))
                      else w_clipboard w) \/
  (remote_files w' = remote_files w /\
   fileMap (settings (w_plugin w')) = fileMap (settings (w_plugin w)) /\
   last (w_notices w') = Some ("ObsiGithub: Error " +:+ e_message max_retries_error)).
Proof.
  intros Hm Hf Hnone Hc Hp Hv Hconf Hsy Ha Hrel w'.
  set (w1 := add_notice ("ObsiGithub: Publishing " +:+ basename file +:+ "...") w).
  set (rc := fun id => st_value (checkPathExists id) w1).
  assert (forall id, rc id = Ok (occupied id (remote_files w))) as Hrc.
  { intros id. unfold rc, st_value. rewrite (checkPathExists_answer id w1 tok); [done|].
    split; [exact (proj1 Hconf)|exact Ha]. }
  destruct Hconf as [(svc & Hs & Ho) Hor] eqn:Hconf'. clear Hconf'.
  pose proof (getOrCreateUUID_service getRandomValues (path file) (Some rc) svc
                (config (settings (w_plugin w))) (w_plugin w) (conj Hs (conj Hsy eq_refl))) as Hsvc.
  subst w'. unfold st_state. rewrite (publishNote_run getRandomValues app file w Hm Hf). fold w1 rc.
  rewrite on_plugin_run. change (w_plugin w1) with (w_plugin w). unfold st_value, st_state in *.
  destruct (getOrCreateUUID getRandomValues (path file) (Some rc) (w_plugin w)) as [[u|e] p'] eqn:E;
    cbn [fst snd] in *; destruct Hsvc as (Hs' & _ & Hcfg).
  - left. destruct (getOrCreateUUID_ok_cases _ _ _ _ _ _ E) as [(Hu & _)|(Huuid & Hfresh & Hset & _)];
      [congruence|].
    assert (rc u = Ok false) as Hru.
    { cbv [getOrCreateUUID st_bind st_gets] in E. rewrite Hnone in E. exact (create_loop_remote _ _ _ _ _ _ _ _ E). }
    rewrite Hrc in Hru. injection Hru as Hocc.
    pose proof Hcfg as Hcfg'. injection Hcfg' as _ Eo Er Eb Efold.
    set (w2 := set_plugin p' w1).
    destruct (publish_uploads_put file u content out assets w2 tok Hc) as (w3 & E3 & H1 & H2 & H3).
    + cbn [w2 set_plugin w_plugin]. by rewrite Efold.
    + exact Hv.
    + apply (configured_frame w); [done|cbn [w2 set_plugin w_plugin]; by rewrite Hs'|exact Hcfg].
    + cbn [w2 set_plugin w_plugin w_remote w1 add_notice]. unfold request. by rewrite Eo, Er, Eb.
    + cbn [w2 set_plugin w_plugin w_remote w1 add_notice remote_files]. rewrite Efold.
      by apply fresh_independent; [apply is_uuid_segment| |].
    + unfold st_catch. rewrite E3. cbn [snd]. exists u. rewrite H1, H2, H3.
      cbn [w2 set_plugin w_plugin w1 add_notice remote_files w_remote w_clipboard w_clipboard_ok]. rewrite Efold.
      split_and!; [done|done|done|by eapply getUUID_put| |done|].
      * unfold getStatus. rewrite Hset. cbn. by rewrite lookup_insert_eq.
      * destruct (w_clipboard_ok w); [|done]. unfold github_url. by rewrite Eo, Er, Eb.
  - right. destruct (getOrCreateUUID_throw_cases _ _ _ _ _ _ E) as (Hs2 & _ & _).
    assert (e = max_retries_error) as ->.
    { cbv [getOrCreateUUID st_bind st_gets] in E. rewrite Hnone in E.
      destruct (create_loop_throw _ _ _ _ _ _ _ _ E) as [->|(rcf & v & [= <-] & Hv')]; [done|].
      by rewrite Hrc in Hv'. }
    cbn. split_and!; [done|by rewrite Hs2|apply last_snoc].
Qed.

End OnRepository.

(** ** Concrete runs *)

(** A vault with the note [Notes.md] showing [img.png]. *)
Definition notes_vault : gmap string string :=
  <["Notes.md" := "![pic](./img.png)"]> (<["img.png" := "PNG"]> ∅).
Definition demo_app : App := mkApp true "relative" notes_vault vault_resolver.

(** The plugin once [Notes.md] has been published as [u1]. *)
Definition published_settings : ObsiGithubSettings :=
  mkSettings "tok" "alice" "notes" "main" "assets"
             (<["Notes.md" := "u1"]> ∅) (<["Notes.md" := published]> ∅).
Definition published_plugin : Plugin :=
  mkPlugin published_settings None (Some (mkService (Some "tok"))) 0.
Definition published_world : World MemRemote :=
  mkWorld published_plugin (demo_repo (<["u1/note.md" := "old"]> (<["u2/note.md" := "# M"]> ∅))) [] None true.

Definition notes_out : string := titleLine notes_md +:+ "![pic](assets/img.png)".

Lemma published_reaches : reaches published_world "tok".
Proof. split; [by eexists|reflexivity]. Qed.

Lemma publishNote_republish_witness :
  w_plugin (st_state (publishNote rng0 demo_app notes_md) published_world) = published_plugin /\
  remote_files (st_state (publishNote rng0 demo_app notes_md) published_world) =
    put_assets demo_app "u1" "assets" [img_png]
      (<["u1/note.md" := notes_out]> (remote_files published_world)) /\
  w_clipboard (st_state (publishNote rng0 demo_app notes_md) published_world) =
    if w_clipboard_ok published_world then Some (github_url published_settings (note_path "u1"))
    else w_clipboard published_world.
Proof.
  apply (publishNote_republish rng0 demo_app notes_md "u1" "![pic](./img.png)" notes_out [img_png]
           published_world "tok"); try reflexivity.
  - intros a Ha. apply list_elem_of_singleton in Ha as ->. by eexists.
  - split_and!; [by eexists|reflexivity|reflexivity].
  - apply independentb_spec. vm_compute. reflexivity.
Defined.

Definition fresh_world : World MemRemote :=
  mkWorld (mkPlugin (mkSettings "tok" "alice" "notes" "main" "assets" ∅ ∅) None
                    (Some (mkService (Some "tok"))) 0)
          (demo_repo ∅) [] None true.

Definition publish_once (w : World MemRemote) : World MemRemote :=
  st_state (publishNote rng0 demo_app notes_md) w.

(** The spec's end-to-end run: publishing [Notes.md] twice on an empty
    repository allocates one id (the one the random source [rng0]
    yields first), writes [<id>/note.md] and [<id>/assets/img.png], and
    the second run writes the same two paths again under the same id. *)
Example publish_twice :
  getUUID "Notes.md" (w_plugin (publish_once fresh_world)) = Some "sV8dGlO1W9" /\
  getUUID "Notes.md" (w_plugin (publish_once (publish_once fresh_world))) = Some "sV8dGlO1W9" /\
  dom (remote_files (publish_once fresh_world)) =
    {[note_path "sV8dGlO1W9"; "sV8dGlO1W9/assets/img.png"]} /\
  remote_files (publish_once (publish_once fresh_world)) = remote_files (publish_once fresh_world).
Proof. split_and!; vm_compute; reflexivity. Qed.

(** A repository where the first candidate id is already a folder. *)
Definition taken_world : World MemRemote :=
  mkWorld (w_plugin fresh_world) (demo_repo (<["sV8dGlO1W9/note.md" := "other"]> ∅)) [] None true.

Lemma publishNote_first_witness :
  ((exists u, is_uuid u = true /\ occupied u (remote_files taken_world) = false /\
     (forall k, fileMap (settings (w_plugin taken_world)) !! k <> Some u) /\
     getUUID "Notes.md" (w_plugin (publish_once taken_world)) = Some u /\
     getStatus "Notes.md" (w_plugin (publish_once taken_world)) = published /\
     remote_files (publish_once taken_world) =
       put_assets demo_app u "assets" [img_png] (<[note_path u := notes_out]> (remote_files taken_world)) /\
     w_clipboard (publish_once taken_world) =
       if w_clipboard_ok taken_world then Some (github_url (settings (w_plugin taken_world)) (note_path u))
       else w_clipboard taken_world) \/
   (remote_files (publish_once taken_world) = remote_files taken_world /\
    fileMap (settings (w_plugin (publish_once taken_world))) = fileMap (settings (w_plugin taken_world)) /\
    last (w_notices (publish_once taken_world)) = Some ("ObsiGithub: Error " +:+ e_message max_retries_error))) /\
  getUUID "Notes.md" (w_plugin (publish_once taken_world)) <> Some "sV8dGlO1W9".
Proof.
  split; [|vm_compute; discriminate].
  apply (publishNote_first rng0 demo_app notes_md "![pic](./img.png)" notes_out [img_png]
           taken_world "tok"); try reflexivity.
  - intros a Ha. apply list_elem_of_singleton in Ha as ->. by eexists.
  - split_and!; [by eexists|reflexivity|reflexivity].
  - intros svc Hs _. cbn in Hs. by injection Hs as <-.
  - apply independentb_spec. vm_compute. reflexivity.
Defined.

(** A plugin saved with an empty token: the service has no client. *)
Definition unset_token_world : World MemRemote :=
  mkWorld (mkPlugin (mkSettings "" "alice" "notes" "main" "assets" ∅ ∅) None
                    (Some (mkService None)) 0)
          (demo_repo ∅) [] None true.

Lemma publishNote_no_token_witness :
  (let w' := st_state (publishNote rng0 demo_app notes_md) unset_token_world in
   w_remote w' = w_remote unset_token_world /\ w_clipboard w' = w_clipboard unset_token_world /\
   ((exists u, getUUID (path notes_md) (w_plugin w') = Some u /\
               getStatus (path notes_md) (w_plugin w') = published /\
               last (w_notices w') = Some upload_failed_msg) \/
    (fileMap (settings (w_plugin w')) = fileMap (settings (w_plugin unset_token_world)) /\
     last (w_notices w') = Some ("ObsiGithub: Error " +:+ e_message max_retries_error)))) /\
  getStatus "Notes.md" (w_plugin (publish_once unset_token_world)) = published /\
  remote_files (publish_once unset_token_world) = ∅.
Proof.
  split; [|split; vm_compute; reflexivity].
  apply (publishNote_no_token rng0 demo_app notes_md "![pic](./img.png)" notes_out [img_png]
           unset_token_world (mkService None)); reflexivity.
Defined.

(** An asset upload that fails on the remote. *)
Definition faulty_published : World (Faulty MemRemote) :=
  mkWorld published_plugin (mkFaulty (demo_repo ∅) ["u1/assets/img.png"]) [] None true.

Lemma upload_assets_count_witness :
  st_value (upload_assets demo_app "u1" [img_png] 0) faulty_published = Ok 1 /\
  m_files (f_inner (w_remote (st_state (upload_assets demo_app "u1" [img_png] 0) faulty_published))) = ∅ /\
  w_notices (st_state (upload_assets demo_app "u1" [img_png] 0) faulty_published) =
    ["GitHub Upload Error: Server Error"].
Proof.
  split_and!; [|vm_compute; reflexivity|vm_compute; reflexivity].
  rewrite (upload_assets_count demo_app "u1" [img_png] 0 faulty_published); [reflexivity|by eexists].
Defined.

Lemma publishNote_requirements_witness :
  publishNote rng0 (mkApp false "relative" notes_vault vault_resolver) notes_md published_world =
  (Ok tt, add_notice wikilinks_msg published_world).
Proof.
  apply (publishNote_requirements rng0 (mkApp false "relative" notes_vault vault_resolver) notes_md
           published_world). by left.
Defined.

Lemma removeShare_unshares_witness :
  remote_files (st_state (removeShare_click notes_md "u1" true) published_world) = <["u2/note.md" := "# M"]> ∅ /\
  getStatus "Notes.md" (w_plugin (st_state (removeShare_click notes_md "u1" true) published_world)) = unshared /\
  fileMap (settings (w_plugin (st_state (removeShare_click notes_md "u1" true) published_world))) =
    <["Notes.md" := "u1"]> ∅.
Proof.
  destruct (removeShare_unshares notes_md "u1" published_world "tok" published_reaches)
    as (H1 & H2 & H3); [apply tree_wfb_spec; vm_compute; reflexivity|].
  split_and!; [rewrite H1; vm_compute; reflexivity|exact H2|exact H3].
Defined.

Lemma checkStatus_records_witness :
  getStatus (path notes_md) (w_plugin (st_state (checkStatus_click notes_md "u3") published_world)) = unshared.
Proof.
  destruct (checkStatus_records notes_md "u3" published_world "tok" published_reaches) as (H1 & _ & _).
  rewrite H1. vm_compute. reflexivity.
Defined.

End Main.
