(* ===== verification/View.v ===== *)
(** * View: the management view of [src/ui/management_view.ts]

    The view lists the records of [fileMap], each with its status and
    its action buttons, and offers a "Check Now" button that re-checks
    every record against the remote, at most once per 30 seconds.

    - [ViewWorld] is the world of [GitHub.v] with the view's own field
      [lastCheckTime];
    - [drawList doCheck] returns the rows it draws ([Row]: the cells and
      which buttons are enabled); with [doCheck] it first asks
      [checkPathExists] for each record and stores the answer with
      [updateStatus], keeping the old status when the check throws;
    - [handleCheck now] is the "Check Now" handler with [Date.now()] as
      its argument; [unshare_click], [forget_click] and [copy_click]
      are the row buttons, [confirmed] being the answer to [confirm];
      the "Open Link" button only opens the browser and is left out.

    The DOM itself (elements, icons, styles) is not modelled, only what
    each row shows; the rows come in the order of [map_to_list], not in
    the insertion order of [Object.entries]. *)

From stdpp Require Import pretty.
From S2P Require Import Prelude Settings StateManager Markdown GitHub Remote Main.

Module View.

Import Settings.

Import GitHub StateManager Remote Main.

Definition CHECK_COOLDOWN : Z := 30000.

Record ViewWorld (R : Type) := mkViewWorld {
  vw_world : World R;
  lastCheckTime : Z;
}.
Arguments mkViewWorld {R}.
Arguments vw_world {R}.
Arguments lastCheckTime {R}.

Definition set_world {R} (w : World R) (v : ViewWorld R) : ViewWorld R := mkViewWorld w (lastCheckTime v).
Definition set_lastCheckTime {R} (t : Z) (v : ViewWorld R) : ViewWorld R := mkViewWorld (vw_world v) t.

Abbreviation VM R := (ST (ViewWorld R) JsError).

(** A computation of the plugin's world run from the view. *)
Definition on_world {R A} (m : WM R A) : VM R A := st_focus vw_world set_world m.

(** What one row of the table shows. *)
Record Row := mkRow {
  row_path : string;
  row_uuid : string;
  row_file : option string;       (** the file's name, or [None]: shown as missing *)
  row_status : Status;
  row_links_enabled : bool;       (** copy and open buttons *)
  row_unshare_enabled : bool;
  row_url : string;
}.

(** [file.name]: the last segment of the path. *)
Fixpoint last_segment_go (s acc : string) : string :=
  match s with
  | EmptyString => acc
  | String c r => if bool_decide (c = "/"%char) then last_segment_go r "" else last_segment_go r (acc +:+ String c "")
  end.
Definition last_segment (s : string) : string := last_segment_go s "".

Section Draw.

Context `{RemoteApi R}.
Variable app : App.

Definition render_row (s : ObsiGithubSettings) (path uuid : string) (status : Status) : Row :=
  mkRow path uuid
        (if bool_decide (is_Some (vault app !! path)) then Some (last_segment path) else None)
        status
        (negb (bool_decide (status = unshared) || negb (js_truthy (owner s)) || negb (js_truthy (repo s))))
        (negb (bool_decide (status = unshared)))
        (github_url s (note_path uuid)).

(** One iteration of [for (const [path, uuid] of entries)]. *)
Definition draw_row (doCheck : bool) (path uuid : string) : WM R Row :=
  let* p := st_gets w_plugin in
  let status0 := getStatus path p in
  let* status :=
    if doCheck then
      st_catch (let* exists_ := checkPathExists uuid in
                let st := if exists_ then published else unshared in
                do* on_plugin (updateStatus path st) in st_ret st)
               (fun _ => st_ret status0)
    else st_ret status0 in
  let* s := get_settings in
  st_ret (render_row s path uuid status).

Fixpoint draw_rows (doCheck : bool) (entries : list (string * string)) : WM R (list Row) :=
  match entries with
  | [] => st_ret []
  | (path, uuid) :: rest =>
      let* row := draw_row doCheck path uuid in
      let* rows := draw_rows doCheck rest in
      st_ret (row :: rows)
  end.

(** [drawList(container, doCheck)]: no row when [fileMap] is empty
    ("No published notes found."). *)
Definition drawList (doCheck : bool) : WM R (list Row) :=
  let* entries := st_gets (fun w => map_to_list (fileMap (settings (w_plugin w)))) in
  if bool_decide (entries = []) then st_ret [] else draw_rows doCheck entries.

(** [draw()]: the heading and the toolbar are DOM only; the list is
    drawn with [doCheck] at its default, [false].  [onOpen()] draws. *)
Definition draw : WM R (list Row) := drawList false.
Definition onOpen : WM R (list Row) := draw.

(** [Math.ceil((CHECK_COOLDOWN - (now - lastCheckTime)) / 1000)] for a
    positive numerator. *)
Definition remaining_seconds (elapsed : Z) : Z := (CHECK_COOLDOWN - elapsed + 999) / 1000.

(** [handleCheck(btn)] at time [now]; the list container is drawn. *)
Definition handleCheck (now : Z) : VM R unit :=
  let* last := st_gets lastCheckTime in
  if bool_decide (now - last < CHECK_COOLDOWN)%Z then
    on_world (notice ("Please wait " +:+ pretty (remaining_seconds (now - last)) +:+
                      "s before checking again."))
  else
    do* st_modify (set_lastCheckTime now) in
    do* on_world (drawList true) in
    on_world (notice "Status check complete.").

(** The row's "Unshare (Remote Delete)" button. *)
Definition unshare_click (path uuid : string) (confirmed : bool) : WM R unit :=
  if negb confirmed then st_ret tt else
  do* notice ("Deleting remote files for " +:+ path +:+ "...") in
  let* success := deletePath uuid delete_message in
  if success then
    do* notice "Unshare complete." in
    do* on_plugin (updateStatus path unshared) in
    do* drawList false in st_ret tt
  else notice "Unshare failed. See console.".

(** The row's "Forget (Local)" button. *)
Definition forget_click (path : string) (confirmed : bool) : WM R unit :=
  if negb confirmed then st_ret tt else
  do* on_plugin (removeUUID path) in
  do* notice "Record removed." in
  do* drawList false in st_ret tt.

(** The row's "Copy GitHub Link" button, with the [remoteUrl] its row
    was drawn with ([row_url]): no [try], so a refused write rejects
    the handler. *)
Definition copy_click (url : string) : WM R unit :=
  do* writeText url in notice "Link copied to clipboard".

(** Without the live check the list is drawn from the settings alone:
    the world is unchanged.  This is what [refreshManagementView] and
    the redraws after Unshare and Forget do. *)
Lemma draw_rows_redraw entries (w : World R) : exists rows, draw_rows false entries w = (Ok rows, w).
Proof.
  induction entries as [|[path uuid] entries [rows IH]]; [by eexists|].
  cbn [draw_rows]. unfold draw_row, st_bind at 1 2 3, get_settings, st_gets, st_ret. cbn.
  unfold st_bind. rewrite IH. by eexists.
Qed.

Lemma drawList_redraw (w : World R) : exists rows, drawList false w = (Ok rows, w).
Proof.
  unfold drawList, st_bind at 1, st_gets. case_bool_decide; [by eexists|apply draw_rows_redraw].
Qed.

(** [refreshManagementView()] of [src/main.ts]: each of the [views]
    open management views redraws its list, without the live check. *)
Definition refreshManagementView (views : nat) : WM R unit :=
  st_for (seq 0 views) (fun _ => do* drawList false in st_ret tt).

(** The refresh changes nothing, which is why [publishNote] and
    [removeShare_click] in [Main.v] leave it out. *)
Lemma refreshManagementView_noop views (w : World R) : refreshManagementView views w = (Ok tt, w).
Proof.
  unfold refreshManagementView. generalize (seq 0 views). intros l. induction l as [|x l IH]; [done|].
  cbn [st_for]. destruct (drawList_redraw w) as [rows E].
  unfold st_bind at 1. rewrite st_bind_ok with (a := rows) (s' := w) by exact E. exact IH.
Qed.

(** A "Check Now" after the cooldown: the world is the one the live
    check leaves (plus a notice) and the check time is recorded. *)
Lemma handleCheck_world now (v : ViewWorld R) :
  (lastCheckTime v + CHECK_COOLDOWN <= now)%Z ->
  w_plugin (vw_world (st_state (handleCheck now) v)) = w_plugin (st_state (drawList true) (vw_world v)) /\
  w_remote (vw_world (st_state (handleCheck now) v)) = w_remote (st_state (drawList true) (vw_world v)) /\
  lastCheckTime (st_state (handleCheck now) v) = now.
Proof.
  intros Hc.
  assert (bool_decide (now - lastCheckTime v < CHECK_COOLDOWN)%Z = false) as Eb
    by (apply bool_decide_false; unfold CHECK_COOLDOWN in *; lia).
  assert (handleCheck now v =
          let '(r, w1) := drawList true (vw_world v) in
          match r with
          | Ok _ => (Ok tt, mkViewWorld (add_notice "Status check complete." w1) now)
          | Throw e => (Throw e, mkViewWorld w1 now)
          end) as E.
  { unfold handleCheck, st_bind at 1, st_gets. cbn beta. rewrite Eb.
    unfold st_bind, st_modify, on_world, st_focus. cbn [set_lastCheckTime vw_world].
    destruct (drawList true (vw_world v)) as [[rows|e] w1]; reflexivity. }
  unfold st_state. rewrite E. destruct (drawList true (vw_world v)) as [[rows|e] w1]; cbn; auto.
Qed.

End Draw.

(** ** The live check *)

Section LiveCheck.

Context `{RemoteApi R}.
Variable app : App.

Lemma draw_row_check (I : World R -> Prop) (f : string -> bool) path uuid (w : World R) :
  (forall w uuid, I w -> checkPathExists uuid w = (Ok (f uuid), w)) ->
  I w ->
  draw_row app true path uuid w =
  (Ok (render_row app (settings (st_state (updateStatus path (if f uuid then published else unshared)) (w_plugin w)))
                  path uuid (if f uuid then published else unshared)),
   set_plugin (st_state (updateStatus path (if f uuid then published else unshared)) (w_plugin w)) w).
Proof.
  intros Hc Hw. unfold draw_row, st_bind at 1, st_gets. cbn beta iota.
  unfold st_catch, st_bind at 1. cbn beta. rewrite (st_bind_ok _ _ _ _ _ (Hc w uuid Hw)).
  rewrite st_bind_ok with (a := tt)
    (s' := set_plugin (st_state (updateStatus path (if f uuid then published else unshared)) (w_plugin w)) w)
    by (rewrite on_plugin_run; by rewrite (proj1 (updateStatus_effect _ _ _))).
  reflexivity.
Qed.

(** The loop over the records, with a check answering [f]. *)
Lemma draw_rows_check (I : World R -> Prop) (f : string -> bool) L (w : World R) :
  (forall w uuid, I w -> checkPathExists uuid w = (Ok (f uuid), w)) ->
  (forall w path st, I w -> I (set_plugin (st_state (updateStatus path st) (w_plugin w)) w)) ->
  NoDup L.*1 -> I w ->
  I (st_state (draw_rows app true L) w) /\
  (forall path uuid, (path, uuid) ∈ L ->
     getStatus path (w_plugin (st_state (draw_rows app true L) w)) = if f uuid then published else unshared) /\
  (forall path, path ∉ L.*1 ->
     getStatus path (w_plugin (st_state (draw_rows app true L) w)) = getStatus path (w_plugin w)) /\
  fileMap (settings (w_plugin (st_state (draw_rows app true L) w))) = fileMap (settings (w_plugin w)) /\
  w_remote (st_state (draw_rows app true L) w) = w_remote w.
Proof.
  intros Hc Hi. revert w. induction L as [|[path uuid] L IH]; intros w Hnd Hw; [cbn; set_solver|].
  apply NoDup_cons in Hnd as [Hnin Hnd].
  set (st := if f uuid then published else unshared).
  set (w1 := set_plugin (st_state (updateStatus path st) (w_plugin w)) w).
  destruct (updateStatus_effect path st (w_plugin w)) as (_ & Hs1 & Hm1 & Ho1).
  destruct (IH w1 Hnd (Hi w path st Hw)) as (HI & Hin & Hout & Hm & Hr).
  assert (st_state (draw_rows app true ((path, uuid) :: L)) w = st_state (draw_rows app true L) w1)
    as ->.
  { unfold st_state. cbn [draw_rows].
    rewrite (st_bind_ok _ _ _ _ _ (draw_row_check I f path uuid w Hc Hw)).
    unfold st_bind. by destruct (draw_rows app true L _) as [[] ?]. }
  split_and!; [done| | |rewrite Hm; exact Hm1|exact Hr].
  - intros p u [[= -> ->]|Hpu]%elem_of_cons; [|by apply Hin].
    rewrite Hout by done. exact Hs1.
  - intros p Hp. rewrite Hout by set_solver. apply Ho1. set_solver.
Qed.

Lemma drawList_check (I : World R -> Prop) (f : string -> bool) (w : World R) :
  (forall w uuid, I w -> checkPathExists uuid w = (Ok (f uuid), w)) ->
  (forall w path st, I w -> I (set_plugin (st_state (updateStatus path st) (w_plugin w)) w)) ->
  I w ->
  (forall path uuid, fileMap (settings (w_plugin w)) !! path = Some uuid ->
     getStatus path (w_plugin (st_state (drawList app true) w)) = if f uuid then published else unshared) /\
  fileMap (settings (w_plugin (st_state (drawList app true) w))) = fileMap (settings (w_plugin w)) /\
  w_remote (st_state (drawList app true) w) = w_remote w.
Proof.
  intros Hc Hi Hw.
  assert (st_state (drawList app true) w =
          if bool_decide (map_to_list (fileMap (settings (w_plugin w))) = []) then w
          else st_state (draw_rows app true (map_to_list (fileMap (settings (w_plugin w))))) w) as ->.
  { unfold drawList, st_state, st_bind, st_gets. by case_bool_decide. }
  case_bool_decide as Hn.
  - split_and!; [|done|done]. intros path uuid Hp.
    apply (elem_of_map_to_list (M := gmap string)) in Hp. rewrite Hn in Hp. set_solver.
  - destruct (draw_rows_check I f (map_to_list (fileMap (settings (w_plugin w)))) w Hc Hi
                (NoDup_fst_map_to_list _) Hw) as (_ & Hin & _ & Hm & Hr).
    split_and!; [|done|done]. intros path uuid Hp. apply Hin.
    by apply (elem_of_map_to_list (M := gmap string)).
Qed.

(** C35: the "Check Now" pass does without a token what a missing note
    does.  When the service has no client (no token was ever given),
    [checkPathExists] answers [false] without asking, so the live check
    marks every recorded note [unshared] and stores that status, though
    nothing was looked at remotely.  The spec asks for a [NotConfigured]
    failure instead of a "not found" answer. *)
Theorem drawList_no_client (w : World R) svc :
  githubService (w_plugin w) = Some svc -> octokit svc = None ->
  js_truthy (githubToken (settings (w_plugin w))) = false ->
  forall path uuid, fileMap (settings (w_plugin w)) !! path = Some uuid ->
    getStatus path (w_plugin (st_state (drawList app true) w)) = unshared.
Proof.
  intros Hs Ho Ht path uuid Hp.
  set (I := fun w' : World R => githubService (w_plugin w') = Some svc /\
                                js_truthy (githubToken (settings (w_plugin w'))) = false).
  refine (proj1 (drawList_check I (fun _ => false) w _ _ _) path uuid Hp).
  - intros w' u [Hs' _]. by rewrite (checkPathExists_run u w' svc Hs'), Ho.
  - intros w' q st [Hs' Ht'].
    assert (synced (w_plugin w')) as Hsy by (intros svc' _ T; by rewrite Ht' in T).
    split; [|exact Ht']. cbn [w_plugin set_plugin].
    by rewrite (proj1 (updateStatus_service q st (w_plugin w') Hsy)).
  - by split.
Qed.

End LiveCheck.

(** ** The two "Copy GitHub Link" handlers *)

Section CopyLink.

Context `{RemoteApi R}.
Variable app : App.

(** C36: copying a link when the browser refuses the write.  The
    publication catches the refusal and says so, but neither "Copy
    GitHub Link" handler (the file menu's, the view's) has a [try]: on
    a row drawn from the current settings the two run the same steps on
    the same URL; with the write allowed they
    put the URL on the clipboard and say "Link copied to clipboard",
    with the write refused they reject with the clipboard's error and
    leave the world as it was, so the user is told nothing. *)
Theorem copy_link_handlers path uuid st (w : World R) :
  copy_click (row_url (render_row app (settings (w_plugin w)) path uuid st)) w = copyLink_click uuid w /\
  copyLink_click uuid w =
    if w_clipboard_ok w
    then (Ok tt, add_notice "Link copied to clipboard"
                   (set_clipboard (github_url (settings (w_plugin w)) (note_path uuid)) w))
    else (Throw clipboard_error, w).
Proof.
  unfold copy_click, copyLink_click, get_settings, st_gets, st_bind at 1.
  split; [reflexivity|]. unfold st_bind, writeText. by destruct (w_clipboard_ok w).
Qed.

End CopyLink.

(** ** Against the in-memory repository, and the cooldown *)

Section ViewProps.

Variable app : App.

(** What the live check does against the in-memory repository. *)
Lemma drawList_check_answer (w : World MemRemote) tok :
  reaches w tok -> synced (w_plugin w) ->
  (forall path uuid, fileMap (settings (w_plugin w)) !! path = Some uuid ->
     getStatus path (w_plugin (st_state (drawList app true) w)) =
       if occupied uuid (remote_files w) then published else unshared) /\
  fileMap (settings (w_plugin (st_state (drawList app true) w))) = fileMap (settings (w_plugin w)) /\
  remote_files (st_state (drawList app true) w) = remote_files w.
Proof.
  intros Hr Hsy.
  set (I := fun w' : World MemRemote => reaches w' tok /\ synced (w_plugin w') /\ w_remote w' = w_remote w).
  destruct (drawList_check app I (fun u => occupied u (remote_files w)) w) as (H1 & H2 & H3).
  - intros w' u (Hr' & _ & Hrem). rewrite (checkPathExists_answer u w' tok Hr').
    unfold remote_files. by rewrite Hrem.
  - intros w' q st (((svc & Hs & Ho) & Ha) & Hsy' & Hrem).
    destruct (updateStatus_service q st (w_plugin w') Hsy') as [Hsv Hsy''].
    split_and!; [|exact Hsy''|exact Hrem].
    split; [exists svc; split; [cbn [w_plugin set_plugin]; by rewrite Hsv|exact Ho]|exact Ha].
  - done.
  - split_and!; [exact H1|exact H2|unfold remote_files; by rewrite H3].
Qed.

(** C24: the live check records what the repository holds.  When the
    service reaches the repository with the settings' token, "Check
    Now" sets the status of every recorded note to [published] when
    something is stored at or below its id and to [unshared] otherwise,
    and changes neither the records nor the repository. *)
Theorem drawList_check_records (w : World MemRemote) tok :
  reaches w tok -> synced (w_plugin w) ->
  (forall path uuid, fileMap (settings (w_plugin w)) !! path = Some uuid ->
     getStatus path (w_plugin (st_state (drawList app true) w)) =
       if occupied uuid (remote_files w) then published else unshared) /\
  fileMap (settings (w_plugin (st_state (drawList app true) w))) = fileMap (settings (w_plugin w)) /\
  remote_files (st_state (drawList app true) w) = remote_files w.
Proof. apply drawList_check_answer. Qed.

(** C29: the cooldown.  After a "Check Now" that ran at time [now1], a
    second click at any [now2] less than 30 seconds later only shows
    "Please wait Ns", with [N] between 1 and 30: no request, no status
    change. *)
Theorem handleCheck_cooldown (now1 now2 : Z) (v : ViewWorld MemRemote) :
  (lastCheckTime v + CHECK_COOLDOWN <= now1)%Z -> (now1 <= now2 < now1 + CHECK_COOLDOWN)%Z ->
  let v1 := st_state (handleCheck app now1) v in
  lastCheckTime v1 = now1 /\
  handleCheck app now2 v1 =
    (Ok tt, set_world (add_notice ("Please wait " +:+ pretty (remaining_seconds (now2 - now1)) +:+
                                   "s before checking again.") (vw_world v1)) v1) /\
  (1 <= remaining_seconds (now2 - now1) <= 30)%Z.
Proof.
  intros H1 H2 v1.
  assert (lastCheckTime v1 = now1) as Hl.
  { subst v1. unfold handleCheck, st_state, st_bind at 1, st_gets. cbn beta.
    rewrite bool_decide_false by (unfold CHECK_COOLDOWN in *; lia).
    unfold st_bind, st_modify, on_world, st_focus. cbn.
    case_bool_decide; [reflexivity|].
    destruct (draw_rows app true _ _) as [[] ?]; reflexivity. }
  split_and!; [exact Hl| |unfold remaining_seconds, CHECK_COOLDOWN in *..].
  2: apply Z.div_le_lower_bound; lia.
  2: enough ((30000 - (now2 - now1) + 999) / 1000 < 31)%Z by lia.
  2: apply Z.div_lt_upper_bound; lia.
  unfold handleCheck, st_bind at 1, st_gets. cbn beta. rewrite Hl.
  rewrite bool_decide_true by (unfold CHECK_COOLDOWN in *; lia). reflexivity.
Qed.

End ViewProps.

(** ** Concrete runs *)

Definition tokenless_world : World MemRemote :=
  mkWorld (mkPlugin (mkSettings "" "alice" "notes" "main" "assets"
                                (<["Notes.md" := "u1"]> ∅) (<["Notes.md" := published]> ∅))
                    None (Some (mkService None)) 0)
          (demo_repo (<["u1/note.md" := "# N"]> ∅)) [] None true.

Lemma drawList_no_client_witness :
  getStatus "Notes.md" (w_plugin (st_state (drawList demo_app true) tokenless_world)) = unshared.
Proof. by apply (drawList_no_client demo_app tokenless_world (mkService None) eq_refl eq_refl eq_refl _ "u1"). Defined.

Lemma published_synced : synced (w_plugin published_world).
Proof. intros svc [= <-] _. reflexivity. Qed.

Lemma drawList_check_records_witness :
  getStatus "Notes.md" (w_plugin (st_state (drawList demo_app true) published_world)) = published.
Proof.
  rewrite (proj1 (drawList_check_records demo_app published_world "tok" published_reaches published_synced)
             "Notes.md" "u1" eq_refl).
  vm_compute. reflexivity.
Defined.

Lemma handleCheck_cooldown_witness :
  handleCheck demo_app 110000 (st_state (handleCheck demo_app 100000) (mkViewWorld published_world 0)) =
    (Ok tt, set_world (add_notice ("Please wait " +:+ pretty (remaining_seconds (110000 - 100000)) +:+
                                   "s before checking again.")
                                  (vw_world (st_state (handleCheck demo_app 100000) (mkViewWorld published_world 0))))
                      (st_state (handleCheck demo_app 100000) (mkViewWorld published_world 0))) /\
  remaining_seconds (110000 - 100000) = 20%Z.
Proof.
  split; [|reflexivity].
  apply (handleCheck_cooldown demo_app 100000 110000 (mkViewWorld published_world 0)); unfold CHECK_COOLDOWN; cbn; lia.
Defined.

End View.
