(* ===== verification/Workspace.v ===== *)
(** * Workspace: opening the management view from the ribbon

    Models [ObsiGithubPlugin.activateView] of [src/main.ts] (run by the
    ribbon icon registered in [onload]), the view registration of
    [onload] ([registerView] with the [ManagementView] factory) and the
    parts of [src/ui/management_view.ts] the workspace sees: the type
    [MANAGEMENT_VIEW_TYPE], [getViewType] and the constructor, whose field
    initialiser starts [lastCheckTime] at 0.

    The Obsidian workspace is the state [Ws]: its leaves in workspace
    order, each showing a view, the active leaf and the leaves revealed
    so far.  [getLeavesOfType], [setViewState] and [revealLeaf] are
    definitions over it; [getRightLeaf(false)] is left to the
    [WorkspaceApi] interface, whose laws say what [activateView] relies
    on: a leaf it returns exists, and it creates or destroys no
    management view.  Two instances discharge the laws: a sidebar that
    splits off a new empty leaf, and one that has no leaf to give.

    The theorems: an existing view is reused as it is (its cooldown
    clock included), otherwise a fresh view is opened in the right
    leaf, or nothing happens when there is none; the ribbon never opens
    a second management view, and a second click changes no leaf. *)

From S2P Require Import Prelude.

Module Workspace.

Definition MANAGEMENT_VIEW_TYPE : string := "obsigithub-management-view".

(** What a leaf shows: a view of the core or of another plugin, known
    by its type, or a [ManagementView] with its own [lastCheckTime]. *)
Inductive LeafView :=
  | OtherView (ty : string)
  | ManagementView (lastCheckTime : Z).

#[export] Instance LeafView_eq_dec : EqDecision LeafView.
Proof. solve_decision. Defined.

(** [ManagementView.getViewType()]; any other view answers its type. *)
Definition getViewType (v : LeafView) : string :=
  match v with
  | OtherView ty => ty
  | ManagementView _ => MANAGEMENT_VIEW_TYPE
  end.

(** [new ManagementView(leaf, plugin)]: [lastCheckTime: number = 0]. *)
Definition new_ManagementView : LeafView := ManagementView 0.

(** The view factories registered with the workspace: [onload] registers
    [MANAGEMENT_VIEW_TYPE]; any other type is some other view. *)
Definition view_of_type (ty : string) : LeafView :=
  if bool_decide (ty = MANAGEMENT_VIEW_TYPE) then new_ManagementView else OtherView ty.

Record Ws := mkWs {
  leaves : list LeafView;
  active : option nat;
  revealed : list nat;
}.

Definition WsM (A : Type) : Type := ST Ws unit A.

(** [workspace.getLeavesOfType(ty)]: the leaves showing a view of that
    type, in workspace order. *)
Fixpoint leaves_of_type_from (ty : string) (n : nat) (l : list LeafView) : list nat :=
  match l with
  | [] => []
  | v :: l' =>
      if bool_decide (getViewType v = ty) then n :: leaves_of_type_from ty (S n) l'
      else leaves_of_type_from ty (S n) l'
  end.

Definition getLeavesOfType (ty : string) (ws : Ws) : list nat :=
  leaves_of_type_from ty 0 (leaves ws).

(** [leaf.setViewState({ type, active })]: the leaf now shows a view
    built by the factory of [type]. *)
Definition setViewState (i : nat) (ty : string) (act : bool) : WsM unit :=
  st_modify (fun ws => mkWs (<[i := view_of_type ty]> (leaves ws))
                            (if act then Some i else active ws) (revealed ws)).

(** [workspace.revealLeaf(leaf)]. *)
Definition revealLeaf (i : nat) : WsM unit :=
  st_modify (fun ws => mkWs (leaves ws) (active ws) (revealed ws ++ [i])).

(** The management views of a workspace, with their state. *)
Definition management_views (ws : Ws) : list LeafView :=
  filter (fun v => getViewType v = MANAGEMENT_VIEW_TYPE) (leaves ws).

(** [workspace.getRightLeaf(false)], which Obsidian implements. *)
Class WorkspaceApi := {
  getRightLeaf : Ws -> option nat * Ws
}.

Class WorkspaceLaws `{WorkspaceApi} := {
  getRightLeaf_valid ws i ws' :
    getRightLeaf ws = (Some i, ws') -> i < length (leaves ws');
  getRightLeaf_views ws o ws' :
    getRightLeaf ws = (o, ws') -> management_views ws' = management_views ws
}.

Section Activate.
Context `{WorkspaceApi}.

Definition getRightLeaf_m : WsM (option nat) :=
  fun ws => let '(o, ws') := getRightLeaf ws in (Ok o, ws').

(** [activateView()]: reuse the first leaf showing the view, or open the
    view in the right sidebar's leaf; reveal the leaf if there is one. *)
Definition activateView : WsM unit :=
  let* ls := st_gets (getLeavesOfType MANAGEMENT_VIEW_TYPE) in
  let* leaf :=
    match ls with
    | i :: _ => st_ret (Some i)
    | [] =>
        let* rightLeaf := getRightLeaf_m in
        match rightLeaf with
        | Some i => do* setViewState i MANAGEMENT_VIEW_TYPE true in st_ret (Some i)
        | None => st_ret None
        end
    end in
  match leaf with
  | Some i => revealLeaf i
  | None => st_ret tt
  end.

(** The ribbon icon's callback. *)
Definition ribbon_click : WsM unit := activateView.

End Activate.

(** ** The workspace queries *)

Lemma leaves_of_type_from_nil ty n l :
  leaves_of_type_from ty n l = [] <-> filter (fun v => getViewType v = ty) l = [].
Proof.
  revert n. induction l as [|v l IH]; intros n; [done|].
  rewrite filter_cons. cbn [leaves_of_type_from]. case_bool_decide; [by rewrite decide_True|].
  rewrite decide_False by done. apply IH.
Qed.

Lemma leaves_of_type_from_head ty n l i rest :
  leaves_of_type_from ty n l = i :: rest ->
  exists v, l !! (i - n) = Some v /\ getViewType v = ty /\ n <= i.
Proof.
  revert n. induction l as [|v l IH]; intros n H; [done|]. cbn [leaves_of_type_from] in H.
  case_bool_decide as Hv.
  - injection H as <- _. exists v. by rewrite Nat.sub_diag.
  - destruct (IH _ H) as (w & Hw & Ht & Hle). exists w.
    replace (i - n) with (S (i - S n)) by lia. split_and!; [done|done|lia].
Qed.

Lemma no_management_leaf ws :
  getLeavesOfType MANAGEMENT_VIEW_TYPE ws = [] <-> management_views ws = [].
Proof. apply leaves_of_type_from_nil. Qed.

Lemma first_management_leaf ws i rest :
  getLeavesOfType MANAGEMENT_VIEW_TYPE ws = i :: rest ->
  exists v, leaves ws !! i = Some v /\ getViewType v = MANAGEMENT_VIEW_TYPE.
Proof.
  intros H. destruct (leaves_of_type_from_head _ _ _ _ _ H) as (v & Hv & Ht & _).
  rewrite Nat.sub_0_r in Hv. by exists v.
Qed.

(** Writing a management view into a valid leaf of a list that shows
    none leaves exactly that one. *)
Lemma management_insert_only l i x :
  filter (fun v => getViewType v = MANAGEMENT_VIEW_TYPE) l = [] -> i < length l ->
  getViewType x = MANAGEMENT_VIEW_TYPE ->
  filter (fun v => getViewType v = MANAGEMENT_VIEW_TYPE) (<[i := x]> l) = [x].
Proof.
  revert i. induction l as [|v l IH]; intros i Hl Hi Hx; cbn in Hi; [lia|].
  rewrite filter_cons in Hl. destruct (decide (getViewType v = MANAGEMENT_VIEW_TYPE)) as [Hv|Hv]; [done|].
  destruct i as [|i]; cbn [insert list_insert]; rewrite filter_cons.
  - rewrite decide_True by done. by rewrite Hl.
  - rewrite decide_False by done. apply IH; [done|lia|done].
Qed.

Section ActivateRuns.
Context `{WorkspaceApi}.

(** The three runs of [activateView], one per branch. *)
Lemma activateView_reuse ws i rest :
  getLeavesOfType MANAGEMENT_VIEW_TYPE ws = i :: rest ->
  activateView ws = (Ok tt, mkWs (leaves ws) (active ws) (revealed ws ++ [i])).
Proof. intros E. unfold activateView, st_bind, st_gets. by rewrite E. Qed.

Lemma activateView_open ws i ws' :
  getLeavesOfType MANAGEMENT_VIEW_TYPE ws = [] -> getRightLeaf ws = (Some i, ws') ->
  activateView ws =
    (Ok tt, mkWs (<[i := new_ManagementView]> (leaves ws')) (Some i) (revealed ws' ++ [i])).
Proof. intros E R. unfold activateView, st_bind, st_gets, getRightLeaf_m. by rewrite E, R. Qed.

Lemma activateView_none ws ws' :
  getLeavesOfType MANAGEMENT_VIEW_TYPE ws = [] -> getRightLeaf ws = (None, ws') ->
  activateView ws = (Ok tt, ws').
Proof. intros E R. unfold activateView, st_bind, st_gets, getRightLeaf_m. by rewrite E, R. Qed.

End ActivateRuns.

(** [n] clicks on the ribbon icon, one after another. *)
Definition ribbon_clicks `{WorkspaceApi} (n : nat) : WsM unit :=
  st_for (repeat tt n) (fun _ => ribbon_click).

(** ** What [activateView] guarantees, for any workspace obeying the laws *)

Section Laws.
Context `{WorkspaceLaws}.

(** The management views after one click: the same when there were
    some, the fresh one when the sidebar gave a leaf, the same (none)
    otherwise. *)
Lemma activateView_views ws :
  management_views (st_state activateView ws) = management_views ws \/
  (management_views ws = [] /\ management_views (st_state activateView ws) = [new_ManagementView]).
Proof.
  unfold st_state. destruct (getLeavesOfType MANAGEMENT_VIEW_TYPE ws) as [|i rest] eqn:E.
  - destruct (getRightLeaf ws) as [[i|] ws'] eqn:R.
    + right. rewrite (activateView_open ws i ws' E R). cbn [snd].
      apply no_management_leaf in E. split; [done|].
      apply management_insert_only; [|by eapply getRightLeaf_valid|done].
      rewrite <- E. by eapply getRightLeaf_views.
    + left. rewrite (activateView_none ws ws' E R). by eapply getRightLeaf_views.
  - left. by rewrite (activateView_reuse ws i rest E).
Qed.

(** C16: the ribbon never opens a second management view.  From a
    workspace showing at most one management view, any number of
    clicks on the ribbon icon leaves at most one: [activateView] opens
    a view only when [getLeavesOfType] finds none. *)
Theorem ribbon_at_most_one_view n ws :
  length (management_views ws) <= 1 ->
  length (management_views (st_state (ribbon_clicks n) ws)) <= 1.
Proof.
  unfold ribbon_clicks.
  apply (st_for_invariant (fun w => length (management_views w) <= 1)).
  intros _ w _ Hw. unfold ribbon_click.
  destruct (activateView_views w) as [->|[_ ->]]; cbn; lia.
Qed.

(** C37: a click with the view already open reuses it.  When a leaf shows
    the management view, the ribbon changes no leaf (the view keeps its
    [lastCheckTime], so the "Check Now" cooldown survives) nor the
    active leaf, and reveals the first such leaf. *)
Theorem ribbon_reuses_view ws i rest :
  getLeavesOfType MANAGEMENT_VIEW_TYPE ws = i :: rest ->
  let ws' := st_state ribbon_click ws in
  leaves ws' = leaves ws /\ active ws' = active ws /\ last (revealed ws') = Some i /\
  exists v, leaves ws' !! i = Some v /\ getViewType v = MANAGEMENT_VIEW_TYPE.
Proof.
  intros E ws'. subst ws'. unfold ribbon_click, st_state. rewrite (activateView_reuse ws i rest E).
  cbn. split_and!; [done|done|apply last_snoc|]. by eapply first_management_leaf.
Qed.

(** C38: a click with no view open opens a fresh one.  When no leaf shows
    the management view and [getRightLeaf(false)] gives leaf [i], that
    leaf now shows a new [ManagementView] (its [lastCheckTime] 0), it
    is the active leaf and the one revealed, and it is the only
    management view of the workspace. *)
Theorem ribbon_opens_view ws i ws' :
  getLeavesOfType MANAGEMENT_VIEW_TYPE ws = [] -> getRightLeaf ws = (Some i, ws') ->
  let w := st_state ribbon_click ws in
  leaves w !! i = Some (ManagementView 0) /\ active w = Some i /\ last (revealed w) = Some i /\
  management_views w = [ManagementView 0].
Proof.
  intros E R w. subst w. unfold ribbon_click, st_state. rewrite (activateView_open ws i ws' E R).
  pose proof (getRightLeaf_valid _ _ _ R) as Hi. cbn [snd leaves active revealed].
  split_and!; [by apply list_lookup_insert_eq|done|apply last_snoc|].
  apply management_insert_only; [|done|done].
  change (management_views ws' = []). rewrite (getRightLeaf_views _ _ _ R). by apply no_management_leaf.
Qed.

End Laws.

(** ** Two sidebars *)

(** A sidebar that splits off a new empty leaf at the end. *)
Definition empty_leaf : LeafView := OtherView "empty".

#[export] Instance split_right : WorkspaceApi := {
  getRightLeaf ws := (Some (length (leaves ws)),
                      mkWs (leaves ws ++ [empty_leaf]) (active ws) (revealed ws))
}.

#[export] Instance split_right_laws : @WorkspaceLaws split_right.
Proof.
  split.
  - intros ws i ws' [= <- <-]. cbn. rewrite length_app. cbn. lia.
  - intros ws o ws' [= _ <-]. unfold management_views. cbn [leaves]. rewrite filter_app.
    assert (filter (fun v => getViewType v = MANAGEMENT_VIEW_TYPE) [empty_leaf] = []) as ->
      by reflexivity.
    by rewrite app_nil_r.
Qed.

(** A sidebar with no leaf to give. *)
#[local] Instance no_right_leaf : WorkspaceApi := { getRightLeaf ws := (None, ws) }.

#[local] Instance no_right_leaf_laws : @WorkspaceLaws no_right_leaf.
Proof. split; [by intros ? ? ? [=]|by intros ? ? ? [= _ <-]]. Qed.

(** With no leaf to give, a click with no view open does nothing. *)
Lemma ribbon_without_sidebar ws :
  getLeavesOfType MANAGEMENT_VIEW_TYPE ws = [] -> @ribbon_click no_right_leaf ws = (Ok tt, ws).
Proof. intros E. by apply activateView_none. Qed.

(** ** Concrete workspaces *)

Definition editor_only : Ws := mkWs [OtherView "markdown"] (Some 0) [].
Definition with_view : Ws := mkWs [OtherView "markdown"; ManagementView 1700000000000] (Some 0) [].

Lemma ribbon_at_most_one_view_witness :
  length (management_views editor_only) <= 1 /\
  length (management_views (st_state (@ribbon_clicks split_right 3) editor_only)) <= 1 /\
  leaves (st_state (@ribbon_clicks split_right 3) editor_only) =
    [OtherView "markdown"; ManagementView 0].
Proof.
  assert (length (management_views editor_only) <= 1) as H by (vm_compute; lia).
  split_and!; [exact H|exact (@ribbon_at_most_one_view split_right split_right_laws 3 editor_only H)|].
  vm_compute; reflexivity.
Defined.

Lemma ribbon_reuses_view_witness :
  let ws' := st_state (@ribbon_click split_right) with_view in
  leaves ws' = leaves with_view /\ active ws' = active with_view /\ last (revealed ws') = Some 1 /\
  exists v, leaves ws' !! 1 = Some v /\ getViewType v = MANAGEMENT_VIEW_TYPE.
Proof. apply (@ribbon_reuses_view split_right with_view 1 []). reflexivity. Defined.

Lemma ribbon_opens_view_witness :
  let w := st_state (@ribbon_click split_right) editor_only in
  leaves w !! 1 = Some (ManagementView 0) /\ active w = Some 1 /\ last (revealed w) = Some 1 /\
  management_views w = [ManagementView 0].
Proof.
  apply (@ribbon_opens_view split_right split_right_laws editor_only 1
           (mkWs [OtherView "markdown"; empty_leaf] (Some 0) [])); reflexivity.
Defined.

End Workspace.
