(* ===== verification/System.v ===== *)
(** * System: the plugin as a state machine

    Every way the user can act on the plugin is an [action]: reloading
    it ([onload]), editing a setting, the publish command on the active
    file ([publishCurrentNote]), a click on an item of the file menu
    ([menu_click]: only the items the menu offers, with the id read
    when it opens) and the four buttons of the management view (Check
    Now, Unshare, Forget, and Copy Link with the URL its row shows).
    [run_action] runs the corresponding handler of [Settings.v],
    [Main.v] or [View.v] on the [View.ViewWorld]; [step] relates a world
    to the world after one action, or after a change of the repository
    made outside the plugin ([step_remote]: the repository is shared),
    and [reachable] closes it under any sequence of steps.  The remote
    is any [RemoteApi].

    The handlers reach the plugin object only through the operations
    of the store and of the settings tab.  [StoreInv Q] says that [Q] is
    kept by each of them; [reachable_store_inv] proves, by induction on
    the steps and [preserves_tac] through every handler, that such a
    [Q] holds of every reachable world.  [with_data S] is a property [S]
    of the settings holding both of the live settings and of what a
    reload would read from the data file; [with_data_store] makes it a
    [StoreInv] as soon as [S] is closed under the store's writes.  Two
    instances:
    - [sys_inv]: no two notes share an id (a note never publishes into
      another note's folder) and every recorded note has a status
      ([reachable_sys_inv]);
    - [ids_typed]: every recorded id is ten characters of the id
      alphabet, hence a single path segment ([reachable_ids_typed]).

    [run_actions] runs a session, a list of actions in order.
    [run_actions_keep_id] shows that a note keeps its id (and the data
    file the settings) through any session without a confirmed Forget
    of that note: the GitHub link the plugin handed out stays valid.
    Reload is part of it, which is why the data file must hold the
    settings.

    [check_now_converges] is the liveness property of the statuses:
    from any world connected to the repository, one "Check Now" past
    the cooldown is a step to a world where every status matches what
    the repository holds. *)

From S2P Require Import Prelude Settings StateManager Markdown GitHub Remote Main View.

Module System.

Import Settings.

Import GitHub StateManager Remote Main View.

Inductive action :=
| Reload
| EditSetting (f : SettingField) (v : string)
| Command (active : option Markdown.TFile)
| MenuClick (file : Markdown.TFile) (item : MenuItem) (confirmed : bool)
| ViewCheckNow (now : Z)
| ViewUnshare (path uuid : string) (confirmed : bool)
| ViewForget (path : string) (confirmed : bool)
| ViewCopy (url : string).

Section Machine.

Context `{RemoteApi R}.
Variable getRandomValues : nat -> nat -> Z.
Variable app : App.

Definition run_action (a : action) : VM R unit :=
  match a with
  | Reload => on_world (on_plugin onload_state)
  | EditSetting f v => on_world (on_plugin (setting_onChange f v))
  | Command active => on_world (publishCurrentNote getRandomValues app active)
  | MenuClick file item c => on_world (menu_click getRandomValues app file item c)
  | ViewCheckNow now => handleCheck app now
  | ViewUnshare path uuid c => on_world (unshare_click app path uuid c)
  | ViewForget path c => on_world (forget_click app path c)
  | ViewCopy url => on_world (copy_click url)
  end.

(** A session: the actions run one after the other. *)
Definition run_actions (l : list action) : VM R unit := st_for l run_action.

Inductive step : ViewWorld R -> ViewWorld R -> Prop :=
| step_run a v : step v (st_state (run_action a) v)
| step_remote v (r : R) : step v (set_world (set_remote r (vw_world v)) v).

Inductive reachable (v0 : ViewWorld R) : ViewWorld R -> Prop :=
| reach_init : reachable v0 v0
| reach_step v v' : reachable v0 v -> step v v' -> reachable v0 v'.

End Machine.

(** ** Invariants of the store

    A predicate of the plugin object that every operation of the store
    and of the settings keeps: the handlers reach the plugin object only
    through them, so it is an invariant of the whole machine
    ([reachable_store_inv] below). *)
Class StoreInv (Q : Plugin -> Prop) : Prop := {
  inv_saveSettings : preserves Q saveSettings;
  inv_getOrCreateUUID gr path rc : preserves Q (getOrCreateUUID gr path rc);
  inv_updateStatus path st : preserves Q (updateStatus path st);
  inv_removeUUID path : preserves Q (removeUUID path);
  inv_setting_onChange f v : preserves Q (setting_onChange f v);
  inv_onload_state : preserves Q onload_state;
}.

(** *** A property of the settings, live and on disk *)

Section WithData.

Variable S : ObsiGithubSettings -> Prop.

(** [S] holds of the live settings and of what a reload would make of
    the data file. *)
Definition with_data (p : Plugin) : Prop :=
  S (settings p) /\ forall d, data p = Some d -> S (assign DEFAULT_SETTINGS d).

Lemma with_data_ext p p' :
  settings p' = settings p -> data p' = data p -> with_data p -> with_data p'.
Proof. intros Hs Hd [Hi Hdat]. split; [by rewrite Hs|]. intros d Hd'. apply Hdat. congruence. Qed.

Lemma with_data_persisted p : S (settings p) -> persisted p -> with_data p.
Proof. intros Hi Hp. split; [done|]. intros d Hd. rewrite Hp in Hd. injection Hd as <-. by rewrite assign_to_data. Qed.

(** The writes of the store and of the settings tab. *)
Hypothesis S_default : S DEFAULT_SETTINGS.
Hypothesis S_alloc : forall path u s,
  is_uuid u = true -> (forall k, fileMap s !! k <> Some u) -> S s -> S (put_uuid path u s).
Hypothesis S_status : forall path st s, S s -> S (set_fileStatus (<[path:=st]> (fileStatus s)) s).
Hypothesis S_remove : forall path s, S s -> S (set_fileMap (delete path (fileMap s)) s).
Hypothesis S_edit : forall f v s, S s -> S (set_field f v s).

Lemma with_data_store : StoreInv with_data.
Proof.
  split.
  - intros p [Hs _]. by apply with_data_persisted.
  - intros gr path rc p Hp. unfold st_state.
    destruct (getOrCreateUUID gr path rc p) as [[u|e] p'] eqn:E; cbn [snd].
    + destruct (getOrCreateUUID_ok_cases _ _ _ _ _ _ E) as [(_ & _ & ->)|(Hu & Hf & Hs & Hper)]; [done|].
      apply with_data_persisted; [rewrite Hs; apply S_alloc, Hp|]; done.
    + destruct (getOrCreateUUID_throw_cases _ _ _ _ _ _ E) as (Hs & Hd & _). by eapply with_data_ext.
  - intros path st p [Hs _]. apply with_data_persisted; [|apply saveSettings_persisted].
    rewrite updateStatus_settings. by apply S_status.
  - intros path p Hp. cbv [st_state removeUUID st_bind st_gets st_ret].
    destruct (getUUID path p) as [u|]; [destruct (js_truthy u)|]; [|done..].
    cbv [st_modify]. apply with_data_persisted; [|apply saveSettings_persisted].
    exact (S_remove path _ (proj1 Hp)).
  - intros f v p [Hs _]. apply with_data_persisted; [exact (S_edit f v _ Hs)|apply saveSettings_persisted].
  - intros p [_ Hd]. cbv [st_state onload_state st_bind loadSettings st_modify]. cbn.
    split; [|exact Hd]. destruct (data p) as [d|] eqn:E; cbn; [by apply Hd|exact S_default].
Qed.

End WithData.

(** *** The records: ids pairwise distinct, every record with a status *)

Definition ids_ok (s : ObsiGithubSettings) : Prop :=
  map_injective (fileMap s) /\ status_covers s.

Definition sys_inv : Plugin -> Prop := with_data ids_ok.

Lemma ids_ok_default : ids_ok DEFAULT_SETTINGS.
Proof.
  unfold ids_ok, status_covers, map_injective, DEFAULT_SETTINGS. cbn [fileMap fileStatus].
  split; [intros k1 k2 v H1; by rewrite lookup_empty in H1|intros k [? Hk]; by rewrite lookup_empty in Hk].
Qed.

#[export] Instance sys_inv_store : StoreInv sys_inv.
Proof.
  apply with_data_store; [apply ids_ok_default|..].
  - intros path u s _ Hf [Hinj Hc]. split.
    + rewrite fileMap_put_uuid. by apply map_injective_insert_fresh.
    + intros k. rewrite fileMap_put_uuid, fileStatus_put_uuid, !lookup_insert.
      case_decide; [done|]. apply Hc.
  - intros path st s [Hinj Hc]. split; [done|]. intros k Hk. cbn in *.
    rewrite lookup_insert. case_decide; [done|]. by apply Hc.
  - intros path s [Hinj Hc]. split; [by apply map_injective_delete|].
    intros k Hk. apply Hc. cbn in Hk. rewrite lookup_delete_is_Some in Hk. by destruct Hk as [_ ?].
  - intros f v s H. by destruct f.
Qed.

(** *** The type of the ids: ten characters of the alphabet *)

Definition ids_typed (s : ObsiGithubSettings) : Prop :=
  map_Forall (fun _ u => is_uuid u = true) (fileMap s).

#[export] Instance ids_typed_store : StoreInv (with_data ids_typed).
Proof.
  apply with_data_store; [apply map_Forall_empty|..].
  - intros path u s Hu _ H. unfold ids_typed. rewrite fileMap_put_uuid. by apply map_Forall_insert_2.
  - intros path st s H. exact H.
  - intros path s H. by apply map_Forall_delete.
  - intros f v s H. by destruct f.
Qed.

(** *** The handlers *)

(** The handlers only reach the plugin object through the operations of
    the store and the settings: an invariant of the plugin that
    [updateStatus] keeps is kept by everything the view and the
    uploads do. *)
Section Handlers.

Context `{RemoteApi R}.
Variable app : App.
Variable Q : Plugin -> Prop.
Hypothesis Q_updateStatus : forall path st, preserves Q (updateStatus path st).

#[local] Hint Resolve Q_updateStatus : obsi.

Lemma preserves_writeText text : preserves (of_plugin (R:=R) Q) (writeText text).
Proof. intros w Hw. unfold st_state, writeText. by destruct (w_clipboard_ok w). Qed.

Lemma preserves_vault_read path : preserves (of_plugin (R:=R) Q) (vault_read app path).
Proof. unfold vault_read. preserves_tac. Qed.

#[local] Hint Resolve preserves_writeText preserves_vault_read : obsi.

Lemma preserves_upload_assets uuid assets c : preserves (of_plugin Q) (upload_assets (R:=R) app uuid assets c).
Proof.
  revert c. induction assets as [|a assets IH]; intros c; cbn [upload_assets];
    unfold get_settings; preserves_tac.
Qed.

Lemma preserves_draw_rows doCheck entries : preserves (of_plugin Q) (draw_rows (R:=R) app doCheck entries).
Proof.
  induction entries as [|[path uuid] entries IH]; cbn [draw_rows]; [preserves_tac|].
  unfold draw_row, get_settings. preserves_tac.
Qed.

#[local] Hint Resolve preserves_upload_assets preserves_draw_rows : obsi.

Lemma preserves_drawList doCheck : preserves (of_plugin Q) (drawList (R:=R) app doCheck).
Proof. unfold drawList. preserves_tac. Qed.

End Handlers.

Lemma preserves_on_world `{RemoteApi R} (P : Plugin -> Prop) {A} (m : WM R A) :
  preserves (of_plugin P) m -> preserves (fun v : ViewWorld R => P (w_plugin (vw_world v))) (on_world m).
Proof.
  intros Hm v Hv. pose proof (Hm _ Hv) as Hm'. unfold st_state in Hm'.
  unfold on_world, st_focus, st_state. destruct (m (vw_world v)) as [r t]. exact Hm'.
Qed.

#[export] Hint Resolve preserves_writeText preserves_vault_read preserves_upload_assets
  preserves_draw_rows preserves_drawList preserves_on_world : obsi.

(** One case per action, each handler unfolded down to the operations
    of the store. *)
Ltac handler_case :=
  cbn [run_action]; try apply preserves_on_world;
  unfold publishCurrentNote, menu_click, publishNote, publish_uploads, checkRequirements, checkStatus_click, copyLink_click,
    removeShare_click, handleCheck, unshare_click, forget_click, copy_click, get_settings; preserves_tac.
Ltac handler_cases a := destruct a; handler_case.

Section Reachable.

Context `{RemoteApi R}.
Variable getRandomValues : nat -> nat -> Z.
Variable app : App.
Context (Q : Plugin -> Prop) `{!StoreInv Q}.

#[local] Hint Resolve inv_saveSettings inv_getOrCreateUUID inv_updateStatus inv_removeUUID
  inv_setting_onChange inv_onload_state : obsi.

(** Every handler keeps an invariant of the store. *)
Lemma run_action_inv a :
  preserves (fun v : ViewWorld R => Q (w_plugin (vw_world v))) (run_action getRandomValues app a).
Proof. handler_cases a. apply preserves_modify. done. Qed.

Lemma reachable_store_inv (v0 v : ViewWorld R) :
  Q (w_plugin (vw_world v0)) -> reachable getRandomValues app v0 v -> Q (w_plugin (vw_world v)).
Proof.
  intros H0 Hr. induction Hr as [|v v' _ IH Hs]; [done|].
  destruct Hs as [a v|v r]; [by apply run_action_inv|exact IH].
Qed.

End Reachable.

Section Invariants.

Context `{RemoteApi R}.
Variable getRandomValues : nat -> nat -> Z.
Variable app : App.

(** C4: the records stay consistent in every reachable state.  From a
    world whose records and data file satisfy [sys_inv] (a fresh
    install does), any sequence of user actions (reloads, settings
    edits, publications, status checks, unshares, forgets), whatever the
    remote answers and whatever is pushed to the repository from
    outside, reaches only worlds where no two notes share an id,
    every recorded note has a status, and the data file a reload would
    read satisfies the same. *)
Theorem reachable_sys_inv (v0 v : ViewWorld R) :
  sys_inv (w_plugin (vw_world v0)) -> reachable getRandomValues app v0 v ->
  sys_inv (w_plugin (vw_world v)).
Proof. apply reachable_store_inv, _. Qed.

(** C6: every recorded id is an id.  From a world whose records are ids
    (a fresh install has none), every reachable world records, for
    each note, ten characters of the 62-symbol alphabet, in memory and
    in the data file: an id never contains a [/], so [<id>/note.md] and
    the asset paths name one folder of the repository's root. *)
Theorem reachable_ids_typed (v0 v : ViewWorld R) :
  with_data ids_typed (w_plugin (vw_world v0)) -> reachable getRandomValues app v0 v ->
  forall path u, getUUID path (w_plugin (vw_world v)) = Some u ->
    is_uuid u = true /\ segment u = u.
Proof.
  intros H0 Hr path u Hu. destruct (reachable_store_inv getRandomValues app _ v0 v H0 Hr) as [Ht _].
  pose proof (map_Forall_lookup_1 _ _ _ _ Ht Hu) as Hid. split; [exact Hid|by apply is_uuid_segment].
Qed.

End Invariants.

(** ** The statuses can always be brought up to date *)

(** Every recorded note's status says whether the repository holds
    something at or below its id. *)
Definition statuses_match (w : World MemRemote) : Prop :=
  forall path u, fileMap (settings (w_plugin w)) !! path = Some u ->
    getStatus path (w_plugin w) = if occupied u (remote_files w) then published else unshared.

Section Liveness.

Variable getRandomValues : nat -> nat -> Z.
Variable app : App.

(** C25: the statuses converge.  From any world whose service reaches
    the repository with the settings' token, whatever happened before
    (statuses left stale by interrupted checks, changes pushed from
    outside), one "Check Now" at any time past the cooldown is a step
    to a world where every recorded note's status matches the
    repository, with the records and the repository unchanged.  Since
    the user can always wait out the cooldown, a consistent world is
    always one step away. *)
Theorem check_now_converges (v : ViewWorld MemRemote) tok now :
  reaches (vw_world v) tok -> synced (w_plugin (vw_world v)) ->
  (lastCheckTime v + CHECK_COOLDOWN <= now)%Z ->
  exists v', step getRandomValues app v v' /\ statuses_match (vw_world v') /\
    fileMap (settings (w_plugin (vw_world v'))) = fileMap (settings (w_plugin (vw_world v))) /\
    remote_files (vw_world v') = remote_files (vw_world v).
Proof.
  intros Hr Hsy Hc. exists (st_state (run_action getRandomValues app (ViewCheckNow now)) v).
  split; [apply step_run|]. cbn [run_action].
  destruct (handleCheck_world app now v Hc) as (Hp & Hrem & _).
  destruct (drawList_check_answer app (vw_world v) tok Hr Hsy) as (Hs & Hm & Hf).
  unfold statuses_match, remote_files in *. rewrite Hp, Hrem, Hm, Hf.
  split_and!; [|done|done]. intros path u Hu. by apply Hs.
Qed.

End Liveness.

(** ** A published note keeps its id *)

(** The note at [path] has the id [u], and the data file holds the
    settings (a reload reads them back). *)
Definition keeps_id (path u : string) (p : Plugin) : Prop :=
  persisted p /\ getUUID path p = Some u.

Section IdStable.

Variables path u : string.
Hypothesis Hu : js_truthy u = true.

Lemma keeps_saveSettings : preserves (keeps_id path u) saveSettings.
Proof. intros p [_ Hg]. split; [apply saveSettings_persisted|exact Hg]. Qed.

Lemma keeps_getOrCreateUUID gr path' rc : preserves (keeps_id path u) (getOrCreateUUID gr path' rc).
Proof.
  intros p [Hp Hg]. destruct (decide (path' = path)) as [->|Hne].
  { unfold st_state. by rewrite (getOrCreateUUID_existing gr path rc p u Hg Hu). }
  pose proof (getOrCreateUUID_outcome gr path' rc p) as Ho. unfold st_state.
  destruct (getOrCreateUUID gr path' rc p) as [r p']. cbn [snd]. unfold keeps_id, getUUID in *.
  destruct Ho as [->|[[Hs Hd]|(v & _ & Hs & Hper)]]; [by split| |].
  - split; [unfold persisted; by rewrite Hs, Hd|by rewrite Hs].
  - split; [done|]. by rewrite Hs, fileMap_put_uuid, lookup_insert_ne.
Qed.

Lemma keeps_updateStatus path' st : preserves (keeps_id path u) (updateStatus path' st).
Proof.
  intros p [_ Hg]. destruct (updateStatus_effect path' st p) as (_ & _ & Hm & _).
  split; [reflexivity|unfold getUUID in *; by rewrite Hm].
Qed.

Lemma keeps_removeUUID path' : path' <> path -> preserves (keeps_id path u) (removeUUID path').
Proof.
  intros Hne p [Hp Hg]. cbv [st_state removeUUID st_bind st_gets st_ret].
  destruct (getUUID path' p) as [v|]; [destruct (js_truthy v)|]; [|by split..].
  cbv [st_modify]. split; [apply saveSettings_persisted|].
  unfold getUUID in *. cbn. by rewrite lookup_delete_ne.
Qed.

Lemma keeps_setting_onChange f v : preserves (keeps_id path u) (setting_onChange f v).
Proof. intros p [_ Hg]. split; [apply saveSettings_persisted|]. unfold getUUID in *. by destruct f. Qed.

Lemma keeps_onload_state : preserves (keeps_id path u) onload_state.
Proof.
  intros p [Hp Hg]. cbv [st_state onload_state st_bind loadSettings st_modify]. cbn.
  rewrite Hp. cbn. rewrite assign_to_data. split; [reflexivity|exact Hg].
Qed.

#[local] Hint Resolve keeps_saveSettings keeps_getOrCreateUUID keeps_updateStatus keeps_removeUUID
  keeps_setting_onChange keeps_onload_state : obsi.

Context `{RemoteApi R}.
Variable getRandomValues : nat -> nat -> Z.
Variable app : App.

(** C5: a published note keeps its link.  When the note at [path] has
    the id [u] and the data file holds the settings, any session of
    user actions that does not contain a confirmed "Forget" of that
    note (reloads, settings edits, publications, status checks,
    unshares, other forgets) ends with the note still recorded under
    [u], and the data file still holding the settings, whatever the
    remote answers: the GitHub link the plugin handed out keeps naming
    the note's folder.  Unshare (from the menu or the view) keeps the
    id, against the doc comment of [removeUUID] (state_manager.ts:99-100)
    that says it runs on "Unshare"; only Forget calls it. *)
Theorem run_actions_keep_id l (v : ViewWorld R) :
  keeps_id path u (w_plugin (vw_world v)) -> ViewForget path true ∉ l ->
  keeps_id path u (w_plugin (vw_world (st_state (run_actions getRandomValues app l) v))).
Proof.
  intros H0 Hl. unfold run_actions. apply st_for_invariant; [|exact H0].
  intros a v' Ha. assert (a <> ViewForget path true) as Hne by (intros ->; by apply Hl, list_elem_of_In).
  revert v'. change (preserves (fun v => keeps_id path u (w_plugin (vw_world v))) (run_action getRandomValues app a)).
  destruct a as [| | | | | |p' []|url];
    [handler_case..|assert (p' <> path) by congruence; handler_case| |handler_case].
  - apply preserves_modify. done.
  - cbn [run_action]. apply preserves_on_world. unfold forget_click. cbn [negb]. preserves_tac.
Qed.

End IdStable.

(** ** Concrete runs *)

Lemma fresh_sys_inv : sys_inv (w_plugin (vw_world (mkViewWorld fresh_world 0))).
Proof. split; [apply ids_ok_default|done]. Qed.

Definition after_publish : ViewWorld Remote.MemRemote :=
  st_state (run_action rng0 demo_app (Command (Some Markdown.notes_md))) (mkViewWorld fresh_world 0).

Definition after_publish_forget : ViewWorld Remote.MemRemote :=
  st_state (run_action rng0 demo_app (ViewForget "Notes.md" true)) after_publish.

Lemma reachable_sys_inv_witness :
  sys_inv (w_plugin (vw_world after_publish_forget)) /\
  fileMap (settings (w_plugin (vw_world after_publish_forget))) = ∅.
Proof.
  split; [|vm_compute; reflexivity].
  apply (reachable_sys_inv rng0 demo_app (mkViewWorld fresh_world 0)); [apply fresh_sys_inv|].
  eapply reach_step; [eapply reach_step; [apply reach_init|apply step_run]|apply step_run].
Defined.

Lemma reachable_ids_typed_witness : is_uuid "sV8dGlO1W9" = true /\ segment "sV8dGlO1W9" = "sV8dGlO1W9".
Proof.
  refine (reachable_ids_typed rng0 demo_app (mkViewWorld fresh_world 0) after_publish _ _ "Notes.md" _ _).
  - split; [apply map_Forall_empty|done].
  - eapply reach_step; [apply reach_init|apply step_run].
  - vm_compute. reflexivity.
Defined.

(** The folder of [Notes.md] was deleted on GitHub from outside: the
    record still says [published]. *)
Definition stale_view : ViewWorld Remote.MemRemote :=
  mkViewWorld (mkWorld published_plugin (demo_repo (<["u2/note.md" := "# M"]> ∅)) [] None true) 0.

Lemma check_now_converges_witness :
  (getStatus "Notes.md" (w_plugin (vw_world stale_view)) = published /\
   occupied "u1" (remote_files (vw_world stale_view)) = false) /\
  exists v', step rng0 demo_app stale_view v' /\ statuses_match (vw_world v') /\
    fileMap (settings (w_plugin (vw_world v'))) = fileMap (settings (w_plugin (vw_world stale_view))) /\
    remote_files (vw_world v') = remote_files (vw_world stale_view).
Proof.
  split; [split; vm_compute; reflexivity|].
  apply (check_now_converges rng0 demo_app stale_view "tok" 30000).
  - split; [by eexists|reflexivity].
  - exact published_synced.
  - cbn. unfold CHECK_COOLDOWN. lia.
Defined.

(** A session after the first publication: a live check, a reload, a
    branch edit, an unshare from the view, a republication, a forget
    that is not confirmed, a removal from the file menu. *)
Definition session : list action :=
  [ViewCheckNow 100000; Reload; EditSetting FBranch "dev"; ViewUnshare "Notes.md" "sV8dGlO1W9" true;
   MenuClick Markdown.notes_md (MPublish "Publish to GitHub") true; ViewForget "Notes.md" false;
   MenuClick Markdown.notes_md MRemoveShare true].

Lemma run_actions_keep_id_witness :
  keeps_id "Notes.md" "sV8dGlO1W9" (w_plugin (vw_world (st_state (run_actions rng0 demo_app session) after_publish))).
Proof.
  apply run_actions_keep_id; [reflexivity|split; vm_compute; reflexivity|].
  intros Hin. repeat (apply elem_of_cons in Hin as [Hin|Hin]; [discriminate Hin|]).
  by apply elem_of_nil in Hin.
Defined.

End System.
